(** * Attribution and idempotent action engine: a shallow embedding

    The development follows [core/services.py], [core/models.py],
    [operations/tasks.py], [operations/models.py] and
    [integrations/models.py].  Database tables are lists of rows in
    insertion order, a foreign key is the primary key of the row it
    points to, an aware UTC [datetime] is its number of microseconds
    since the Unix epoch, a [date] its number of days since the epoch
    and a two-place [Decimal] its number of cents.  Every entry point
    receives the instant [timezone.now()] as the argument [now]. *)

From Stdlib Require Import ZArith List String Ascii Bool Lia DecimalString DecimalZ Sorted.
Import ListNotations.

Local Open Scope string_scope.
Local Open Scope Z_scope.

(** ** Python and ORM primitives *)

Module Py.

(** Exceptions the modelled code can raise. *)
Inductive exn : Type :=
| ValueError (msg : string)
| TypeError
| MultipleObjectsReturned
| DataError
| IntegrityError.

Inductive result (A : Type) : Type :=
| Ok (a : A)
| Raise (e : exn).
Arguments Ok {A} a.
Arguments Raise {A} e.

(** Truth value of a [str]. *)
Definition truthy (s : string) : bool := negb (s =? "")%string.

(** [s or d] on strings. *)
Definition str_or (s d : string) : string := if truthy s then s else d.

(** [s.split(',')[0]]: the text before the first comma. *)
Fixpoint before_comma (s : string) : string :=
  match s with
  | EmptyString => EmptyString
  | String ch s' => if (ch =? ",")%char then EmptyString else String ch (before_comma s')
  end.

(** [ch.isspace()] for a character below 256. *)
Definition is_space (ch : ascii) : bool :=
  let n := nat_of_ascii ch in
  ((9 <=? n) && (n <=? 13) || (28 <=? n) && (n <=? 32) || (n =? 133) || (n =? 160))%nat.

Fixpoint lstrip (s : string) : string :=
  match s with
  | EmptyString => EmptyString
  | String ch s' => if is_space ch then lstrip s' else s
  end.

Fixpoint rstrip (s : string) : string :=
  match s with
  | EmptyString => EmptyString
  | String ch s' =>
      match rstrip s' with
      | EmptyString => if is_space ch then EmptyString else String ch EmptyString
      | r => String ch r
      end
  end.

(** [s.strip()]. *)
Definition strip (s : string) : string := rstrip (lstrip s).

(** [str(n)] for an [int]. *)
Definition str_int (n : Z) : string := NilZero.string_of_int (Z.to_int n).

Fixpoint zeros (n : nat) : string :=
  match n with
  | O => ""
  | S n' => "0" ++ zeros n'
  end.

(** [n] in decimal, left-padded with zeros to [w] digits. *)
Definition zpad (w : nat) (n : Z) : string :=
  let s := str_int n in
  zeros (w - String.length s) ++ s.

(** [str(d)] for a [Decimal] with two places, held in cents. *)
Definition str_decimal (cents : Z) : string :=
  let a := Z.abs cents in
  (if cents <? 0 then "-" else "") ++ str_int (a / 100) ++ "." ++ zpad 2 (a mod 100).

Definition usec_per_sec : Z := 1000000.
Definition usec_per_day : Z := 86400 * usec_per_sec.

(** [timedelta(days=d)] and [timedelta(hours=h)] in microseconds. *)
Definition days (d : Z) : Z := d * usec_per_day.
Definition hours (h : Z) : Z := h * 3600 * usec_per_sec.

(** [dt.date()]: the day number of an instant. *)
Definition date_of (t : Z) : Z := t / usec_per_day.

(** Year, month and day of a day number (proleptic Gregorian). *)
Definition civil_of_days (d : Z) : Z * Z * Z :=
  let z := d + 719468 in
  let era := z / 146097 in
  let doe := z - era * 146097 in
  let yoe := (doe - doe / 1460 + doe / 36524 - doe / 146096) / 365 in
  let doy := doe - (365 * yoe + yoe / 4 - yoe / 100) in
  let mp := (5 * doy + 2) / 153 in
  let dd := doy - (153 * mp + 2) / 5 + 1 in
  let m := if mp <? 10 then mp + 3 else mp - 9 in
  let y := yoe + era * 400 + (if m <=? 2 then 1 else 0) in
  (y, m, dd).

(** [strftime("%Y-%m")], the month key of the recall generator. *)
Definition strftime_Ym (t : Z) : string :=
  let '(y, m, _) := civil_of_days (date_of t) in
  zpad 4 y ++ "-" ++ zpad 2 m.

(** [str(d)] for a [date]. *)
Definition str_date (d : Z) : string :=
  let '(y, m, dd) := civil_of_days d in
  zpad 4 y ++ "-" ++ zpad 2 m ++ "-" ++ zpad 2 dd.

(** [strftime("%Y-%m-%d")]. *)
Definition strftime_Ymd (t : Z) : string := str_date (date_of t).

Definition hour_of (t : Z) : Z := (t mod usec_per_day) / (3600 * usec_per_sec).
Definition minute_of (t : Z) : Z := ((t mod usec_per_day) / (60 * usec_per_sec)) mod 60.
Definition second_of (t : Z) : Z := ((t mod usec_per_day) / usec_per_sec) mod 60.
Definition microsecond_of (t : Z) : Z := t mod usec_per_sec.

(** [strftime("%H:%M")]. *)
Definition strftime_HM (t : Z) : string :=
  zpad 2 (hour_of t) ++ ":" ++ zpad 2 (minute_of t).

(** [dt.isoformat(sep)] of an aware UTC instant: the fraction is
    printed only when it is not zero. *)
Definition isoformat_sep (sep : string) (t : Z) : string :=
  str_date (date_of t) ++ sep
  ++ zpad 2 (hour_of t) ++ ":" ++ zpad 2 (minute_of t) ++ ":" ++ zpad 2 (second_of t)
  ++ (if microsecond_of t =? 0 then "" else "." ++ zpad 6 (microsecond_of t))
  ++ "+00:00".

Definition isoformat (t : Z) : string := isoformat_sep "T" t.

(** [str(dt)]. *)
Definition str_datetime (t : Z) : string := isoformat_sep " " t.

(** JSON values stored in a [JSONField]; an object is a [dict] in
    insertion order. *)
#[local] Set Warnings "-register-all".
Inductive json : Type :=
| JNull
| JInt (n : Z)
| JStr (s : string)
| JObj (o : list (string * json)).

Definition dict : Type := list (string * json).

Fixpoint dict_get (k : string) (d : dict) : option json :=
  match d with
  | [] => None
  | (k', v) :: d' => if (k' =? k)%string then Some v else dict_get k d'
  end.

(** [d[k] = v]: replaces the value of an existing key in place,
    appends a new key. *)
Fixpoint dict_set (k : string) (v : json) (d : dict) : dict :=
  match d with
  | [] => [(k, v)]
  | (k', v') :: d' =>
      if (k' =? k)%string then (k, v) :: d' else (k', v') :: dict_set k v d'
  end.

Definition dict_keys (d : dict) : list string := map fst d.

(** [.order_by(...)]: a stable sort for the order [le]. *)
Fixpoint insert_by {A : Type} (le : A -> A -> bool) (x : A) (l : list A) : list A :=
  match l with
  | [] => [x]
  | y :: l' => if le x y then x :: l else y :: insert_by le x l'
  end.

Definition order_by {A : Type} (le : A -> A -> bool) (l : list A) : list A :=
  fold_right (insert_by le) [] l.

(** The next value of an auto-increment primary key. *)
Definition next_pk (ids : list Z) : Z := 1 + fold_right Z.max 0 ids.

(** A [varchar(n)] column of PostgreSQL takes a text of at most [n]
    characters, and a longer one when all the characters past the
    [n]-th are spaces; it then holds the first [n] characters. *)
Fixpoint all_spaces (s : string) : bool :=
  match s with
  | EmptyString => true
  | String ch s' => (ch =? " ")%char && all_spaces s'
  end.

Definition varchar_fits (n : nat) (s : string) : bool :=
  (String.length s <=? n)%nat
  || all_spaces (String.substring n (String.length s - n) s).

Definition varchar (n : nat) (s : string) : string := String.substring 0 n s.

(** [for x in l: body]: an exception raised by the body leaves the
    loop; the state reached by then stays. *)
Fixpoint for_each {St T : Type} (body : St -> T -> result St) (l : list T) (st : St)
    : St * option exn :=
  match l with
  | [] => (st, None)
  | x :: l' =>
      match body st x with
      | Ok st' => for_each body l' st'
      | Raise e => (st, Some e)
      end
  end.

End Py.

(** ** Models ([core/models.py], [integrations/models.py], [operations/models.py])

    Each model is a record of the columns the services read or write;
    a field keeps the name of its column. *)

Module Clinic.
Record t : Type := mk {
  id : Z;
  name : string;
  is_active : bool
}.
End Clinic.

Module Patient.
Record t : Type := mk {
  id : Z;
  clinic : Z;
  first_name : string;
  last_name : string;
  email : string;
  phone : string;
  sms_consent : bool;
  email_consent : bool;
  last_appointment_date : option Z
}.

Definition full_name (p : t) : string := first_name p ++ " " ++ last_name p.
End Patient.

Module Appointment.
Record t : Type := mk {
  id : Z;
  clinic : Z;
  patient : Z;
  cliniko_id : string;
  scheduled_at : Z;
  status : string
}.
End Appointment.

Module Invoice.
Record t : Type := mk {
  id : Z;
  total_amount : Z;
  paid_at : option Z
}.
End Invoice.

Module CallEvent.
Record t : Type := mk {
  id : Z;
  clinic : Z;
  call_sid : string;
  caller_phone : string;
  duration_seconds : Z;
  timestamp : Z;
  campaign_id : string;
  campaign_name : string;
  is_processed : bool;
  resulted_in_appointment : bool
}.

(** [call.is_processed = True]. *)
Definition set_processed (c : t) : t :=
  mk (id c) (clinic c) (call_sid c) (caller_phone c) (duration_seconds c)
     (timestamp c) (campaign_id c) (campaign_name c) true (resulted_in_appointment c).

(** [__str__]. *)
Definition str (c : t) : string := "Call " ++ call_sid c ++ " from " ++ caller_phone c.

(** The property [is_missed]. *)
Definition is_missed (c : t) : bool :=
  (duration_seconds c <? 30) && negb (resulted_in_appointment c).
End CallEvent.

Module MarketingTouch.
Record t : Type := mk {
  id : Z;
  clinic : Z;
  email : string;
  utm_source : string;
  utm_medium : string;
  utm_campaign : string;
  timestamp : Z
}.

(** [__str__]. *)
Definition str (m : t) : string :=
  "Touch: " ++ utm_source m ++ "/" ++ utm_medium m ++ " at " ++ Py.str_datetime (timestamp m).
End MarketingTouch.

(** The content types an attribution refers to. *)
Inductive ContentType : Type :=
| CT_CallEvent
| CT_MarketingTouch.

(** A source record handed to the services: a [CallEvent] or a
    [MarketingTouch] instance. *)
Inductive Source : Type :=
| SrcCall (c : CallEvent.t)
| SrcTouch (m : MarketingTouch.t).

Module Attribution.
Record t : Type := mk {
  id : Z;
  patient : Z;
  clinic : Z;
  attribution_type : string;
  status : string;
  content_type : option ContentType;
  object_id : option Z;
  campaign_name : string;
  campaign_source : string;
  campaign_medium : string;
  evidence_json : Py.dict;
  first_invoice_amount : option Z;
  first_invoice_date : option Z;
  overridden_by : option Z;
  override_reason : string;
  overridden_at : option Z;
  created_at : Z;
  updated_at : Z
}.
End Attribution.

Module AuditLog.
Record t : Type := mk {
  pk : option Z;
  user : option Z;
  clinic : Z;
  action : string;
  content_type : ContentType;
  object_id : Z;
  object_repr : string;
  changes_json : Py.dict;
  ip_address : option string;
  user_agent : string;
  timestamp : Z
}.
End AuditLog.

(** The entries of [request.META] that [log_audit] reads. *)
Module Request.
Record t : Type := mk {
  HTTP_X_FORWARDED_FOR : option string;
  REMOTE_ADDR : option string;
  HTTP_USER_AGENT : option string
}.
End Request.

Module Task.
Record t : Type := mk {
  clinic : Z;
  patient : Z;
  task_type : string;
  title : string;
  description : string;
  priority : Z;
  status : string;
  source_type : string;
  source_id : option Z;
  idempotency_key : option string
}.
End Task.

Module ReviewRequest.
Record t : Type := mk {
  clinic : Z;
  patient : Z;
  appointment : Z;
  status : string;
  channel : string;
  scheduled_at : Z;
  idempotency_key : string
}.
End ReviewRequest.

Module TreatmentPlan.
Record t : Type := mk {
  id : Z;
  clinic : Z;
  patient : Z;
  title : string;
  status : string;
  sent_at : option Z;
  created_at : Z
}.
End TreatmentPlan.

(** The database: one list of rows per table. *)
Record DB : Type := mkDB {
  clinics : list Clinic.t;
  patients : list Patient.t;
  appointments : list Appointment.t;
  call_events : list CallEvent.t;
  marketing_touches : list MarketingTouch.t;
  treatment_plans : list TreatmentPlan.t;
  attributions : list Attribution.t;
  audit_logs : list AuditLog.t;
  tasks : list Task.t;
  review_requests : list ReviewRequest.t
}.

Definition with_call_events (db : DB) (l : list CallEvent.t) : DB :=
  mkDB (clinics db) (patients db) (appointments db) l (marketing_touches db)
       (treatment_plans db) (attributions db) (audit_logs db) (tasks db) (review_requests db).

Definition with_attributions (db : DB) (l : list Attribution.t) : DB :=
  mkDB (clinics db) (patients db) (appointments db) (call_events db) (marketing_touches db)
       (treatment_plans db) l (audit_logs db) (tasks db) (review_requests db).

Definition with_audit_logs (db : DB) (l : list AuditLog.t) : DB :=
  mkDB (clinics db) (patients db) (appointments db) (call_events db) (marketing_touches db)
       (treatment_plans db) (attributions db) l (tasks db) (review_requests db).

Definition with_tasks (db : DB) (l : list Task.t) : DB :=
  mkDB (clinics db) (patients db) (appointments db) (call_events db) (marketing_touches db)
       (treatment_plans db) (attributions db) (audit_logs db) l (review_requests db).

Definition with_review_requests (db : DB) (l : list ReviewRequest.t) : DB :=
  mkDB (clinics db) (patients db) (appointments db) (call_events db) (marketing_touches db)
       (treatment_plans db) (attributions db) (audit_logs db) (tasks db) l.

(** ** Attribution services ([core/services.py]) *)

Module Services.

Definition newer_call (a b : CallEvent.t) : bool :=
  CallEvent.timestamp b <=? CallEvent.timestamp a.

Definition newer_touch (a b : MarketingTouch.t) : bool :=
  MarketingTouch.timestamp b <=? MarketingTouch.timestamp a.

(** Candidate set A: the list [call_events] of [create_attribution]. *)
Definition find_call_events (db : DB) (patient : Patient.t)
    (lookback_date paid_at : Z) : list CallEvent.t :=
  if Py.truthy (Patient.phone patient) then
    Py.order_by newer_call
      (filter (fun c =>
                 (CallEvent.clinic c =? Patient.clinic patient)
                 && (CallEvent.caller_phone c =? Patient.phone patient)%string
                 && (lookback_date <=? CallEvent.timestamp c)
                 && (CallEvent.timestamp c <=? paid_at))
              (call_events db))
  else [].

(** Candidate set B: the list [marketing_touches]. *)
Definition find_marketing_touches (db : DB) (patient : Patient.t)
    (lookback_date paid_at : Z) : list MarketingTouch.t :=
  if Py.truthy (Patient.email patient) then
    Py.order_by newer_touch
      (filter (fun m =>
                 (MarketingTouch.clinic m =? Patient.clinic patient)
                 && (lookback_date <=? MarketingTouch.timestamp m)
                 && (MarketingTouch.timestamp m <=? paid_at)
                 && (MarketingTouch.email m =? Patient.email patient)%string)
              (marketing_touches db))
  else [].

(** The evidence dict as it stands before the ranking. *)
Definition initial_evidence (patient : Patient.t) (invoice : Invoice.t)
    (paid_at lookback_date now : Z)
    (calls : list CallEvent.t) (touches : list MarketingTouch.t) : Py.dict :=
  let evidence :=
    [ ("invoice_id", Py.JInt (Invoice.id invoice));
      ("invoice_amount", Py.JStr (Py.str_decimal (Invoice.total_amount invoice)));
      ("paid_at", Py.JStr (Py.isoformat paid_at));
      ("lookback_start", Py.JStr (Py.isoformat lookback_date));
      ("evaluated_at", Py.JStr (Py.isoformat now)) ] in
  let evidence :=
    if Py.truthy (Patient.phone patient)
    then Py.dict_set "call_events_found" (Py.JInt (Z.of_nat (List.length calls))) evidence
    else evidence in
  Py.dict_set "marketing_touches_found" (Py.JInt (Z.of_nat (List.length touches))) evidence.

(** The local variables the ranking assigns. *)
Record Ranking : Type := mkRanking {
  attributed_source : option Source;
  attribution_type : string;
  campaign_name : string;
  campaign_source : string;
  campaign_medium : string;
  evidence : Py.dict
}.

Definition is_paid_medium (m : string) : bool :=
  existsb (String.eqb m) ["cpc"; "ppc"; "paid"].

Definition no_source (r : Ranking) : bool :=
  match attributed_source r with
  | None => true
  | Some _ => false
  end.

(** First loop: the first call with a campaign id. *)
Definition rank_paid_call (calls : list CallEvent.t) (r : Ranking) : Ranking :=
  match find (fun c => Py.truthy (CallEvent.campaign_id c)) calls with
  | Some call =>
      mkRanking (Some (SrcCall call)) "call"
                (Py.str_or (CallEvent.campaign_name call) "") "phone" "call"
                (Py.dict_set "attribution_reason" (Py.JStr "Matched paid campaign call")
                             (evidence r))
  | None => r
  end.

(** Second loop: the first touch with a paid medium. *)
Definition rank_paid_touch (touches : list MarketingTouch.t) (r : Ranking) : Ranking :=
  if no_source r then
    match find (fun m => is_paid_medium (MarketingTouch.utm_medium m)) touches with
    | Some touch =>
        mkRanking (Some (SrcTouch touch)) "marketing_touch"
                  (Py.str_or (MarketingTouch.utm_campaign touch) "")
                  (Py.str_or (MarketingTouch.utm_source touch) "")
                  (Py.str_or (MarketingTouch.utm_medium touch) "")
                  (Py.dict_set "attribution_reason" (Py.JStr "Matched paid marketing touch")
                               (evidence r))
    | None => r
    end
  else r.

(** Organic call: [call_events[0]]. *)
Definition rank_organic_call (calls : list CallEvent.t) (r : Ranking) : Ranking :=
  if no_source r then
    match calls with
    | call :: _ =>
        mkRanking (Some (SrcCall call)) "call" (campaign_name r) "organic" "call"
                  (Py.dict_set "attribution_reason" (Py.JStr "Matched organic call")
                               (evidence r))
    | [] => r
    end
  else r.

(** Organic touch: [marketing_touches[0]]. *)
Definition rank_organic_touch (touches : list MarketingTouch.t) (r : Ranking) : Ranking :=
  if no_source r then
    match touches with
    | touch :: _ =>
        mkRanking (Some (SrcTouch touch)) "marketing_touch" (campaign_name r)
                  (Py.str_or (MarketingTouch.utm_source touch) "organic")
                  (Py.str_or (MarketingTouch.utm_medium touch) "web")
                  (Py.dict_set "attribution_reason"
                               (Py.JStr "Matched organic marketing touch") (evidence r))
    | [] => r
    end
  else r.

Definition rank (calls : list CallEvent.t) (touches : list MarketingTouch.t)
    (evidence0 : Py.dict) : Ranking :=
  rank_organic_touch touches
    (rank_organic_call calls
       (rank_paid_touch touches
          (rank_paid_call calls (mkRanking None "unknown" "" "" "" evidence0)))).

(** [ContentType.objects.get_for_model] and [.pk] of a source. *)
Definition get_for_model (s : Source) : ContentType :=
  match s with
  | SrcCall _ => CT_CallEvent
  | SrcTouch _ => CT_MarketingTouch
  end.

Definition source_pk (s : Source) : Z :=
  match s with
  | SrcCall c => CallEvent.id c
  | SrcTouch m => MarketingTouch.id m
  end.

Definition source_str (s : Source) : string :=
  match s with
  | SrcCall c => CallEvent.str c
  | SrcTouch m => MarketingTouch.str m
  end.

(** The [defaults] of [update_or_create] applied to a row. *)
Definition apply_defaults (a : Attribution.t) (patient : Patient.t) (invoice : Invoice.t)
    (paid_at now : Z) (r : Ranking) : Attribution.t :=
  Attribution.mk
    (Attribution.id a) (Attribution.patient a)
    (Patient.clinic patient)
    (attribution_type r)
    (Attribution.status a)
    (option_map get_for_model (attributed_source r))
    (option_map source_pk (attributed_source r))
    (campaign_name r) (campaign_source r) (campaign_medium r)
    (evidence r)
    (Some (Invoice.total_amount invoice))
    (Some (Py.date_of paid_at))
    (Attribution.overridden_by a) (Attribution.override_reason a)
    (Attribution.overridden_at a)
    (Attribution.created_at a) now.

(** A row as [Attribution(patient=patient)] makes it before the
    defaults are applied: the column defaults of the model. *)
Definition blank_attribution (pk : Z) (patient : Patient.t) (now : Z) : Attribution.t :=
  Attribution.mk pk (Patient.id patient) (Patient.clinic patient) "" "auto" None None
                 "" "" "" [] None None None "" None now now.

(** [UPDATE ... WHERE id = a.id]. *)
Definition update_row (a : Attribution.t) (rows : list Attribution.t) : list Attribution.t :=
  map (fun r => if Attribution.id r =? Attribution.id a then a else r) rows.

(** [Attribution.objects.update_or_create(patient=patient, defaults=...)]. *)
Definition update_or_create (db : DB) (patient : Patient.t) (invoice : Invoice.t)
    (paid_at now : Z) (r : Ranking) : Py.result (DB * Attribution.t) :=
  match filter (fun a => Attribution.patient a =? Patient.id patient) (attributions db) with
  | [] =>
      let pk := Py.next_pk (map Attribution.id (attributions db)) in
      let a := apply_defaults (blank_attribution pk patient now) patient invoice paid_at now r in
      Py.Ok (with_attributions db (attributions db ++ [a]), a)
  | [a0] =>
      let a := apply_defaults a0 patient invoice paid_at now r in
      Py.Ok (with_attributions db (update_row a (attributions db)), a)
  | _ :: _ :: _ => Py.Raise Py.MultipleObjectsReturned
  end.

Definition create_attribution (db : DB) (patient : Patient.t) (invoice : Invoice.t)
    (now : Z) : Py.result (DB * Attribution.t) :=
  match Invoice.paid_at invoice with
  | None => Py.Raise Py.TypeError
  | Some paid_at =>
      let lookback_date := paid_at - Py.days 30 in
      let call_events := find_call_events db patient lookback_date paid_at in
      let marketing_touches := find_marketing_touches db patient lookback_date paid_at in
      let evidence0 :=
        initial_evidence patient invoice paid_at lookback_date now
                         call_events marketing_touches in
      update_or_create db patient invoice paid_at now
                       (rank call_events marketing_touches evidence0)
  end.

(** The generic foreign key [attribution.attributed_source]. *)
Definition resolve_source (db : DB) (a : Attribution.t) : option Source :=
  match Attribution.content_type a, Attribution.object_id a with
  | Some CT_CallEvent, Some oid =>
      option_map SrcCall (find (fun c => CallEvent.id c =? oid) (call_events db))
  | Some CT_MarketingTouch, Some oid =>
      option_map SrcTouch (find (fun m => MarketingTouch.id m =? oid) (marketing_touches db))
  | _, _ => None
  end.

(** The entry [override_attribution] writes under
    ['previous_attribution']. *)
Definition previous_attribution (db : DB) (a : Attribution.t) : Py.json :=
  Py.JObj
    [ ("type", Py.JStr (Attribution.attribution_type a));
      ("source", match resolve_source db a with
                 | Some s => Py.JStr (source_str s)
                 | None => Py.JNull
                 end);
      ("campaign", Py.JStr (Attribution.campaign_name a)) ].

(** [attribution.save()]: update the row with this primary key, or
    insert it when there is none. *)
Definition save_attribution (db : DB) (a : Attribution.t) : DB :=
  if existsb (fun r => Attribution.id r =? Attribution.id a) (attributions db)
  then with_attributions db (update_row a (attributions db))
  else with_attributions db (attributions db ++ [a]).

Definition override_attribution (db : DB) (attribution : Attribution.t) (user : Z)
    (new_source : option Source) (reason : string) (now : Z) : DB * Attribution.t :=
  let old_evidence :=
    Py.dict_set "previous_attribution" (previous_attribution db attribution)
                (Attribution.evidence_json attribution) in
  let content_type :=
    match new_source with
    | Some s => Some (get_for_model s)
    | None => Attribution.content_type attribution
    end in
  let object_id :=
    match new_source with
    | Some s => Some (source_pk s)
    | None => Attribution.object_id attribution
    end in
  let campaign_name :=
    match new_source with
    | Some (SrcCall c) => Py.str_or (CallEvent.campaign_name c) ""
    | _ => Attribution.campaign_name attribution
    end in
  let a :=
    Attribution.mk
      (Attribution.id attribution) (Attribution.patient attribution)
      (Attribution.clinic attribution) (Attribution.attribution_type attribution)
      "manual" content_type object_id campaign_name
      (Attribution.campaign_source attribution) (Attribution.campaign_medium attribution)
      old_evidence
      (Attribution.first_invoice_amount attribution)
      (Attribution.first_invoice_date attribution)
      (Some user) reason (Some now)
      (Attribution.created_at attribution) now in
  (save_attribution db a, a).

(** A run of overrides on one attribution object, oldest first. *)
Definition override_all (db : DB) (attribution : Attribution.t)
    (overrides : list (Z * option Source * string * Z)) : DB * Attribution.t :=
  fold_left (fun st '(user, new_source, reason, now) =>
               override_attribution (fst st) (snd st) user new_source reason now)
            overrides (db, attribution).

(** [if self.pk:] *)
Definition pk_truthy (pk : option Z) : bool :=
  match pk with
  | Some n => negb (n =? 0)
  | None => false
  end.

(** The audit table lives in PostgreSQL.  Two things the insert
    depends on are not part of the repository: what an [inet] column
    holds for an address text as [GenericIPAddressField] prepares it
    ([None] when the text is refused), and which keys the table of
    [AUTH_USER_MODEL] holds. *)
Section AuditStore.

Variable inet : string -> option string.
Variable user_exists : Z -> bool.

(** The value of the column [ip_address]: an empty address is stored
    as NULL. *)
Definition stored_ip (ip : option string) : Py.result (option string) :=
  match ip with
  | None => Py.Ok None
  | Some text =>
      if Py.truthy text then
        match inet text with
        | Some address => Py.Ok (Some address)
        | None => Py.Raise Py.DataError
        end
      else Py.Ok None
  end.

(** What the table's columns and constraints refuse: [action] is
    [varchar(20)], [object_repr] [varchar(255)], [object_id] a
    non-negative [integer], [clinic] and [user] are foreign keys. *)
Definition row_error (db : DB) (row : AuditLog.t) : option Py.exn :=
  if negb (Py.varchar_fits 20 (AuditLog.action row))
     || negb (Py.varchar_fits 255 (AuditLog.object_repr row))
     || (2147483647 <? AuditLog.object_id row)
  then Some Py.DataError
  else
    match stored_ip (AuditLog.ip_address row) with
    | Py.Raise e => Some e
    | Py.Ok _ =>
        if negb (existsb (fun c => Clinic.id c =? AuditLog.clinic row) (clinics db))
           || match AuditLog.user row with
              | Some u => negb (user_exists u)
              | None => false
              end
           || (AuditLog.object_id row <? 0)
        then Some Py.IntegrityError
        else None
    end.

(** The row as the table holds it. *)
Definition stored_row (pk : Z) (timestamp : Z) (row : AuditLog.t) : AuditLog.t :=
  AuditLog.mk (Some pk) (AuditLog.user row) (AuditLog.clinic row)
              (Py.varchar 20 (AuditLog.action row)) (AuditLog.content_type row)
              (AuditLog.object_id row) (Py.varchar 255 (AuditLog.object_repr row))
              (AuditLog.changes_json row)
              (match stored_ip (AuditLog.ip_address row) with
               | Py.Ok ip => ip
               | Py.Raise _ => None
               end)
              (AuditLog.user_agent row) timestamp.

Definition has_pk (n : Z) (r : AuditLog.t) : bool :=
  match AuditLog.pk r with
  | Some m => m =? n
  | None => false
  end.

(** [models.Model.save] for an audit row: insert with a fresh key
    when the instance has none, else update the row under its key or
    insert it when there is none; [timestamp] is [auto_now_add], set
    on insert. *)
Definition model_save (db : DB) (row : AuditLog.t) (now : Z)
    : Py.result (DB * AuditLog.t) :=
  match row_error db row with
  | Some e => Py.Raise e
  | None =>
      match AuditLog.pk row with
      | None =>
          let pk := Py.next_pk (flat_map (fun r => match AuditLog.pk r with
                                                    | Some n => [n]
                                                    | None => []
                                                    end) (audit_logs db)) in
          Py.Ok (with_audit_logs db (audit_logs db ++ [stored_row pk now row]),
                 stored_row pk now row)
      | Some n =>
          if existsb (has_pk n) (audit_logs db)
          then
            let row' := stored_row n (AuditLog.timestamp row) row in
            Py.Ok (with_audit_logs db
                     (map (fun r => if has_pk n r then row' else r) (audit_logs db)),
                   row')
          else
            Py.Ok (with_audit_logs db (audit_logs db ++ [stored_row n now row]),
                   stored_row n now row)
      end
  end.

(** [AuditLog.save]. *)
Definition AuditLog_save (db : DB) (self : AuditLog.t) (now : Z)
    : Py.result (DB * AuditLog.t) :=
  if pk_truthy (AuditLog.pk self)
  then Py.Raise (Py.ValueError "AuditLog entries cannot be modified")
  else model_save db self now.

(** [AuditLog.delete]. *)
Definition AuditLog_delete (db : DB) (self : AuditLog.t) : Py.result DB :=
  Py.Raise (Py.ValueError "AuditLog entries cannot be deleted").

(** The local [ip_address] of [log_audit]. *)
Definition client_ip (request : option Request.t) : option string :=
  match request with
  | None => None
  | Some r =>
      match Request.HTTP_X_FORWARDED_FOR r with
      | Some x_forwarded_for =>
          if Py.truthy x_forwarded_for
          then Some (Py.strip (Py.before_comma x_forwarded_for))
          else Request.REMOTE_ADDR r
      | None => Request.REMOTE_ADDR r
      end
  end.

(** The local [user_agent] of [log_audit]. *)
Definition client_agent (request : option Request.t) : string :=
  match request with
  | None => ""
  | Some r =>
      String.substring 0 500 (match Request.HTTP_USER_AGENT r with
                              | Some agent => agent
                              | None => ""
                              end)
  end.

(** [log_audit]: [AuditLog.objects.create] builds the instance and
    saves it.  The stored row is returned with the database. *)
Definition log_audit (db : DB) (user : option Z) (clinic : Z) (action : string)
    (obj : Source) (changes : option Py.dict) (request : option Request.t) (now : Z)
    : Py.result (DB * AuditLog.t) :=
  AuditLog_save db
    (AuditLog.mk None user clinic action (get_for_model obj) (source_pk obj)
                 (String.substring 0 255 (source_str obj))
                 (match changes with
                  | Some d => d
                  | None => []
                  end)
                 (client_ip request) (client_agent request) now)
    now.

End AuditStore.

End Services.

(** ** Task generators ([operations/tasks.py]) *)

Module Tasks.

(** [Task.objects.filter(idempotency_key=key).exists()]. *)
Definition task_exists (key : string) (rows : list Task.t) : bool :=
  existsb (fun t => match Task.idempotency_key t with
                    | Some k => (k =? key)%string
                    | None => false
                    end) rows.

(** [ReviewRequest.objects.filter(idempotency_key=key).exists()]. *)
Definition review_exists (key : string) (rows : list ReviewRequest.t) : bool :=
  existsb (fun r => (ReviewRequest.idempotency_key r =? key)%string) rows.

(** The join condition [clinic__is_active=True]. *)
Definition clinic_active (db : DB) (clinic : Z) : bool :=
  existsb (fun c => (Clinic.id c =? clinic) && Clinic.is_active c) (clinics db).

(** [Meta.ordering] of the scanned models. *)
Definition clinic_le (a b : Clinic.t) : bool := String.leb (Clinic.name a) (Clinic.name b).

Definition patient_le (a b : Patient.t) : bool :=
  match String.compare (Patient.last_name a) (Patient.last_name b) with
  | Lt => true
  | Eq => String.leb (Patient.first_name a) (Patient.first_name b)
  | Gt => false
  end.

Definition appointment_le (a b : Appointment.t) : bool :=
  Appointment.scheduled_at b <=? Appointment.scheduled_at a.

Definition plan_le (a b : TreatmentPlan.t) : bool :=
  TreatmentPlan.created_at b <=? TreatmentPlan.created_at a.

(** The related row of a foreign key to [Patient]. *)
Definition get_patient (db : DB) (pk : Z) : option Patient.t :=
  find (fun p => Patient.id p =? pk) (patients db).

(** *** Callback tasks *)

Definition callback_key (call : CallEvent.t) : string :=
  "callback_call_" ++ CallEvent.call_sid call.

Definition missed_calls (db : DB) (clinic : Clinic.t) (cutoff : Z) : list CallEvent.t :=
  Py.order_by Services.newer_call
    (filter (fun c =>
               (CallEvent.clinic c =? Clinic.id clinic)
               && (cutoff <=? CallEvent.timestamp c)
               && (CallEvent.duration_seconds c <? 30)
               && negb (CallEvent.resulted_in_appointment c)
               && negb (CallEvent.is_processed c))
            (call_events db)).

(** [Patient.objects.filter(clinic=clinic, phone=...).first()]. *)
Definition find_patient (db : DB) (clinic : Clinic.t) (phone : string) : option Patient.t :=
  hd_error
    (Py.order_by patient_le
       (filter (fun p => (Patient.clinic p =? Clinic.id clinic)
                         && (Patient.phone p =? phone)%string)
               (patients db))).

Definition callback_task (clinic : Clinic.t) (patient : Patient.t) (call : CallEvent.t)
    : Task.t :=
  Task.mk (Clinic.id clinic) (Patient.id patient) "callback"
          ("Callback - Missed call from " ++ CallEvent.caller_phone call)
          ("Missed call at " ++ Py.strftime_HM (CallEvent.timestamp call)
           ++ ". Duration: " ++ Py.str_int (CallEvent.duration_seconds call) ++ "s")
          2 "pending" "call_event" (Some (CallEvent.id call))
          (Some (callback_key call)).

(** [call.save(update_fields=['is_processed'])]. *)
Definition mark_processed (call : CallEvent.t) (rows : list CallEvent.t) : list CallEvent.t :=
  map (fun c => if CallEvent.id c =? CallEvent.id call then CallEvent.set_processed c else c)
      rows.

(** The body of [for call in missed_calls]. *)
Definition callback_step (clinic : Clinic.t) (st : DB * nat) (call : CallEvent.t)
    : DB * nat :=
  let (db, tasks_created) := st in
  if task_exists (callback_key call) (tasks db) then st
  else
    match find_patient db clinic (CallEvent.caller_phone call) with
    | None => st
    | Some patient =>
        let db := with_tasks db (tasks db ++ [callback_task clinic patient call]) in
        let db := with_call_events db (mark_processed call (call_events db)) in
        (db, S tasks_created)
    end.

(** The body of [for clinic in clinics]. *)
Definition clinic_step (now : Z) (st : DB * nat) (clinic : Clinic.t) : DB * nat :=
  let cutoff := now - Py.hours 24 in
  fold_left (callback_step clinic) (missed_calls (fst st) clinic cutoff) st.

Definition active_clinics (db : DB) : list Clinic.t :=
  Py.order_by clinic_le (filter Clinic.is_active (clinics db)).

Definition generate_missed_call_tasks (db : DB) (now : Z) : DB * nat :=
  fold_left (clinic_step now) (active_clinics db) (db, O).

(** *** Review requests *)

Definition review_key (appt : Appointment.t) : string :=
  "review_" ++ Appointment.cliniko_id appt.

(** The query joins the patient and the clinic of each appointment. *)
Definition review_appointments (db : DB) (now : Z) : list (Appointment.t * Patient.t) :=
  let target_time := now - Py.hours 24 in
  let window_start := target_time - Py.hours 1 in
  let window_end := target_time + Py.hours 1 in
  flat_map (fun appt => match get_patient db (Appointment.patient appt) with
                        | Some patient => [(appt, patient)]
                        | None => []
                        end)
    (Py.order_by appointment_le
       (filter (fun a =>
                  (Appointment.status a =? "completed")%string
                  && clinic_active db (Appointment.clinic a)
                  && (window_start <=? Appointment.scheduled_at a)
                  && (Appointment.scheduled_at a <=? window_end))
               (appointments db))).

Definition review_request (appt : Appointment.t) (patient : Patient.t) (now : Z)
    : ReviewRequest.t :=
  ReviewRequest.mk (Appointment.clinic appt) (Patient.id patient) (Appointment.id appt)
                   "pending"
                   (if Patient.sms_consent patient then "sms" else "email")
                   now (review_key appt).

(** The body of [for appt in appointments]. *)
Definition review_step (now : Z) (st : DB * nat) (row : Appointment.t * Patient.t)
    : DB * nat :=
  let (db, requests_created) := st in
  let (appt, patient) := row in
  if negb (Patient.sms_consent patient || Patient.email_consent patient) then st
  else if review_exists (review_key appt) (review_requests db) then st
  else
    (with_review_requests db (review_requests db ++ [review_request appt patient now]),
     S requests_created).

Definition generate_review_request_tasks (db : DB) (now : Z) : DB * nat :=
  fold_left (review_step now) (review_appointments db now) (db, O).

(** *** Treatment plan follow-ups *)

Definition followup_key (plan : TreatmentPlan.t) : string :=
  "treatment_followup_" ++ Py.str_int (TreatmentPlan.id plan).

(** The plans of the window, each with its [sent_at]. *)
Definition followup_plans (db : DB) (now : Z) : list (TreatmentPlan.t * Z) :=
  let target_date := now - Py.days 7 in
  let window_start := target_date - Py.hours 12 in
  let window_end := target_date + Py.hours 12 in
  flat_map (fun plan => match TreatmentPlan.sent_at plan with
                        | Some sent_at =>
                            if (window_start <=? sent_at) && (sent_at <=? window_end)
                            then [(plan, sent_at)] else []
                        | None => []
                        end)
    (Py.order_by plan_le
       (filter (fun p =>
                  (TreatmentPlan.status p =? "sent")%string
                  && clinic_active db (TreatmentPlan.clinic p)
                  && match get_patient db (TreatmentPlan.patient p) with
                     | Some _ => true
                     | None => false
                     end)
               (treatment_plans db))).

Definition followup_task (plan : TreatmentPlan.t) (sent_at : Z) : Task.t :=
  Task.mk (TreatmentPlan.clinic plan) (TreatmentPlan.patient plan) "treatment_followup"
          ("Follow up on treatment plan: " ++ TreatmentPlan.title plan)
          ("Treatment plan sent " ++ Py.strftime_Ymd sent_at ++ " with no response.")
          3 "pending" "treatment_plan" (Some (TreatmentPlan.id plan))
          (Some (followup_key plan)).

(** [Task.title] is [varchar(255)]: what the table refuses, and the
    row it holds for a task it takes. *)
Definition task_error (t : Task.t) : option Py.exn :=
  if Py.varchar_fits 255 (Task.title t) then None else Some Py.DataError.

Definition task_stored (t : Task.t) : Task.t :=
  Task.mk (Task.clinic t) (Task.patient t) (Task.task_type t)
          (Py.varchar 255 (Task.title t)) (Task.description t) (Task.priority t)
          (Task.status t) (Task.source_type t) (Task.source_id t)
          (Task.idempotency_key t).

(** The body of [for plan in plans]. *)
Definition followup_step (st : DB * nat) (row : TreatmentPlan.t * Z)
    : Py.result (DB * nat) :=
  let (db, tasks_created) := st in
  let (plan, sent_at) := row in
  if task_exists (followup_key plan) (tasks db) then Py.Ok st
  else
    match task_error (followup_task plan sent_at) with
    | Some e => Py.Raise e
    | None =>
        Py.Ok (with_tasks db (tasks db ++ [task_stored (followup_task plan sent_at)]),
               S tasks_created)
    end.

(** The loop of the generator: the database and [tasks_created] when
    it ends, and the exception that ended it, if one did.  Every
    [create] is committed on its own, so the tasks created before an
    exception stay. *)
Definition followup_run (db : DB) (now : Z) : (DB * nat) * option Py.exn :=
  Py.for_each followup_step (followup_plans db now) (db, O).

Definition generate_treatment_followup_tasks (db : DB) (now : Z) : DB * Py.result nat :=
  match followup_run db now with
  | ((db', tasks_created), None) => (db', Py.Ok tasks_created)
  | ((db', _), Some e) => (db', Py.Raise e)
  end.

(** *** Recall tasks *)

Definition recall_key (patient : Patient.t) (now : Z) : string :=
  "recall_" ++ Py.str_int (Patient.id patient) ++ "_" ++ Py.strftime_Ym now.

(** The patients to recall, each with its [last_appointment_date]. *)
Definition recall_patients (db : DB) (now : Z) : list (Patient.t * Z) :=
  let cutoff := now - Py.days 180 in
  flat_map (fun p => match Patient.last_appointment_date p with
                     | Some d => if d <? Py.date_of cutoff then [(p, d)] else []
                     | None => []
                     end)
    (Py.order_by patient_le
       (filter (fun p => clinic_active db (Patient.clinic p)) (patients db))).

Definition recall_task (patient : Patient.t) (last_visit now : Z) : Task.t :=
  Task.mk (Patient.clinic patient) (Patient.id patient) "recall"
          ("Recall: " ++ Patient.full_name patient)
          ("Last visit: " ++ Py.str_date last_visit ++ ". Consider reaching out.")
          4 "pending" "" None
          (Some (recall_key patient now)).

(** The body of [for patient in patients]. *)
Definition recall_step (now : Z) (st : DB * nat) (row : Patient.t * Z) : DB * nat :=
  let (db, tasks_created) := st in
  let (patient, last_visit) := row in
  if task_exists (recall_key patient now) (tasks db) then st
  else (with_tasks db (tasks db ++ [recall_task patient last_visit now]), S tasks_created).

Definition generate_recall_tasks (db : DB) (now : Z) : DB * nat :=
  fold_left (recall_step now) (recall_patients db now) (db, O).

(** *** The four generators *)

Inductive Generator : Type :=
| Callback
| Review
| TreatmentFollowup
| Recall.

(** A run of a generator: the database it leaves and the number of
    rows it created, also when an exception ended it. *)
Definition run (g : Generator) (db : DB) (now : Z) : DB * nat :=
  match g with
  | Callback => generate_missed_call_tasks db now
  | Review => generate_review_request_tasks db now
  | TreatmentFollowup => fst (followup_run db now)
  | Recall => generate_recall_tasks db now
  end.

(** The idempotency keys held by the two action tables. *)
Definition task_keys (rows : list Task.t) : list string :=
  flat_map (fun t => match Task.idempotency_key t with
                     | Some k => [k]
                     | None => []
                     end) rows.

Definition review_keys (rows : list ReviewRequest.t) : list string :=
  map ReviewRequest.idempotency_key rows.

End Tasks.

(** ** Notions used by the statements *)

Import Py.
Import Services.

(** The uniqueness constraints of the [Attribution] table: the primary
    key and the one-to-one link to [Patient]. *)
Definition attribution_constraints (db : DB) : Prop :=
  NoDup (map Attribution.id (attributions db))
  /\ NoDup (map Attribution.patient (attributions db)).

(** The rows of a patient. *)
Definition attributions_of (db : DB) (patient : Patient.t) : list Attribution.t :=
  filter (fun a => Attribution.patient a =? Patient.id patient) (attributions db).

(** The columns of an attribution that make up its content: every
    column but [created_at] and [updated_at], the two row stamps the
    ORM maintains by itself ([auto_now_add], [auto_now]). *)
Definition content (a : Attribution.t) :=
  (Attribution.id a, Attribution.patient a, Attribution.clinic a,
   Attribution.attribution_type a, Attribution.status a,
   Attribution.content_type a, Attribution.object_id a,
   Attribution.campaign_name a, Attribution.campaign_source a,
   Attribution.campaign_medium a, Attribution.evidence_json a,
   Attribution.first_invoice_amount a, Attribution.first_invoice_date a,
   Attribution.overridden_by a, Attribution.override_reason a,
   Attribution.overridden_at a).

Definition with_evidence (a : Attribution.t) (ev : dict) : Attribution.t :=
  Attribution.mk
    (Attribution.id a) (Attribution.patient a) (Attribution.clinic a)
    (Attribution.attribution_type a) (Attribution.status a)
    (Attribution.content_type a) (Attribution.object_id a)
    (Attribution.campaign_name a) (Attribution.campaign_source a)
    (Attribution.campaign_medium a) ev
    (Attribution.first_invoice_amount a) (Attribution.first_invoice_date a)
    (Attribution.overridden_by a) (Attribution.override_reason a)
    (Attribution.overridden_at a) (Attribution.created_at a) (Attribution.updated_at a).

(** The reason string of the precedence rule that applies to the
    candidate lists, when one does. *)
Definition fired_rule (calls : list CallEvent.t) (touches : list MarketingTouch.t)
    : option string :=
  if existsb (fun c => truthy (CallEvent.campaign_id c)) calls
  then Some "Matched paid campaign call"
  else if existsb (fun m => is_paid_medium (MarketingTouch.utm_medium m)) touches
  then Some "Matched paid marketing touch"
  else match calls, touches with
       | _ :: _, _ => Some "Matched organic call"
       | [], _ :: _ => Some "Matched organic marketing touch"
       | [], [] => None
       end.

(** *** Example data *)

Definition clinic1 : Clinic.t := Clinic.mk 1 "Harbour Physio" true.

Definition jane : Patient.t :=
  Patient.mk 10 1 "Jane" "Doe" "jane@example.com" "+61400000001" true false (Some 19600).

(** A patient without phone and without email. *)
Definition anon : Patient.t :=
  Patient.mk 11 1 "Ann" "Other" "" "" false false None.

(** 2024-03-10 12:00 UTC. *)
Definition t_paid : Z := 1710072000000000.

Definition invoice1 : Invoice.t := Invoice.mk 7 50000 (Some t_paid).

(** A campaign call five days before the payment and an organic call
    two days before it. *)
Definition call_paid : CallEvent.t :=
  CallEvent.mk 1 1 "CA-1" "+61400000001" 120 (t_paid - days 5) "C1" "Spring" true true.

Definition call_organic : CallEvent.t :=
  CallEvent.mk 2 1 "CA-2" "+61400000001" 95 (t_paid - days 2) "" "" true false.

Definition touch_organic : MarketingTouch.t :=
  MarketingTouch.mk 1 1 "jane@example.com" "newsletter" "organic" "" (t_paid - days 9).

Definition touch_cpc : MarketingTouch.t :=
  MarketingTouch.mk 2 1 "jane@example.com" "google" "cpc" "brand" (t_paid - days 12).

Definition db_empty : DB := mkDB [clinic1] [jane; anon] [] [] [] [] [] [] [] [].

(** Both calls and the organic touch. *)
Definition db_calls : DB :=
  mkDB [clinic1] [jane; anon] [] [call_paid; call_organic] [touch_organic; touch_cpc]
       [] [] [] [] [].

(** The organic call and both touches. *)
Definition db_touches : DB :=
  mkDB [clinic1] [jane; anon] [] [call_organic] [touch_organic; touch_cpc]
       [] [] [] [] [].

(** An automatic attribution of [jane] to the campaign call, and the
    same row after a manual override to the organic call. *)
Definition auto_row : Attribution.t :=
  Attribution.mk 1 10 1 "call" "auto" (Some CT_CallEvent) (Some 1) "Spring" "phone" "call"
                 [("invoice_id", JInt 7);
                  ("attribution_reason", JStr "Matched paid campaign call")]
                 (Some 50000) (Some 19792) None "" None
                 (t_paid + hours 1) (t_paid + hours 1).

Definition db_auto : DB :=
  mkDB [clinic1] [jane; anon] [] [call_paid; call_organic] [touch_organic; touch_cpc]
       [] [auto_row] [] [] [].

Definition override1 : Z * option Source * string * Z :=
  (3, Some (SrcCall call_organic), "patient says she just walked in", t_paid + hours 5).

Definition override2 : Z * option Source * string * Z :=
  (3, None, "reason reworded", t_paid + hours 6).

Definition db_manual : DB := fst (override_all db_auto auto_row [override1]).
Definition manual_row : Attribution.t := snd (override_all db_auto auto_row [override1]).

(** The decision as it was before the first override. *)
Definition first_decision : json :=
  JObj [("type", JStr "call");
        ("source", JStr "Call CA-1 from +61400000001");
        ("campaign", JStr "Spring")].

(** An inet column and a user table as far as the examples need
    them: one address, one user. *)
Definition inet_example (text : string) : option string :=
  if (text =? "203.0.113.7")%string then Some text else None.

Definition users_example (u : Z) : bool := u =? 3.

Definition db_audited : DB :=
  match log_audit inet_example users_example db_empty (Some 3) 1 "read"
                  (SrcCall call_paid) None None t_paid with
  | Ok (db, _) => db
  | Raise _ => db_empty
  end.

(** An instance built by hand with the key 0. *)
Definition audit_zero (action : string) : AuditLog.t :=
  AuditLog.mk (Some 0) None 1 action CT_CallEvent 1 "Call CA-1 from +61400000001" []
              None "" t_paid.

(** [row.action = action] on an instance. *)
Definition audit_relabel (row : AuditLog.t) (action : string) : AuditLog.t :=
  AuditLog.mk (AuditLog.pk row) (AuditLog.user row) (AuditLog.clinic row) action
              (AuditLog.content_type row) (AuditLog.object_id row)
              (AuditLog.object_repr row) (AuditLog.changes_json row)
              (AuditLog.ip_address row) (AuditLog.user_agent row)
              (AuditLog.timestamp row).

(** *** The generators as guarded loops

    Each loop body either leaves the state alone or performs one
    action and counts it; [*_fires] is the guard and [*_act] the
    action. *)

Import Tasks.

Definition callback_fires (clinic : Clinic.t) (db : DB) (call : CallEvent.t) : bool :=
  negb (task_exists (callback_key call) (tasks db))
  && match find_patient db clinic (CallEvent.caller_phone call) with
     | Some _ => true
     | None => false
     end.

Definition callback_act (clinic : Clinic.t) (db : DB) (call : CallEvent.t) : DB :=
  match find_patient db clinic (CallEvent.caller_phone call) with
  | Some patient =>
      with_call_events
        (with_tasks db (tasks db ++ [callback_task clinic patient call]))
        (mark_processed call (call_events db))
  | None => db
  end.

Definition review_fires (db : DB) (row : Appointment.t * Patient.t) : bool :=
  (Patient.sms_consent (snd row) || Patient.email_consent (snd row))
  && negb (review_exists (review_key (fst row)) (review_requests db)).

Definition review_act (now : Z) (db : DB) (row : Appointment.t * Patient.t) : DB :=
  with_review_requests db (review_requests db ++ [review_request (fst row) (snd row) now]).

Definition followup_fires (db : DB) (row : TreatmentPlan.t * Z) : bool :=
  negb (task_exists (followup_key (fst row)) (tasks db)).

Definition followup_act (db : DB) (row : TreatmentPlan.t * Z) : DB :=
  with_tasks db (tasks db ++ [task_stored (followup_task (fst row) (snd row))]).

Definition followup_err (row : TreatmentPlan.t * Z) : option exn :=
  task_error (followup_task (fst row) (snd row)).

Definition recall_fires (now : Z) (db : DB) (row : Patient.t * Z) : bool :=
  negb (task_exists (recall_key (fst row) now) (tasks db)).

Definition recall_act (now : Z) (db : DB) (row : Patient.t * Z) : DB :=
  with_tasks db (tasks db ++ [recall_task (fst row) (snd row) now]).

(** The keys and the number of rows of the table a generator writes. *)
Definition keys_of (g : Generator) (db : DB) : list string :=
  match g with
  | Review => review_keys (review_requests db)
  | _ => task_keys (tasks db)
  end.

Definition rows_of (g : Generator) (db : DB) : nat :=
  match g with
  | Review => List.length (review_requests db)
  | _ => List.length (tasks db)
  end.

(** [db'] has [n] more rows than [db] in the table of [g]; their keys
    are pairwise distinct and none of them was in [db]. *)
Definition grows (g : Generator) (db db' : DB) (n : nat) : Prop :=
  exists created : list string,
    keys_of g db' = (keys_of g db ++ created)%list
    /\ NoDup created
    /\ (forall k, In k created -> ~ In k (keys_of g db))
    /\ List.length created = n
    /\ rows_of g db' = (rows_of g db + n)%nat.

(** What the review generator requires of the appointment and the
    patient behind a request it creates at [now]. *)
Definition review_justified (db : DB) (now : Z) (r : ReviewRequest.t) : Prop :=
  exists appt patient,
    In appt (appointments db)
    /\ get_patient db (Appointment.patient appt) = Some patient
    /\ r = review_request appt patient now
    /\ Appointment.status appt = "completed"
    /\ clinic_active db (Appointment.clinic appt) = true
    /\ now - hours 24 - hours 1 <= Appointment.scheduled_at appt
    /\ Appointment.scheduled_at appt <= now - hours 24 + hours 1
    /\ (Patient.sms_consent patient = true \/ Patient.email_consent patient = true)
    /\ ReviewRequest.channel r = (if Patient.sms_consent patient then "sms" else "email").

(** *** The callback scenario *)

(** [Task.objects.filter(idempotency_key=key)] as a row predicate. *)
Definition has_key (key : string) (t : Task.t) : bool :=
  match Task.idempotency_key t with
  | Some k => (k =? key)%string
  | None => false
  end.

(** The uniqueness constraints of the [CallEvent] table: the primary
    key and [call_sid]. *)
Definition call_constraints (db : DB) : Prop :=
  NoDup (map CallEvent.id (call_events db))
  /\ NoDup (map CallEvent.call_sid (call_events db)).

(** The call still waits for its task. *)
Definition callback_pending (call : CallEvent.t) (db : DB) : Prop :=
  task_exists (callback_key call) (tasks db) = false /\ In call (call_events db).

(** The call has got its task: [task] is the one row under the
    call's key, the call's row is marked processed, and the run has
    counted at least one task. *)
Definition callback_done (call : CallEvent.t) (task : Task.t) (st : DB * nat) : Prop :=
  filter (has_key (callback_key call)) (tasks (fst st)) = [task]
  /\ In (CallEvent.set_processed call) (call_events (fst st))
  /\ (forall c, In c (call_events (fst st)) -> CallEvent.id c = CallEvent.id call ->
                CallEvent.is_processed c = true)
  /\ (1 <= snd st)%nat.

(** One missed call of [jane], 15 seconds long, two hours old. *)
Definition t_now : Z := t_paid + days 3.

Definition call_missed : CallEvent.t :=
  CallEvent.mk 5 1 "CA-5" "+61400000001" 15 (t_now - hours 2) "" "" false false.

Definition db_missed : DB :=
  mkDB [clinic1] [jane; anon] [] [call_missed] [] [] [] [] [] [].

(** A completed appointment of [jane], 24 hours before [t_now]. *)
Definition appt_done : Appointment.t :=
  Appointment.mk 3 1 10 "appt-3" (t_now - hours 24) "completed".

Definition db_visit : DB :=
  mkDB [clinic1] [jane; anon] [appt_done] [] [] [] [] [] [] [].

(** *** More example data *)

(** Only organic signals: one call and one touch. *)
Definition db_organic : DB :=
  mkDB [clinic1] [jane; anon] [] [call_organic] [touch_organic] [] [] [] [] [].

(** A touch without UTM fields, and nothing else. *)
Definition touch_bare : MarketingTouch.t :=
  MarketingTouch.mk 3 1 "jane@example.com" "" "" "" (t_paid - days 1).

Definition db_touch_only : DB :=
  mkDB [clinic1] [jane; anon] [] [] [touch_organic; touch_bare] [] [] [] [] [].

(** A call from a withheld number and a touch without email. *)
Definition call_withheld : CallEvent.t :=
  CallEvent.mk 9 1 "CA-9" "" 200 (t_paid - days 1) "C1" "Spring" true true.

Definition touch_nobody : MarketingTouch.t :=
  MarketingTouch.mk 9 1 "" "google" "cpc" "brand" (t_paid - days 1).

Definition db_withheld : DB :=
  mkDB [clinic1] [jane; anon] [] [call_withheld] [touch_nobody] [] [] [] [] [].

(** *** Stored sources and audit operations *)

(** The source is a row of its table, and the table's primary key is
    unique. *)
Definition source_stored (db : DB) (s : Source) : Prop :=
  match s with
  | SrcCall c => In c (call_events db) /\ NoDup (map CallEvent.id (call_events db))
  | SrcTouch m =>
      In m (marketing_touches db) /\ NoDup (map MarketingTouch.id (marketing_touches db))
  end.

(** What a caller can do with the audit model: record an access, save
    an instance, delete an instance. *)
Inductive audit_op : Type :=
| OpLog (user : option Z) (clinic : Z) (action : string) (obj : Source)
        (changes : option dict) (request : option Request.t) (now : Z)
| OpSave (self : AuditLog.t) (now : Z)
| OpDelete (self : AuditLog.t).

(** The database after an operation; an operation that raises leaves
    it as it was. *)
Definition audit_apply (inet : string -> option string) (user_exists : Z -> bool)
    (db : DB) (op : audit_op) : DB :=
  match op with
  | OpLog user clinic action obj changes request now =>
      match log_audit inet user_exists db user clinic action obj changes request now with
      | Ok (db', _) => db'
      | Raise _ => db
      end
  | OpSave self now =>
      match AuditLog_save inet user_exists db self now with
      | Ok (db', _) => db'
      | Raise _ => db
      end
  | OpDelete self =>
      match AuditLog_delete db self with
      | Ok db' => db'
      | Raise _ => db
      end
  end.

(** A request that came through a proxy. *)
Definition request_proxied : Request.t :=
  Request.mk (Some " 203.0.113.7 , 10.0.0.1") (Some "10.0.0.1") (Some "Mozilla/5.0").


(** *** What stands behind a created task *)

(** A callback task of a run at [now]: a missed, unprocessed call of
    the last 24 hours in an active clinic, whose caller phone is that
    of the clinic's patient [find_patient] returns. *)
Definition callback_justified (db : DB) (now : Z) (t : Task.t) : Prop :=
  exists clinic call patient,
    In clinic (clinics db)
    /\ Clinic.is_active clinic = true
    /\ In call (call_events db)
    /\ CallEvent.clinic call = Clinic.id clinic
    /\ now - hours 24 <= CallEvent.timestamp call
    /\ CallEvent.is_missed call = true
    /\ CallEvent.is_processed call = false
    /\ find_patient db clinic (CallEvent.caller_phone call) = Some patient
    /\ t = callback_task clinic patient call.

(** A follow-up task: a plan with status [sent], sent between seven
    and a half and six and a half days before [now], in an active
    clinic. *)
Definition followup_justified (db : DB) (now : Z) (t : Task.t) : Prop :=
  exists plan sent_at,
    In plan (treatment_plans db)
    /\ TreatmentPlan.status plan = "sent"
    /\ TreatmentPlan.sent_at plan = Some sent_at
    /\ now - days 7 - hours 12 <= sent_at
    /\ sent_at <= now - days 7 + hours 12
    /\ clinic_active db (TreatmentPlan.clinic plan) = true
    /\ t = task_stored (followup_task plan sent_at)
    /\ Task.task_type t = "treatment_followup"
    /\ Task.priority t = 3.

(** A recall task: a patient of an active clinic whose last
    appointment date lies before the date 180 days before [now]. *)
Definition recall_justified (db : DB) (now : Z) (t : Task.t) : Prop :=
  exists patient last_visit,
    In patient (patients db)
    /\ Patient.last_appointment_date patient = Some last_visit
    /\ last_visit < date_of (now - days 180)
    /\ clinic_active db (Patient.clinic patient) = true
    /\ t = recall_task patient last_visit now
    /\ Task.task_type t = "recall"
    /\ Task.priority t = 4.

(** A call from a number no patient has. *)
Definition call_stranger : CallEvent.t :=
  CallEvent.mk 6 1 "CA-6" "+61499999999" 5 (t_now - hours 3) "" "" false false.

Definition db_stranger : DB :=
  mkDB [clinic1] [jane; anon] [] [call_missed; call_stranger] [] [] [] [] [] [].

(** A treatment plan sent seven days before [t_now]. *)
Definition plan_sent : TreatmentPlan.t :=
  TreatmentPlan.mk 4 1 10 "Knee rehabilitation" "sent" (Some (t_now - days 7))
                   (t_now - days 8).

Definition db_plan : DB :=
  mkDB [clinic1] [jane; anon] [] [] [] [plan_sent] [] [] [] [].

(** [n] times the character [x]. *)
Fixpoint repeat_x (n : nat) : string :=
  match n with
  | O => EmptyString
  | S n' => String "x" (repeat_x n')
  end.

(** The plan of [db_plan] under another key and title. *)
Definition plan_titled (id : Z) (title : string) : TreatmentPlan.t :=
  TreatmentPlan.mk id (TreatmentPlan.clinic plan_sent) (TreatmentPlan.patient plan_sent)
                   title (TreatmentPlan.status plan_sent)
                   (TreatmentPlan.sent_at plan_sent) (TreatmentPlan.created_at plan_sent).

(** Two plans to follow up; the title of one has 227 characters. *)
Definition db_long_title : DB :=
  mkDB [clinic1] [jane; anon] [] [] []
       [plan_titled 5 (repeat_x 227); plan_titled 6 "Knee rehabilitation"] [] [] [] [].

(** A plan whose title has 227 characters, the last one a space. *)
Definition db_padded_title : DB :=
  mkDB [clinic1] [jane; anon] [] [] [] [plan_titled 5 (repeat_x 226 ++ " ")] [] [] [] [].

(** A string without an underscore. *)
Fixpoint underscore_free (s : string) : Prop :=
  match s with
  | EmptyString => True
  | String ch s' => ch <> "_"%char /\ underscore_free s'
  end.

(** Two clinics whose appointments carry the same [cliniko_id]. *)
Definition clinic2 : Clinic.t := Clinic.mk 2 "Hillside Physio" true.

Definition omar : Patient.t :=
  Patient.mk 20 2 "Omar" "Reyes" "omar@example.com" "+61400000002" false true (Some 19700).

Definition appt_twin : Appointment.t :=
  Appointment.mk 8 2 20 "appt-3" (t_now - hours 24) "completed".

Definition db_twins : DB :=
  mkDB [clinic1; clinic2] [jane; anon; omar] [appt_done; appt_twin] [] [] [] [] [] [] [].

(** * Properties *)

(** ** Lists, sorting and dicts *)

Section ListFacts.

Context {A : Type}.
Variable le : A -> A -> bool.

Lemma In_insert_by (x y : A) (l : list A) :
  In y (insert_by le x l) <-> y = x \/ In y l.
Proof.
  induction l as [|z l IH]; simpl.
  - intuition auto.
  - destruct (le x z); simpl; rewrite ?IH; intuition auto.
Qed.

Lemma In_order_by (y : A) (l : list A) : In y (order_by le l) <-> In y l.
Proof.
  unfold order_by.
  induction l as [|x l IH]; simpl; [tauto|].
  rewrite In_insert_by, IH. intuition auto.
Qed.

Lemma length_insert_by (x : A) (l : list A) :
  List.length (insert_by le x l) = S (List.length l).
Proof.
  induction l as [|z l IH]; simpl; [reflexivity|].
  destruct (le x z); simpl; congruence.
Qed.

Lemma order_by_nil (l : list A) : order_by le l = [] -> l = [].
Proof.
  destruct l as [|x l]; [reflexivity|].
  intros H. apply (f_equal (@List.length A)) in H.
  unfold order_by in H. simpl in H. rewrite length_insert_by in H. discriminate.
Qed.

End ListFacts.

Lemma find_exists {A : Type} (f : A -> bool) (l : list A) (x : A) :
  In x l -> f x = true -> exists y, find f l = Some y /\ In y l /\ f y = true.
Proof.
  intros Hin Hf.
  destruct (find f l) as [y|] eqn:E.
  - exists y. apply find_some in E. tauto.
  - apply (find_none _ _ E) in Hin. congruence.
Qed.

Lemma truthy_true (s : string) : truthy s = true <-> s <> "".
Proof.
  unfold truthy. destruct (String.eqb_spec s ""); simpl; split; congruence.
Qed.

Lemma dict_get_set_same (k : string) (v : json) (d : dict) :
  dict_get k (dict_set k v d) = Some v.
Proof.
  induction d as [|[k' v'] d IH]; simpl.
  - now rewrite String.eqb_refl.
  - destruct (String.eqb_spec k' k) as [->|Hne]; simpl.
    + now rewrite String.eqb_refl.
    + destruct (String.eqb_spec k' k); [contradiction|assumption].
Qed.

Lemma dict_get_set_other (k k' : string) (v : json) (d : dict) :
  k' <> k -> dict_get k' (dict_set k v d) = dict_get k' d.
Proof.
  intros Hne.
  induction d as [|[k0 v0] d IH]; simpl.
  - destruct (String.eqb_spec k k'); congruence.
  - destruct (String.eqb_spec k0 k) as [->|]; simpl.
    + destruct (String.eqb_spec k k'); congruence.
    + destruct (String.eqb_spec k0 k'); congruence.
Qed.

Lemma length_dict_set (k : string) (v : json) (d : dict) :
  (List.length d <= List.length (dict_set k v d))%nat.
Proof.
  induction d as [|[k0 v0] d IH]; simpl; [lia|].
  destruct (k0 =? k)%string; simpl; lia.
Qed.

Lemma dict_keys_set (k k' : string) (v : json) (d : dict) :
  In k' (dict_keys d) -> In k' (dict_keys (dict_set k v d)).
Proof.
  unfold dict_keys.
  induction d as [|[k0 v0] d IH]; simpl; [tauto|].
  destruct (String.eqb_spec k0 k) as [->|]; simpl; intuition auto.
Qed.

(** ** The attribution ranker *)

Lemma next_pk_fresh (ids : list Z) : ~ In (next_pk ids) ids.
Proof.
  assert (H : forall x, In x ids -> x <= fold_right Z.max 0 ids).
  { induction ids as [|y ids IH]; simpl; [tauto|].
    intros x [->|Hx]; [lia|]. specialize (IH x Hx). lia. }
  intros Hin. apply H in Hin. unfold next_pk in Hin. lia.
Qed.


Lemma filter_patient_nil (pid : Z) (rows : list Attribution.t) :
  filter (fun a => Attribution.patient a =? pid) rows = [] ->
  ~ In pid (map Attribution.patient rows).
Proof.
  intros Hf Hin. apply in_map_iff in Hin as (a & <- & Ha).
  assert (In a (filter (fun a0 => Attribution.patient a0 =? Attribution.patient a) rows))
    by (apply filter_In; split; [assumption|apply Z.eqb_refl]).
  rewrite Hf in H. contradiction.
Qed.

Lemma filter_patient_unique (pid : Z) (rows : list Attribution.t) :
  NoDup (map Attribution.patient rows) ->
  (List.length (filter (fun a => (Attribution.patient a =? pid)%Z) rows) <= 1)%nat.
Proof.
  induction rows as [|a rows IH]; simpl; [lia|].
  intros Hnd. inversion Hnd as [|x l Hnotin Hnd']; subst.
  destruct (Z.eqb_spec (Attribution.patient a) pid) as [Heq|Hne]; [|auto].
  simpl.
  destruct (filter (fun a0 => Attribution.patient a0 =? pid) rows) as [|b l] eqn:E;
    [simpl; lia|].
  exfalso. apply Hnotin.
  assert (Hb : In b (filter (fun a0 => Attribution.patient a0 =? pid) rows))
    by (rewrite E; now left).
  apply filter_In in Hb as [Hb1 Hb2]. apply Z.eqb_eq in Hb2.
  apply in_map_iff. exists b. split; [congruence|assumption].
Qed.

Lemma update_row_fix (a : Attribution.t) (l : list Attribution.t) :
  ~ In (Attribution.id a) (map Attribution.id l) -> update_row a l = l.
Proof.
  induction l as [|r l IH]; simpl; [reflexivity|].
  intros Hn.
  destruct (Z.eqb_spec (Attribution.id r) (Attribution.id a)) as [E|_].
  - exfalso. apply Hn. now left.
  - f_equal. apply IH. intros Hin. apply Hn. now right.
Qed.

Lemma update_row_split (a a0 : Attribution.t) (l1 l2 : list Attribution.t) :
  Attribution.id a = Attribution.id a0 ->
  NoDup (map Attribution.id (l1 ++ a0 :: l2)) ->
  update_row a (l1 ++ a0 :: l2) = (l1 ++ a :: l2)%list.
Proof.
  intros Hid Hnd.
  rewrite map_app in Hnd. simpl in Hnd.
  pose proof (NoDup_remove_2 _ _ _ Hnd) as Hnotin.
  rewrite <- Hid in Hnotin.
  assert (H1 : update_row a l1 = l1)
    by (apply update_row_fix; intros Hin; apply Hnotin; apply in_or_app; auto).
  assert (H2 : update_row a l2 = l2)
    by (apply update_row_fix; intros Hin; apply Hnotin; apply in_or_app; auto).
  unfold update_row in *. rewrite map_app. simpl.
  rewrite H1, H2, Hid, Z.eqb_refl. reflexivity.
Qed.

Lemma NoDup_snoc {A : Type} (l : list A) (x : A) :
  NoDup l -> ~ In x l -> NoDup (l ++ [x]).
Proof.
  intros Hnd Hx. apply NoDup_app; [assumption|repeat constructor; simpl; tauto|].
  intros a Ha [<-|[]]. contradiction.
Qed.

Lemma filter_singleton_split (pid : Z) (rows : list Attribution.t) (a0 : Attribution.t) :
  filter (fun a => Attribution.patient a =? pid) rows = [a0] ->
  exists l1 l2,
    rows = (l1 ++ a0 :: l2)%list
    /\ Attribution.patient a0 = pid
    /\ filter (fun a => Attribution.patient a =? pid) l1 = []
    /\ filter (fun a => Attribution.patient a =? pid) l2 = [].
Proof.
  induction rows as [|r rows IH]; simpl; [discriminate|].
  destruct (Z.eqb_spec (Attribution.patient r) pid) as [E|Hne].
  - intros H. injection H as -> Hrest.
    exists [], rows. simpl. auto.
  - intros H. destruct (IH H) as (l1 & l2 & -> & Hp & H1 & H2).
    exists (r :: l1), l2. simpl.
    destruct (Z.eqb_spec (Attribution.patient r) pid); [contradiction|]. auto.
Qed.

(** What [update_or_create] does under the table's constraints: it
    returns the patient's row with the defaults applied, leaves exactly
    that row for the patient and keeps the constraints. *)
Lemma update_or_create_spec (db : DB) (patient : Patient.t) (invoice : Invoice.t)
    (paid_at now : Z) (r : Ranking) :
  attribution_constraints db ->
  exists db' a a0,
    update_or_create db patient invoice paid_at now r = Ok (db', a)
    /\ a = apply_defaults a0 patient invoice paid_at now r
    /\ (attributions_of db patient = [a0]
        \/ attributions_of db patient = []
           /\ a0 = blank_attribution (next_pk (map Attribution.id (attributions db)))
                                     patient now)
    /\ attributions_of db' patient = [a]
    /\ attribution_constraints db'.
Proof.
  intros [Hids Hpats].
  pose proof (filter_patient_unique (Patient.id patient) _ Hpats) as Hlen.
  unfold update_or_create, attributions_of.
  destruct (filter (fun a => Attribution.patient a =? Patient.id patient) (attributions db))
    as [|a0 [|a1 rest]] eqn:Hf; simpl in Hlen; [| |lia].
  - eexists _, _, _. split; [reflexivity|]. split; [reflexivity|].
    split; [right; split; reflexivity|].
    simpl. split.
    + rewrite filter_app, Hf. simpl. now rewrite Z.eqb_refl.
    + unfold attribution_constraints. simpl. rewrite !map_app. simpl.
      split; apply NoDup_snoc; auto using next_pk_fresh, filter_patient_nil.
  - destruct (filter_singleton_split _ _ _ Hf) as (l1 & l2 & Hrows & Hp & H1 & H2).
    eexists _, _, a0. split; [reflexivity|]. split; [reflexivity|].
    split; [left; reflexivity|].
    rewrite Hrows in Hids, Hpats |- *.
    rewrite update_row_split by (simpl; auto).
    simpl. split.
    + rewrite filter_app. simpl. rewrite H1, H2, Hp, Z.eqb_refl. reflexivity.
    + unfold attribution_constraints. simpl.
      rewrite !map_app in *. simpl in *. auto.
Qed.

Lemma str_or_empty (s : string) : str_or s "" = s.
Proof.
  unfold str_or, truthy. destruct (String.eqb_spec s ""); simpl; congruence.
Qed.

(** The ranking decides everything but the evidence without looking
    at the evidence, and adds at most a reason to it. *)
Lemma rank_shape (calls : list CallEvent.t) (touches : list MarketingTouch.t) :
  exists src ty name source medium,
    forall ev,
      rank calls touches ev
      = mkRanking src ty name source medium
          (match fired_rule calls touches with
           | Some reason => dict_set "attribution_reason" (JStr reason) ev
           | None => ev
           end).
Proof.
  unfold rank, fired_rule, rank_paid_call.
  destruct (find (fun c => truthy (CallEvent.campaign_id c)) calls) as [call|] eqn:Hc.
  - assert (He : existsb (fun c => truthy (CallEvent.campaign_id c)) calls = true).
    { apply existsb_exists. exists call. apply find_some in Hc. tauto. }
    rewrite He. do 5 eexists. intros ev. reflexivity.
  - assert (He : existsb (fun c => truthy (CallEvent.campaign_id c)) calls = false).
    { apply not_true_is_false. intros H. apply existsb_exists in H as (c & Hin & Hc').
      pose proof (find_none _ _ Hc c Hin). congruence. }
    rewrite He. unfold rank_paid_touch. simpl.
    destruct (find (fun m => is_paid_medium (MarketingTouch.utm_medium m)) touches)
      as [touch|] eqn:Ht.
    + assert (Het : existsb (fun m => is_paid_medium (MarketingTouch.utm_medium m)) touches
                    = true).
      { apply existsb_exists. exists touch. apply find_some in Ht. tauto. }
      rewrite Het. do 5 eexists. intros ev. reflexivity.
    + assert (Het : existsb (fun m => is_paid_medium (MarketingTouch.utm_medium m)) touches
                    = false).
      { apply not_true_is_false. intros H. apply existsb_exists in H as (m & Hin & Hm).
        pose proof (find_none _ _ Ht m Hin). congruence. }
      rewrite Het.
      destruct calls as [|call calls]; [destruct touches as [|touch touches]|];
        do 5 eexists; intros ev; cbn; reflexivity.
Qed.

(** [create_attribution] on a paid invoice is [update_or_create] on the
    ranking of the two candidate lists. *)
Lemma create_attribution_spec (db : DB) (patient : Patient.t) (invoice : Invoice.t)
    (now paid_at : Z) :
  attribution_constraints db ->
  Invoice.paid_at invoice = Some paid_at ->
  exists db' a a0,
    create_attribution db patient invoice now = Ok (db', a)
    /\ a = apply_defaults a0 patient invoice paid_at now
            (rank (find_call_events db patient (paid_at - days 30) paid_at)
                  (find_marketing_touches db patient (paid_at - days 30) paid_at)
                  (initial_evidence patient invoice paid_at (paid_at - days 30) now
                     (find_call_events db patient (paid_at - days 30) paid_at)
                     (find_marketing_touches db patient (paid_at - days 30) paid_at)))
    /\ (attributions_of db patient = [a0]
        \/ attributions_of db patient = []
           /\ a0 = blank_attribution (next_pk (map Attribution.id (attributions db)))
                                     patient now)
    /\ attributions_of db' patient = [a]
    /\ attribution_constraints db'
    /\ exists rows, db' = with_attributions db rows.
Proof.
  intros Hc Hp. unfold create_attribution. rewrite Hp.
  destruct (update_or_create_spec db patient invoice paid_at now
              (rank (find_call_events db patient (paid_at - days 30) paid_at)
                    (find_marketing_touches db patient (paid_at - days 30) paid_at)
                    (initial_evidence patient invoice paid_at (paid_at - days 30) now
                       (find_call_events db patient (paid_at - days 30) paid_at)
                       (find_marketing_touches db patient (paid_at - days 30) paid_at)))
              Hc)
    as (db' & a & a0 & Heq & Ha & Hrow & Hone & Hc').
  exists db', a, a0. repeat (split; [assumption|]).
  unfold update_or_create in Heq.
  destruct (filter _ (attributions db)) as [|x [|y l]]; try discriminate;
    injection Heq as <- _; eexists; reflexivity.
Qed.

(** C2: when candidate set A holds a call with a non-empty campaign id,
    [create_attribution] returns an attribution of type [call] with
    source [phone] and medium [call], whatever touches are in the
    window. *)
Theorem paid_call_precedence (db : DB) (patient : Patient.t) (invoice : Invoice.t)
    (now paid_at : Z) :
  attribution_constraints db ->
  Invoice.paid_at invoice = Some paid_at ->
  (exists c, In c (find_call_events db patient (paid_at - days 30) paid_at)
             /\ CallEvent.campaign_id c <> "") ->
  exists db' a,
    create_attribution db patient invoice now = Ok (db', a)
    /\ attributions_of db' patient = [a]
    /\ Attribution.attribution_type a = "call"
    /\ Attribution.campaign_source a = "phone"
    /\ Attribution.campaign_medium a = "call"
    /\ Attribution.content_type a = Some CT_CallEvent.
Proof.
  intros Hc Hp (c & Hin & Hcamp).
  destruct (create_attribution_spec db patient invoice now paid_at Hc Hp)
    as (db' & a & a0 & Heq & Ha & _ & Hone & _).
  exists db', a. split; [assumption|]. split; [assumption|].
  apply truthy_true in Hcamp.
  destruct (find_exists (fun c => truthy (CallEvent.campaign_id c)) _ c Hin Hcamp)
    as (call & Hfind & _).
  subst a. unfold rank, rank_paid_call. rewrite Hfind. simpl. auto.
Qed.

Lemma paid_call_precedence_witness :
  exists db' a,
    create_attribution db_calls jane invoice1 (t_paid + hours 1) = Ok (db', a)
    /\ attributions_of db' jane = [a]
    /\ Attribution.attribution_type a = "call"
    /\ Attribution.campaign_source a = "phone"
    /\ Attribution.campaign_medium a = "call"
    /\ Attribution.content_type a = Some CT_CallEvent.
Proof.
  apply (paid_call_precedence db_calls jane invoice1 (t_paid + hours 1) t_paid).
  - split; constructor.
  - reflexivity.
  - exists call_paid. split; [vm_compute; auto|discriminate].
Defined.

(** C3: when no call of candidate set A has a campaign id and some
    touch of candidate set B has a paid medium, [create_attribution]
    selects the first such touch of B (most recent first): the
    attribution has type [marketing_touch], refers to that touch and
    carries its UTM source and medium, organic calls notwithstanding. *)
Theorem paid_touch_precedence (db : DB) (patient : Patient.t) (invoice : Invoice.t)
    (now paid_at : Z) :
  attribution_constraints db ->
  Invoice.paid_at invoice = Some paid_at ->
  (forall c, In c (find_call_events db patient (paid_at - days 30) paid_at) ->
             CallEvent.campaign_id c = "") ->
  (exists m, In m (find_marketing_touches db patient (paid_at - days 30) paid_at)
             /\ is_paid_medium (MarketingTouch.utm_medium m) = true) ->
  exists db' a touch,
    create_attribution db patient invoice now = Ok (db', a)
    /\ find (fun m => is_paid_medium (MarketingTouch.utm_medium m))
            (find_marketing_touches db patient (paid_at - days 30) paid_at)
       = Some touch
    /\ Attribution.attribution_type a = "marketing_touch"
    /\ Attribution.content_type a = Some CT_MarketingTouch
    /\ Attribution.object_id a = Some (MarketingTouch.id touch)
    /\ Attribution.campaign_source a = MarketingTouch.utm_source touch
    /\ Attribution.campaign_medium a = MarketingTouch.utm_medium touch.
Proof.
  intros Hc Hp Hcalls (m & Hin & Hpaid).
  destruct (create_attribution_spec db patient invoice now paid_at Hc Hp)
    as (db' & a & a0 & Heq & Ha & _).
  destruct (find_exists (fun m => is_paid_medium (MarketingTouch.utm_medium m)) _ m Hin Hpaid)
    as (touch & Hfind & _).
  exists db', a, touch. split; [assumption|]. split; [assumption|].
  assert (Hnone : find (fun c => truthy (CallEvent.campaign_id c))
                       (find_call_events db patient (paid_at - days 30) paid_at) = None).
  { destruct (find (fun c => truthy (CallEvent.campaign_id c))
                  (find_call_events db patient (paid_at - days 30) paid_at))
      as [c|] eqn:E; [|reflexivity].
    apply find_some in E as [Hcin Hct]. rewrite (Hcalls c Hcin) in Hct. discriminate. }
  subst a. unfold rank, rank_paid_call. rewrite Hnone.
  unfold rank_paid_touch, no_source. cbn [attributed_source]. rewrite Hfind.
  cbn. rewrite !str_or_empty. auto.
Qed.

Lemma paid_touch_precedence_witness :
  exists db' a touch,
    create_attribution db_touches jane invoice1 (t_paid + hours 1) = Ok (db', a)
    /\ find (fun m => is_paid_medium (MarketingTouch.utm_medium m))
            (find_marketing_touches db_touches jane (t_paid - days 30) t_paid)
       = Some touch
    /\ Attribution.attribution_type a = "marketing_touch"
    /\ Attribution.content_type a = Some CT_MarketingTouch
    /\ Attribution.object_id a = Some (MarketingTouch.id touch)
    /\ Attribution.campaign_source a = MarketingTouch.utm_source touch
    /\ Attribution.campaign_medium a = MarketingTouch.utm_medium touch.
Proof.
  apply (paid_touch_precedence db_touches jane invoice1 (t_paid + hours 1) t_paid).
  - split; constructor.
  - reflexivity.
  - intros c Hin. vm_compute in Hin. destruct Hin as [<-|[]]. reflexivity.
  - exists touch_cpc. split; [vm_compute; auto|reflexivity].
Defined.

Lemma initial_evidence_fixed (patient : Patient.t) (invoice : Invoice.t)
    (paid_at lookback now : Z) (calls : list CallEvent.t)
    (touches : list MarketingTouch.t) :
  let ev := initial_evidence patient invoice paid_at lookback now calls touches in
  dict_get "invoice_id" ev = Some (JInt (Invoice.id invoice))
  /\ dict_get "invoice_amount" ev = Some (JStr (str_decimal (Invoice.total_amount invoice)))
  /\ dict_get "paid_at" ev = Some (JStr (isoformat paid_at))
  /\ dict_get "lookback_start" ev = Some (JStr (isoformat lookback))
  /\ dict_get "evaluated_at" ev = Some (JStr (isoformat now))
  /\ dict_get "marketing_touches_found" ev = Some (JInt (Z.of_nat (List.length touches)))
  /\ (Patient.phone patient <> "" ->
      dict_get "call_events_found" ev = Some (JInt (Z.of_nat (List.length calls))))
  /\ dict_get "attribution_reason" ev = None
  /\ dict_get "previous_attribution" ev = None.
Proof.
  unfold initial_evidence.
  destruct (truthy (Patient.phone patient)) eqn:Hph; cbn; repeat split; try reflexivity.
  intros Hne. apply truthy_true in Hne. congruence.
Qed.

(** C9, as the code has it: the evidence persisted by
    [create_attribution] always records the invoice id, amount and
    paid timestamp, the lookback boundary, the evaluation timestamp and
    the size of candidate set B; it records the size of candidate set A
    when the patient has a phone; and its reason entry is the reason of
    the precedence rule that fired, absent exactly when the
    attribution is [unknown]. *)
Theorem evidence_recorded (db : DB) (patient : Patient.t) (invoice : Invoice.t)
    (now paid_at : Z) :
  attribution_constraints db ->
  Invoice.paid_at invoice = Some paid_at ->
  exists db' a,
    create_attribution db patient invoice now = Ok (db', a)
    /\ attributions_of db' patient = [a]
    /\ let ev := Attribution.evidence_json a in
       let calls := find_call_events db patient (paid_at - days 30) paid_at in
       let touches := find_marketing_touches db patient (paid_at - days 30) paid_at in
       dict_get "invoice_id" ev = Some (JInt (Invoice.id invoice))
       /\ dict_get "invoice_amount" ev
          = Some (JStr (str_decimal (Invoice.total_amount invoice)))
       /\ dict_get "paid_at" ev = Some (JStr (isoformat paid_at))
       /\ dict_get "lookback_start" ev = Some (JStr (isoformat (paid_at - days 30)))
       /\ dict_get "evaluated_at" ev = Some (JStr (isoformat now))
       /\ dict_get "marketing_touches_found" ev
          = Some (JInt (Z.of_nat (List.length touches)))
       /\ (Patient.phone patient <> "" ->
           dict_get "call_events_found" ev = Some (JInt (Z.of_nat (List.length calls))))
       /\ dict_get "attribution_reason" ev = option_map JStr (fired_rule calls touches)
       /\ (fired_rule calls touches = None <-> Attribution.attribution_type a = "unknown").
Proof.
  intros Hc Hp.
  destruct (create_attribution_spec db patient invoice now paid_at Hc Hp)
    as (db' & a & a0 & Heq & Ha & _ & Hone & _).
  exists db', a. split; [assumption|]. split; [assumption|].
  set (calls := find_call_events db patient (paid_at - days 30) paid_at) in *.
  set (touches := find_marketing_touches db patient (paid_at - days 30) paid_at) in *.
  pose proof (initial_evidence_fixed patient invoice paid_at (paid_at - days 30) now
                calls touches) as Hev.
  set (ev0 := initial_evidence patient invoice paid_at (paid_at - days 30) now
                calls touches) in *.
  cbv zeta in Hev |- *.
  destruct Hev as (H1 & H2 & H3 & H4 & H5 & H6 & H7 & H8 & _).
  assert (Hev : Attribution.evidence_json a
                = match fired_rule calls touches with
                  | Some reason => dict_set "attribution_reason" (JStr reason) ev0
                  | None => ev0
                  end).
  { destruct (rank_shape calls touches) as (s & ty & n & so & me & Hr).
    subst a. simpl. rewrite Hr. reflexivity. }
  assert (Hty : fired_rule calls touches = None
                <-> Attribution.attribution_type a = "unknown").
  { subst a. simpl. clearbody calls touches ev0. clear.
    unfold rank, fired_rule, rank_paid_call.
    destruct (find (fun c => truthy (CallEvent.campaign_id c)) calls) as [call|] eqn:Hcall.
    - assert (He : existsb (fun c => truthy (CallEvent.campaign_id c)) calls = true).
      { apply existsb_exists. exists call. apply find_some in Hcall. tauto. }
      rewrite He. cbn. split; discriminate.
    - destruct (existsb (fun c => truthy (CallEvent.campaign_id c)) calls) eqn:He.
      { apply existsb_exists in He as (c & Hin & Hc').
        pose proof (find_none _ _ Hcall c Hin). congruence. }
      unfold rank_paid_touch. simpl.
      destruct (find (fun m => is_paid_medium (MarketingTouch.utm_medium m)) touches)
        as [touch|] eqn:Ht.
      + assert (Het : existsb (fun m => is_paid_medium (MarketingTouch.utm_medium m))
                              touches = true).
        { apply existsb_exists. exists touch. apply find_some in Ht. tauto. }
        rewrite Het. cbn. split; discriminate.
      + destruct (existsb (fun m => is_paid_medium (MarketingTouch.utm_medium m)) touches)
          eqn:Het.
        { apply existsb_exists in Het as (m & Hin & Hm).
          pose proof (find_none _ _ Ht m Hin). congruence. }
        destruct calls as [|call calls]; [destruct touches as [|touch touches]|]; cbn;
          split; try discriminate; reflexivity. }
  rewrite Hev.
  destruct (fired_rule calls touches) as [reason|]; simpl.
  - rewrite !dict_get_set_other by discriminate.
    rewrite dict_get_set_same.
    repeat match goal with |- _ /\ _ => split end; auto.
  - repeat match goal with |- _ /\ _ => split end; auto.
Qed.

Lemma evidence_recorded_witness :
  exists db' a,
    create_attribution db_calls jane invoice1 (t_paid + hours 1) = Ok (db', a)
    /\ attributions_of db' jane = [a]
    /\ dict_get "call_events_found" (Attribution.evidence_json a) = Some (JInt 2)
    /\ dict_get "attribution_reason" (Attribution.evidence_json a)
       = Some (JStr "Matched paid campaign call").
Proof.
  destruct (evidence_recorded db_calls jane invoice1 (t_paid + hours 1) t_paid)
    as (db' & a & Heq & Hone & _ & _ & _ & _ & _ & _ & Hcalls & Hreason & _).
  - split; constructor.
  - reflexivity.
  - exists db', a. split; [exact Heq|]. split; [exact Hone|].
    split; [apply Hcalls; discriminate|exact Hreason].
Defined.

(** A patient without phone and without email: the persisted evidence
    has neither a call count nor a reason. *)
Lemma evidence_recorded_counterexample :
  exists db' a,
    create_attribution db_empty anon invoice1 (t_paid + hours 1) = Ok (db', a)
    /\ Attribution.attribution_type a = "unknown"
    /\ dict_keys (Attribution.evidence_json a)
       = ["invoice_id"; "invoice_amount"; "paid_at"; "lookback_start"; "evaluated_at";
          "marketing_touches_found"]
    /\ dict_get "call_events_found" (Attribution.evidence_json a) = None
    /\ dict_get "attribution_reason" (Attribution.evidence_json a) = None.
Proof.
  eexists _, _. split; [reflexivity|]. repeat split.
Qed.

Lemma with_attributions_candidates (db : DB) (rows : list Attribution.t)
    (patient : Patient.t) (lookback paid_at : Z) :
  find_call_events (with_attributions db rows) patient lookback paid_at
  = find_call_events db patient lookback paid_at
  /\ find_marketing_touches (with_attributions db rows) patient lookback paid_at
     = find_marketing_touches db patient lookback paid_at.
Proof. split; reflexivity. Qed.

(** C5: two evaluations with the same inputs and unchanged calls and
    touches both succeed and both leave exactly one attribution row
    for the patient; the second row has the content of the first, but
    for the evaluation timestamp held in the evidence. *)
Theorem create_attribution_idempotent (db : DB) (patient : Patient.t) (invoice : Invoice.t)
    (now1 now2 paid_at : Z) :
  attribution_constraints db ->
  Invoice.paid_at invoice = Some paid_at ->
  exists db1 a1 db2 a2,
    create_attribution db patient invoice now1 = Ok (db1, a1)
    /\ create_attribution db1 patient invoice now2 = Ok (db2, a2)
    /\ attributions_of db1 patient = [a1]
    /\ attributions_of db2 patient = [a2]
    /\ dict_get "evaluated_at" (Attribution.evidence_json a1) = Some (JStr (isoformat now1))
    /\ content a2
       = content (with_evidence a1
                    (dict_set "evaluated_at" (JStr (isoformat now2))
                              (Attribution.evidence_json a1))).
Proof.
  intros Hc Hp.
  destruct (create_attribution_spec db patient invoice now1 paid_at Hc Hp)
    as (db1 & a1 & a0 & Heq1 & Ha1 & _ & Hone1 & Hc1 & rows & Hdb1).
  destruct (create_attribution_spec db1 patient invoice now2 paid_at Hc1 Hp)
    as (db2 & a2 & a0' & Heq2 & Ha2 & Hrow2 & Hone2 & _).
  exists db1, a1, db2, a2. repeat (split; [assumption|]).
  assert (a0' = a1) as ->.
  { destruct Hrow2 as [H|[H _]]; rewrite Hone1 in H; congruence. }
  rewrite Hdb1 in Ha2.
  destruct (with_attributions_candidates db rows patient (paid_at - days 30) paid_at)
    as [Hcalls Htouches].
  rewrite Hcalls, Htouches in Ha2.
  set (calls := find_call_events db patient (paid_at - days 30) paid_at) in *.
  set (touches := find_marketing_touches db patient (paid_at - days 30) paid_at) in *.
  destruct (rank_shape calls touches) as (s & ty & n & so & me & Hr).
  rewrite Hr in Ha1, Ha2. subst a1 a2.
  unfold content, with_evidence, apply_defaults. cbn.
  unfold initial_evidence.
  destruct (fired_rule calls touches) as [reason|];
    destruct (truthy (Patient.phone patient)); cbn; split; reflexivity.
Qed.

Lemma create_attribution_idempotent_witness :
  exists db1 a1 db2 a2,
    create_attribution db_calls jane invoice1 (t_paid + hours 1) = Ok (db1, a1)
    /\ create_attribution db1 jane invoice1 (t_paid + hours 2) = Ok (db2, a2)
    /\ attributions_of db1 jane = [a1]
    /\ attributions_of db2 jane = [a2]
    /\ dict_get "evaluated_at" (Attribution.evidence_json a1)
       = Some (JStr (isoformat (t_paid + hours 1)))
    /\ content a2
       = content (with_evidence a1
                    (dict_set "evaluated_at" (JStr (isoformat (t_paid + hours 2)))
                              (Attribution.evidence_json a1))).
Proof.
  apply (create_attribution_idempotent db_calls jane invoice1
           (t_paid + hours 1) (t_paid + hours 2) t_paid).
  - split; constructor.
  - reflexivity.
Defined.

(** C10: re-evaluating a manually overridden attribution stores the
    evidence, type, source reference and campaign fields that a first
    evaluation would store (the previous-attribution entry is gone)
    and keeps the status, the overriding user, the reason and the
    override time. *)
Theorem create_attribution_after_override (db : DB) (patient : Patient.t)
    (invoice : Invoice.t) (now paid_at : Z) (a0 : Attribution.t) (prev : json) :
  attribution_constraints db ->
  Invoice.paid_at invoice = Some paid_at ->
  attributions_of db patient = [a0] ->
  Attribution.status a0 = "manual" ->
  dict_get "previous_attribution" (Attribution.evidence_json a0) = Some prev ->
  exists db' a db'' fresh,
    create_attribution db patient invoice now = Ok (db', a)
    /\ create_attribution (with_attributions db []) patient invoice now = Ok (db'', fresh)
    /\ attributions_of db' patient = [a]
    /\ Attribution.evidence_json a = Attribution.evidence_json fresh
    /\ dict_get "previous_attribution" (Attribution.evidence_json a) = None
    /\ Attribution.attribution_type a = Attribution.attribution_type fresh
    /\ Attribution.content_type a = Attribution.content_type fresh
    /\ Attribution.object_id a = Attribution.object_id fresh
    /\ Attribution.campaign_name a = Attribution.campaign_name fresh
    /\ Attribution.campaign_source a = Attribution.campaign_source fresh
    /\ Attribution.campaign_medium a = Attribution.campaign_medium fresh
    /\ Attribution.status a = "manual"
    /\ Attribution.overridden_by a = Attribution.overridden_by a0
    /\ Attribution.override_reason a = Attribution.override_reason a0
    /\ Attribution.overridden_at a = Attribution.overridden_at a0.
Proof.
  intros Hc Hp Hrow Hst Hprev.
  destruct (create_attribution_spec db patient invoice now paid_at Hc Hp)
    as (db' & a & a0' & Heq & Ha & Hrow' & Hone & _).
  assert (a0' = a0) as ->.
  { destruct Hrow' as [H|[H _]]; rewrite Hrow in H; congruence. }
  assert (Hc0 : attribution_constraints (with_attributions db []))
    by (split; constructor).
  destruct (create_attribution_spec (with_attributions db []) patient invoice now paid_at
              Hc0 Hp)
    as (db'' & fresh & b0 & Heqf & Hfresh & _).
  destruct (with_attributions_candidates db [] patient (paid_at - days 30) paid_at)
    as [Hcalls Htouches].
  rewrite Hcalls, Htouches in Hfresh.
  exists db', a, db'', fresh.
  repeat (split; [assumption|]).
  set (calls := find_call_events db patient (paid_at - days 30) paid_at) in *.
  set (touches := find_marketing_touches db patient (paid_at - days 30) paid_at) in *.
  subst a fresh. cbn.
  repeat match goal with |- _ /\ _ => split end; auto.
  destruct (rank_shape calls touches) as (s & ty & n & so & me & Hr).
  rewrite Hr. cbn.
  pose proof (initial_evidence_fixed patient invoice paid_at (paid_at - days 30) now
                calls touches) as Hev.
  cbv zeta in Hev.
  destruct (fired_rule calls touches);
    [rewrite dict_get_set_other by discriminate|]; apply Hev.
Qed.

Lemma create_attribution_after_override_witness :
  exists db' a db'' fresh,
    create_attribution db_manual jane invoice1 (t_paid + hours 8) = Ok (db', a)
    /\ create_attribution (with_attributions db_manual []) jane invoice1 (t_paid + hours 8)
       = Ok (db'', fresh)
    /\ attributions_of db' jane = [a]
    /\ Attribution.evidence_json a = Attribution.evidence_json fresh
    /\ dict_get "previous_attribution" (Attribution.evidence_json a) = None
    /\ Attribution.attribution_type a = Attribution.attribution_type fresh
    /\ Attribution.content_type a = Attribution.content_type fresh
    /\ Attribution.object_id a = Attribution.object_id fresh
    /\ Attribution.campaign_name a = Attribution.campaign_name fresh
    /\ Attribution.campaign_source a = Attribution.campaign_source fresh
    /\ Attribution.campaign_medium a = Attribution.campaign_medium fresh
    /\ Attribution.status a = "manual"
    /\ Attribution.overridden_by a = Attribution.overridden_by manual_row
    /\ Attribution.override_reason a = Attribution.override_reason manual_row
    /\ Attribution.overridden_at a = Attribution.overridden_at manual_row.
Proof.
  apply (create_attribution_after_override db_manual jane invoice1 (t_paid + hours 8)
           t_paid manual_row first_decision).
  - split; repeat constructor; simpl; tauto.
  - reflexivity.
  - reflexivity.
  - reflexivity.
  - reflexivity.
Defined.

(** ** The override handler *)

Lemma override_attribution_evidence (db : DB) (a : Attribution.t) (user : Z)
    (new_source : option Source) (reason : string) (now : Z) :
  Attribution.evidence_json (snd (override_attribution db a user new_source reason now))
  = dict_set "previous_attribution" (previous_attribution db a) (Attribution.evidence_json a).
Proof. reflexivity. Qed.

Lemma override_all_cons (db : DB) (a : Attribution.t)
    (user : Z) (new_source : option Source) (reason : string) (now : Z)
    (rest : list (Z * option Source * string * Z)) :
  override_all db a ((user, new_source, reason, now) :: rest)
  = override_all (fst (override_attribution db a user new_source reason now))
                 (snd (override_attribution db a user new_source reason now)) rest.
Proof. reflexivity. Qed.

Lemma override_all_snoc (db : DB) (a : Attribution.t)
    (init : list (Z * option Source * string * Z))
    (user : Z) (new_source : option Source) (reason : string) (now : Z) :
  override_all db a (init ++ [(user, new_source, reason, now)])
  = override_attribution (fst (override_all db a init)) (snd (override_all db a init))
                         user new_source reason now.
Proof. unfold override_all. rewrite fold_left_app. reflexivity. Qed.

(** Across any run of overrides the entries other than the
    previous-attribution entry stay as they were and no key is lost. *)
Lemma override_all_preserves (overrides : list (Z * option Source * string * Z)) :
  forall (db : DB) (a : Attribution.t),
    let a' := snd (override_all db a overrides) in
    (forall k, k <> "previous_attribution" ->
               dict_get k (Attribution.evidence_json a')
               = dict_get k (Attribution.evidence_json a))
    /\ (forall k, In k (dict_keys (Attribution.evidence_json a)) ->
                  In k (dict_keys (Attribution.evidence_json a')))
    /\ (List.length (Attribution.evidence_json a)
        <= List.length (Attribution.evidence_json a'))%nat.
Proof.
  induction overrides as [|[[[user new_source] reason] now] rest IH]; intros db a.
  - cbn. auto.
  - rewrite override_all_cons. cbv zeta.
    destruct (IH (fst (override_attribution db a user new_source reason now))
                 (snd (override_attribution db a user new_source reason now)))
      as (Hget & Hkeys & Hlen).
    rewrite override_attribution_evidence in Hget, Hkeys, Hlen.
    split; [|split].
    + intros k Hk. rewrite (Hget k Hk). now apply dict_get_set_other.
    + intros k Hk. apply Hkeys. now apply dict_keys_set.
    + eapply Nat.le_trans; [apply length_dict_set|exact Hlen].
Qed.

(** C4, as the code has it: through any run of overrides every
    evidence entry other than the previous-attribution entry keeps its
    value, no key is lost and the evidence never gets shorter; after
    each override the previous-attribution entry holds the type, source
    and campaign the attribution had just before that override. *)
Theorem override_evidence_kept (db : DB) (a : Attribution.t)
    (init : list (Z * option Source * string * Z))
    (user : Z) (new_source : option Source) (reason : string) (now : Z) :
  let before := override_all db a init in
  let after := override_all db a (init ++ [(user, new_source, reason, now)]) in
  (forall k, k <> "previous_attribution" ->
             dict_get k (Attribution.evidence_json (snd after))
             = dict_get k (Attribution.evidence_json a))
  /\ (forall k, In k (dict_keys (Attribution.evidence_json a)) ->
                In k (dict_keys (Attribution.evidence_json (snd after))))
  /\ (List.length (Attribution.evidence_json a)
      <= List.length (Attribution.evidence_json (snd before)))%nat
  /\ (List.length (Attribution.evidence_json (snd before))
      <= List.length (Attribution.evidence_json (snd after)))%nat
  /\ dict_get "previous_attribution" (Attribution.evidence_json (snd after))
     = Some (previous_attribution (fst before) (snd before))
  /\ Attribution.status (snd after) = "manual".
Proof.
  cbv zeta.
  destruct (override_all_preserves (init ++ [(user, new_source, reason, now)]) db a)
    as (Hget & Hkeys & _).
  destruct (override_all_preserves init db a) as (_ & _ & Hlen).
  split; [exact Hget|]. split; [exact Hkeys|]. split; [exact Hlen|].
  rewrite override_all_snoc, override_attribution_evidence.
  split; [apply length_dict_set|]. split; [apply dict_get_set_same|reflexivity].
Qed.

Lemma override_evidence_kept_witness :
  dict_get "invoice_id"
    (Attribution.evidence_json (snd (override_all db_auto auto_row [override1; override2])))
  = Some (JInt 7)
  /\ In "attribution_reason"
        (dict_keys (Attribution.evidence_json
                      (snd (override_all db_auto auto_row [override1; override2])))).
Proof.
  destruct (override_evidence_kept db_auto auto_row [override1] 3 None "reason reworded"
              (t_paid + hours 6)) as (Hget & Hkeys & _).
  split.
  - transitivity (dict_get "invoice_id" (Attribution.evidence_json auto_row));
      [apply (Hget "invoice_id"); discriminate|reflexivity].
  - apply (Hkeys "attribution_reason"). simpl. auto.
Defined.

(** Two overrides in a row: the decision recorded by the first one is
    no longer anywhere in the evidence after the second. *)
Lemma override_history_counterexample :
  dict_get "previous_attribution"
    (Attribution.evidence_json (snd (override_all db_auto auto_row [override1])))
  = Some first_decision
  /\ Attribution.evidence_json (snd (override_all db_auto auto_row [override1; override2]))
     = [("invoice_id", JInt 7);
        ("attribution_reason", JStr "Matched paid campaign call");
        ("previous_attribution",
         JObj [("type", JStr "call");
               ("source", JStr "Call CA-2 from +61400000001");
               ("campaign", JStr "")])]
  /\ ~ In first_decision
          (map snd (Attribution.evidence_json
                      (snd (override_all db_auto auto_row [override1; override2])))).
Proof.
  split; [reflexivity|]. split; [reflexivity|].
  cbn. unfold first_decision. intros [H|[H|[H|[]]]]; discriminate.
Qed.

(** ** The audit recorder *)

(** The guard of [AuditLog.save]: an instance whose key is truthy
    is refused, whatever the table holds. *)
Lemma AuditLog_save_guard (inet : string -> option string) (user_exists : Z -> bool)
    (db : DB) (self : AuditLog.t) (now : Z) :
  pk_truthy (AuditLog.pk self) = true ->
  AuditLog_save inet user_exists db self now
  = Raise (ValueError "AuditLog entries cannot be modified").
Proof. intros Hpk. unfold AuditLog_save. now rewrite Hpk. Qed.

(** C6 fails on the code at the key 0.  The guard [if self.pk:] tests
    the truth of the key, and 0 is falsy: an instance with the key 0
    is saved and its row is in the table; the same instance, its
    [action] changed, is saved again without an error, and the table
    then holds the changed row in place of the first one. *)
Theorem audit_save_rewrites_key_zero (inet : string -> option string)
    (user_exists : Z -> bool) :
  exists db1 row1 db2 row2,
    AuditLog_save inet user_exists db_audited (audit_zero "read") t_now = Ok (db1, row1)
    /\ AuditLog.pk row1 = Some 0
    /\ In row1 (audit_logs db1)
    /\ AuditLog_save inet user_exists db1 (audit_relabel row1 "delete") t_now
       = Ok (db2, row2)
    /\ ~ In row1 (audit_logs db2)
    /\ map AuditLog.pk (audit_logs db2) = map AuditLog.pk (audit_logs db1)
    /\ map AuditLog.action (audit_logs db1) = ["read"; "read"]
    /\ map AuditLog.action (audit_logs db2) = ["read"; "delete"].
Proof.
  eexists _, _, _, _.
  split; [reflexivity|]. split; [reflexivity|].
  split; [cbn; right; left; reflexivity|].
  split; [reflexivity|].
  split; [cbn; intros [H|[H|[]]]; discriminate|].
  repeat split.
Qed.

(** ** Guarded loops *)

Section Loop.

Context {St T : Type}.
Variable fires : St -> T -> bool.
Variable act : St -> T -> St.
Variable step : St * nat -> T -> St * nat.

Hypothesis step_eq :
  forall s n x, step (s, n) x = if fires s x then (act s x, S n) else (s, n).

Lemma loop_invariant (P : St * nat -> Prop) (l : list T) :
  (forall s n x, In x l -> fires s x = true -> P (s, n) -> P (act s x, S n)) ->
  forall st, P st -> P (fold_left step l st).
Proof.
  induction l as [|x l IH]; intros Hact st Hst; simpl; [assumption|].
  apply IH.
  - intros s n y Hy. apply Hact. now right.
  - destruct st as [s n]. rewrite step_eq.
    destruct (fires s x) eqn:Hf; [|assumption].
    apply Hact; [now left|assumption|assumption].
Qed.

Lemma loop_idle (l : list T) (s : St) (n : nat) :
  (forall x, In x l -> fires s x = false) -> fold_left step l (s, n) = (s, n).
Proof.
  induction l as [|x l IH]; intros Hidle; simpl; [reflexivity|].
  rewrite step_eq, (Hidle x) by now left.
  apply IH. intros y Hy. apply Hidle. now right.
Qed.

Hypothesis settles : forall s x, fires s x = true -> fires (act s x) x = false.
Hypothesis stable :
  forall s x y, fires s x = true -> fires s y = false -> fires (act s x) y = false.

Lemma loop_stable (l : list T) (y : T) (st : St * nat) :
  fires (fst st) y = false -> fires (fst (fold_left step l st)) y = false.
Proof.
  apply (loop_invariant (fun st => fires (fst st) y = false)).
  intros s n x _ Hx Hy. simpl in *. now apply stable.
Qed.

Lemma loop_settles (l : list T) :
  forall st x, In x l -> fires (fst (fold_left step l st)) x = false.
Proof.
  induction l as [|a l IH]; intros st x Hin; simpl; [contradiction|].
  destruct Hin as [->|Hin]; [|now apply IH].
  apply loop_stable. destruct st as [s n]. rewrite step_eq.
  destruct (fires s x) eqn:Hf; simpl; [now apply settles|assumption].
Qed.

End Loop.

(** ** Guarded loops that an exception can end *)

Section RaisingLoop.

Context {St T : Type}.
Variable fires : St -> T -> bool.
Variable act : St -> T -> St.
Variable err : T -> option exn.
Variable step : St * nat -> T -> result (St * nat).

Hypothesis step_eq :
  forall s n x,
    step (s, n) x
    = if fires s x
      then match err x with
           | Some e => Raise e
           | None => Ok (act s x, S n)
           end
      else Ok (s, n).

Lemma rloop_invariant (P : St * nat -> Prop) (l : list T) :
  (forall s n x, In x l -> fires s x = true -> err x = None ->
                 P (s, n) -> P (act s x, S n)) ->
  forall st, P st -> P (fst (for_each step l st)).
Proof.
  induction l as [|x l IH]; intros Hact st Hst; simpl; [assumption|].
  destruct st as [s n]. rewrite step_eq.
  destruct (fires s x) eqn:Hf.
  - destruct (err x) as [e|] eqn:He; [assumption|].
    apply IH.
    + intros s' n' y Hy. apply Hact. now right.
    + apply Hact; [now left|assumption|assumption|assumption].
  - apply IH; [|assumption]. intros s' n' y Hy. apply Hact. now right.
Qed.

Hypothesis settles : forall s x, fires s x = true -> fires (act s x) x = false.
Hypothesis stable :
  forall s x y, fires s x = true -> fires s y = false -> fires (act s x) y = false.

Lemma rloop_stable (l : list T) (y : T) (st : St * nat) :
  fires (fst st) y = false -> fires (fst (fst (for_each step l st))) y = false.
Proof.
  apply (rloop_invariant (fun st => fires (fst st) y = false)).
  intros s n x _ Hx _ Hy. simpl in *. now apply stable.
Qed.

(** A second pass over the list, from the state the first one left,
    changes nothing and ends the way the first one did. *)
Lemma rloop_idle (l : list T) :
  forall (st : St * nat) (n : nat),
    for_each step l (fst (fst (for_each step l st)), n)
    = ((fst (fst (for_each step l st)), n), snd (for_each step l st)).
Proof.
  induction l as [|x l IH]; intros [s m] n; simpl; [reflexivity|].
  rewrite (step_eq s m x).
  destruct (fires s x) eqn:Hf.
  - destruct (err x) as [e|] eqn:He.
    + simpl. now rewrite step_eq, Hf, He.
    + rewrite step_eq.
      rewrite (rloop_stable l x (act s x, S m)) by (simpl; now apply settles).
      apply IH.
  - rewrite step_eq.
    rewrite (rloop_stable l x (s, m)) by assumption.
    apply IH.
Qed.

(** When no row that fires is refused, the loop ends without an
    exception, and no row fires in the state it leaves. *)
Lemma rloop_completes (l : list T) :
  forall st : St * nat,
    (forall x, In x l -> fires (fst st) x = false \/ err x = None) ->
    snd (for_each step l st) = None
    /\ forall x, In x l -> fires (fst (fst (for_each step l st))) x = false.
Proof.
  induction l as [|x l IH]; intros [s n] Hok; simpl; [split; [reflexivity|contradiction]|].
  rewrite step_eq.
  assert (Hkeep : forall s', (forall y, fires s y = false -> fires s' y = false) ->
                             forall y, In y l -> fires s' y = false \/ err y = None).
  { intros s' Hs' y Hy. destruct (Hok y (or_intror Hy)) as [H|H]; [left|right]; auto. }
  destruct (fires s x) eqn:Hf.
  - destruct (Hok x (or_introl eq_refl)) as [H|He]; [simpl in H; congruence|].
    rewrite He.
    destruct (IH (act s x, S n)) as [Hnone Hall].
    { apply Hkeep. intros y Hy. now apply stable. }
    split; [assumption|].
    intros y [<-|Hy]; [|now apply Hall].
    apply rloop_stable. simpl. now apply settles.
  - destruct (IH (s, n)) as [Hnone Hall].
    { apply Hkeep. auto. }
    split; [assumption|].
    intros y [<-|Hy]; [|now apply Hall].
    now apply rloop_stable.
Qed.

End RaisingLoop.

(** ** Growth of an action table *)

Lemma grows_refl (g : Generator) (db : DB) : grows g db db 0.
Proof.
  exists []. rewrite app_nil_r, Nat.add_0_r.
  repeat split; [constructor|contradiction].
Qed.

Lemma grows_trans (g : Generator) (db1 db2 db3 : DB) (n m : nat) :
  grows g db1 db2 n -> grows g db2 db3 m -> grows g db1 db3 (n + m).
Proof.
  intros (c1 & Hk1 & Hnd1 & Hfr1 & Hl1 & Hr1) (c2 & Hk2 & Hnd2 & Hfr2 & Hl2 & Hr2).
  exists (c1 ++ c2)%list. rewrite Hk2, Hk1, app_assoc. split; [reflexivity|].
  split; [|split; [|split]].
  - apply NoDup_app; [assumption|assumption|].
    intros k Hk Hk'. apply (Hfr2 k Hk'). rewrite Hk1. apply in_or_app. now right.
  - intros k Hk Hin. apply in_app_or in Hk as [Hk|Hk].
    + now apply (Hfr1 k).
    + apply (Hfr2 k Hk). rewrite Hk1. apply in_or_app. now left.
  - rewrite length_app. lia.
  - lia.
Qed.

Lemma grows_one (g : Generator) (db db' : DB) (k : string) :
  keys_of g db' = (keys_of g db ++ [k])%list ->
  ~ In k (keys_of g db) ->
  rows_of g db' = S (rows_of g db) ->
  grows g db db' 1.
Proof.
  intros Hk Hfresh Hrows. exists [k]. split; [assumption|].
  split; [repeat constructor; simpl; tauto|].
  split; [intros k' [<-|[]]; assumption|]. split; [reflexivity|lia].
Qed.

Lemma task_exists_keys (key : string) (rows : list Task.t) :
  task_exists key rows = true <-> In key (task_keys rows).
Proof.
  unfold task_exists, task_keys. rewrite existsb_exists, in_flat_map.
  split; intros (t & Hin & Ht); exists t; (split; [assumption|]);
    destruct (Task.idempotency_key t) as [k|]; simpl in *;
    try discriminate; try contradiction.
  - apply String.eqb_eq in Ht. now left.
  - destruct Ht as [->|[]]. apply String.eqb_refl.
Qed.

Lemma review_exists_keys (key : string) (rows : list ReviewRequest.t) :
  review_exists key rows = true <-> In key (review_keys rows).
Proof.
  unfold review_exists, review_keys. rewrite existsb_exists, in_map_iff.
  split; intros (r & H1 & H2).
  - exists r. apply String.eqb_eq in H2. auto.
  - exists r. split; [assumption|]. rewrite H1. apply String.eqb_refl.
Qed.

Lemma task_exists_app (key : string) (rows more : list Task.t) :
  task_exists key (rows ++ more) = task_exists key rows || task_exists key more.
Proof. apply existsb_app. Qed.

Lemma task_keys_snoc (rows : list Task.t) (t : Task.t) (k : string) :
  Task.idempotency_key t = Some k -> task_keys (rows ++ [t]) = (task_keys rows ++ [k])%list.
Proof.
  intros Hk. unfold task_keys. rewrite flat_map_app. simpl. now rewrite Hk.
Qed.

Lemma review_keys_snoc (rows : list ReviewRequest.t) (r : ReviewRequest.t) :
  review_keys (rows ++ [r]) = (review_keys rows ++ [ReviewRequest.idempotency_key r])%list.
Proof. unfold review_keys. now rewrite map_app. Qed.

Lemma not_exists_fresh (key : string) (rows : list Task.t) :
  negb (task_exists key rows) = true -> ~ In key (task_keys rows).
Proof.
  intros H Hin. apply task_exists_keys in Hin. rewrite Hin in H. discriminate.
Qed.

(** ** Review requests *)

Lemma review_step_eq (now : Z) (s : DB) (n : nat) (row : Appointment.t * Patient.t) :
  review_step now (s, n) row
  = if review_fires s row then (review_act now s row, S n) else (s, n).
Proof.
  destruct row as [appt patient]. unfold review_step, review_fires, review_act. simpl.
  destruct (Patient.sms_consent patient || Patient.email_consent patient); simpl;
    [|reflexivity].
  destruct (review_exists (review_key appt) (review_requests s)); reflexivity.
Qed.

Lemma review_settles (now : Z) (s : DB) (row : Appointment.t * Patient.t) :
  review_fires s row = true -> review_fires (review_act now s row) row = false.
Proof.
  intros _. unfold review_fires, review_act, review_exists. simpl.
  rewrite existsb_app. simpl. rewrite String.eqb_refl, orb_true_r. simpl.
  apply andb_false_r.
Qed.

Lemma review_stable (now : Z) (s : DB) (x y : Appointment.t * Patient.t) :
  review_fires s x = true -> review_fires s y = false ->
  review_fires (review_act now s x) y = false.
Proof.
  intros _. unfold review_fires, review_act, review_exists. simpl.
  rewrite existsb_app.
  destruct (Patient.sms_consent (snd y) || Patient.email_consent (snd y)); simpl;
    [|reflexivity].
  destruct (existsb _ (review_requests s)); simpl; [reflexivity|discriminate].
Qed.

Lemma review_act_grows (now : Z) (s : DB) (row : Appointment.t * Patient.t) :
  review_fires s row = true -> grows Review s (review_act now s row) 1.
Proof.
  intros Hf. apply andb_prop in Hf as [_ Hf].
  apply grows_one with (k := review_key (fst row)).
  - simpl. now rewrite review_keys_snoc.
  - simpl. intros Hin. apply review_exists_keys in Hin. rewrite Hin in Hf. discriminate.
  - simpl. rewrite length_app. simpl. lia.
Qed.

(** The review query reads the clinics, patients and appointments only. *)
Lemma review_appointments_frame (db db' : DB) (now : Z) :
  clinics db' = clinics db -> patients db' = patients db ->
  appointments db' = appointments db ->
  review_appointments db' now = review_appointments db now.
Proof.
  intros Hc Hp Ha. unfold review_appointments, get_patient, clinic_active.
  rewrite Hc, Hp, Ha. reflexivity.
Qed.

Lemma review_run_frame (db : DB) (now : Z) :
  let db' := fst (generate_review_request_tasks db now) in
  clinics db' = clinics db /\ patients db' = patients db
  /\ appointments db' = appointments db /\ tasks db' = tasks db.
Proof.
  unfold generate_review_request_tasks.
  apply (loop_invariant review_fires (review_act now) (review_step now)
           (review_step_eq now)
           (fun st => clinics (fst st) = clinics db /\ patients (fst st) = patients db
                      /\ appointments (fst st) = appointments db
                      /\ tasks (fst st) = tasks db)).
  - intros s n x _ _ H. exact H.
  - simpl. auto.
Qed.

Lemma review_run_grows (db : DB) (now : Z) :
  grows Review db (fst (generate_review_request_tasks db now))
        (snd (generate_review_request_tasks db now)).
Proof.
  unfold generate_review_request_tasks.
  apply (loop_invariant review_fires (review_act now) (review_step now)
           (review_step_eq now) (fun st => grows Review db (fst st) (snd st))).
  - intros s n x _ Hf Hg. simpl in *. rewrite <- Nat.add_1_r.
    eapply grows_trans; [exact Hg|now apply review_act_grows].
  - apply grows_refl.
Qed.

Lemma review_run_idle (db : DB) (now : Z) :
  generate_review_request_tasks (fst (generate_review_request_tasks db now)) now
  = (fst (generate_review_request_tasks db now), O).
Proof.
  destruct (review_run_frame db now) as (Hc & Hp & Ha & _).
  unfold generate_review_request_tasks at 1.
  rewrite (review_appointments_frame db _ now Hc Hp Ha).
  apply (loop_idle review_fires (review_act now) (review_step now) (review_step_eq now)).
  intros x Hx. unfold generate_review_request_tasks.
  apply (loop_settles review_fires (review_act now) (review_step now) (review_step_eq now)
           (review_settles now) (review_stable now)); assumption.
Qed.

(** ** Treatment plan follow-ups *)

Lemma followup_step_eq (s : DB) (n : nat) (row : TreatmentPlan.t * Z) :
  followup_step (s, n) row
  = if followup_fires s row
    then match followup_err row with
         | Some e => Raise e
         | None => Ok (followup_act s row, S n)
         end
    else Ok (s, n).
Proof.
  destruct row as [plan sent_at].
  unfold followup_step, followup_fires, followup_act, followup_err. simpl.
  destruct (task_exists (followup_key plan) (tasks s)); reflexivity.
Qed.

Lemma followup_settles (s : DB) (row : TreatmentPlan.t * Z) :
  followup_fires s row = true -> followup_fires (followup_act s row) row = false.
Proof.
  intros _. unfold followup_fires, followup_act. simpl.
  rewrite task_exists_app. unfold task_exists at 2. simpl.
  rewrite String.eqb_refl. simpl. now rewrite orb_true_r.
Qed.

Lemma followup_stable (s : DB) (x y : TreatmentPlan.t * Z) :
  followup_fires s x = true -> followup_fires s y = false ->
  followup_fires (followup_act s x) y = false.
Proof.
  intros _. unfold followup_fires, followup_act. simpl. rewrite task_exists_app.
  destruct (task_exists (followup_key (fst y)) (tasks s)); simpl; [reflexivity|discriminate].
Qed.

Lemma followup_act_grows (s : DB) (row : TreatmentPlan.t * Z) :
  followup_fires s row = true -> grows TreatmentFollowup s (followup_act s row) 1.
Proof.
  intros Hf. apply grows_one with (k := followup_key (fst row)).
  - simpl. now apply task_keys_snoc.
  - simpl. now apply not_exists_fresh.
  - simpl. rewrite length_app. simpl. lia.
Qed.

Lemma followup_plans_frame (db db' : DB) (now : Z) :
  clinics db' = clinics db -> patients db' = patients db ->
  treatment_plans db' = treatment_plans db ->
  followup_plans db' now = followup_plans db now.
Proof.
  intros Hc Hp Ht. unfold followup_plans, get_patient, clinic_active.
  rewrite Hc, Hp, Ht. reflexivity.
Qed.

Lemma followup_run_frame (db : DB) (now : Z) :
  let db' := fst (fst (followup_run db now)) in
  clinics db' = clinics db /\ patients db' = patients db
  /\ treatment_plans db' = treatment_plans db
  /\ review_requests db' = review_requests db.
Proof.
  unfold followup_run.
  apply (rloop_invariant followup_fires followup_act followup_err followup_step
           followup_step_eq
           (fun st => clinics (fst st) = clinics db /\ patients (fst st) = patients db
                      /\ treatment_plans (fst st) = treatment_plans db
                      /\ review_requests (fst st) = review_requests db)).
  - intros s n x _ _ _ H. exact H.
  - simpl. auto.
Qed.

Lemma followup_run_grows (db : DB) (now : Z) :
  grows TreatmentFollowup db (fst (fst (followup_run db now)))
        (snd (fst (followup_run db now))).
Proof.
  unfold followup_run.
  apply (rloop_invariant followup_fires followup_act followup_err followup_step
           followup_step_eq
           (fun st => grows TreatmentFollowup db (fst st) (snd st))).
  - intros s n x _ Hf _ Hg. simpl in *. rewrite <- Nat.add_1_r.
    eapply grows_trans; [exact Hg|now apply followup_act_grows].
  - apply grows_refl.
Qed.

(** A second run, from the database the first one left, creates
    nothing and ends the way the first one did. *)
Lemma followup_run_again (db : DB) (now : Z) :
  followup_run (fst (fst (followup_run db now))) now
  = ((fst (fst (followup_run db now)), O), snd (followup_run db now)).
Proof.
  destruct (followup_run_frame db now) as (Hc & Hp & Ht & _).
  unfold followup_run at 1.
  rewrite (followup_plans_frame db _ now Hc Hp Ht).
  apply (rloop_idle followup_fires followup_act followup_err followup_step
           followup_step_eq followup_settles followup_stable).
Qed.

Lemma followup_run_idle (db : DB) (now : Z) :
  fst (followup_run (fst (fst (followup_run db now))) now)
  = (fst (fst (followup_run db now)), O).
Proof. now rewrite followup_run_again. Qed.

(** ** Recall tasks *)

Lemma recall_step_eq (now : Z) (s : DB) (n : nat) (row : Patient.t * Z) :
  recall_step now (s, n) row
  = if recall_fires now s row then (recall_act now s row, S n) else (s, n).
Proof.
  destruct row as [patient last_visit]. unfold recall_step, recall_fires, recall_act. simpl.
  destruct (task_exists (recall_key patient now) (tasks s)); reflexivity.
Qed.

Lemma recall_settles (now : Z) (s : DB) (row : Patient.t * Z) :
  recall_fires now s row = true -> recall_fires now (recall_act now s row) row = false.
Proof.
  intros _. unfold recall_fires, recall_act. simpl.
  rewrite task_exists_app. unfold task_exists at 2. simpl.
  rewrite String.eqb_refl. simpl. now rewrite orb_true_r.
Qed.

Lemma recall_stable (now : Z) (s : DB) (x y : Patient.t * Z) :
  recall_fires now s x = true -> recall_fires now s y = false ->
  recall_fires now (recall_act now s x) y = false.
Proof.
  intros _. unfold recall_fires, recall_act. simpl. rewrite task_exists_app.
  destruct (task_exists (recall_key (fst y) now) (tasks s)); simpl;
    [reflexivity|discriminate].
Qed.

Lemma recall_act_grows (now : Z) (s : DB) (row : Patient.t * Z) :
  recall_fires now s row = true -> grows Recall s (recall_act now s row) 1.
Proof.
  intros Hf. apply grows_one with (k := recall_key (fst row) now).
  - simpl. now apply task_keys_snoc.
  - simpl. now apply not_exists_fresh.
  - simpl. rewrite length_app. simpl. lia.
Qed.

Lemma recall_patients_frame (db db' : DB) (now : Z) :
  clinics db' = clinics db -> patients db' = patients db ->
  recall_patients db' now = recall_patients db now.
Proof.
  intros Hc Hp. unfold recall_patients, clinic_active. rewrite Hc, Hp. reflexivity.
Qed.

Lemma recall_run_frame (db : DB) (now : Z) :
  let db' := fst (generate_recall_tasks db now) in
  clinics db' = clinics db /\ patients db' = patients db
  /\ review_requests db' = review_requests db.
Proof.
  unfold generate_recall_tasks.
  apply (loop_invariant (recall_fires now) (recall_act now) (recall_step now)
           (recall_step_eq now)
           (fun st => clinics (fst st) = clinics db /\ patients (fst st) = patients db
                      /\ review_requests (fst st) = review_requests db)).
  - intros s n x _ _ H. exact H.
  - simpl. auto.
Qed.

Lemma recall_run_grows (db : DB) (now : Z) :
  grows Recall db (fst (generate_recall_tasks db now)) (snd (generate_recall_tasks db now)).
Proof.
  unfold generate_recall_tasks.
  apply (loop_invariant (recall_fires now) (recall_act now) (recall_step now)
           (recall_step_eq now) (fun st => grows Recall db (fst st) (snd st))).
  - intros s n x _ Hf Hg. simpl in *. rewrite <- Nat.add_1_r.
    eapply grows_trans; [exact Hg|now apply recall_act_grows].
  - apply grows_refl.
Qed.

Lemma recall_run_idle (db : DB) (now : Z) :
  generate_recall_tasks (fst (generate_recall_tasks db now)) now
  = (fst (generate_recall_tasks db now), O).
Proof.
  destruct (recall_run_frame db now) as (Hc & Hp & _).
  unfold generate_recall_tasks at 1.
  rewrite (recall_patients_frame db _ now Hc Hp).
  apply (loop_idle (recall_fires now) (recall_act now) (recall_step now)
           (recall_step_eq now)).
  intros x Hx. unfold generate_recall_tasks.
  apply (loop_settles (recall_fires now) (recall_act now) (recall_step now)
           (recall_step_eq now) (recall_settles now) (recall_stable now)); assumption.
Qed.

(** ** Callback tasks *)

Lemma callback_step_eq (clinic : Clinic.t) (s : DB) (n : nat) (call : CallEvent.t) :
  callback_step clinic (s, n) call
  = if callback_fires clinic s call then (callback_act clinic s call, S n) else (s, n).
Proof.
  unfold callback_step, callback_fires, callback_act.
  destruct (task_exists (callback_key call) (tasks s)); simpl; [reflexivity|].
  destruct (find_patient s clinic (CallEvent.caller_phone call)); reflexivity.
Qed.

Lemma callback_act_patients (clinic : Clinic.t) (s : DB) (call : CallEvent.t) :
  clinics (callback_act clinic s call) = clinics s
  /\ patients (callback_act clinic s call) = patients s
  /\ review_requests (callback_act clinic s call) = review_requests s.
Proof.
  unfold callback_act.
  destruct (find_patient s clinic (CallEvent.caller_phone call)); simpl; auto.
Qed.

Lemma find_patient_frame (db db' : DB) (clinic : Clinic.t) (phone : string) :
  patients db' = patients db -> find_patient db' clinic phone = find_patient db clinic phone.
Proof. intros H. unfold find_patient. now rewrite H. Qed.

Lemma callback_act_tasks (clinic : Clinic.t) (s : DB) (call : CallEvent.t) :
  callback_fires clinic s call = true ->
  exists patient,
    find_patient s clinic (CallEvent.caller_phone call) = Some patient
    /\ task_exists (callback_key call) (tasks s) = false
    /\ tasks (callback_act clinic s call)
       = (tasks s ++ [callback_task clinic patient call])%list
    /\ call_events (callback_act clinic s call) = mark_processed call (call_events s).
Proof.
  unfold callback_fires, callback_act. intros Hf.
  apply andb_prop in Hf as [Hk Hp]. apply negb_true_iff in Hk.
  destruct (find_patient s clinic (CallEvent.caller_phone call)) as [patient|];
    [|discriminate].
  exists patient. simpl. auto.
Qed.

Lemma callback_settles (clinic : Clinic.t) (s : DB) (call : CallEvent.t) :
  callback_fires clinic s call = true ->
  callback_fires clinic (callback_act clinic s call) call = false.
Proof.
  intros Hf. destruct (callback_act_tasks clinic s call Hf) as (p & _ & _ & Ht & _).
  unfold callback_fires at 1. rewrite Ht, task_exists_app.
  unfold task_exists at 2. simpl. rewrite String.eqb_refl. simpl.
  now rewrite orb_true_r.
Qed.

(** An action for one clinic never re-arms the guard of a call, for
    any clinic. *)
Lemma callback_stable (k k' : Clinic.t) (s : DB) (x y : CallEvent.t) :
  callback_fires k' s x = true -> callback_fires k s y = false ->
  callback_fires k (callback_act k' s x) y = false.
Proof.
  intros Hf Hy. destruct (callback_act_tasks k' s x Hf) as (p & _ & _ & Ht & _).
  destruct (callback_act_patients k' s x) as (_ & Hp & _).
  unfold callback_fires in *.
  rewrite Ht, task_exists_app, (find_patient_frame s _ k _ Hp).
  destruct (task_exists (callback_key y) (tasks s)); simpl in *; [reflexivity|].
  rewrite Hy. apply andb_false_r.
Qed.

Lemma callback_act_grows (clinic : Clinic.t) (s : DB) (call : CallEvent.t) :
  callback_fires clinic s call = true -> grows Callback s (callback_act clinic s call) 1.
Proof.
  intros Hf. destruct (callback_act_tasks clinic s call Hf) as (p & _ & Hk & Ht & _).
  apply grows_one with (k := callback_key call); simpl; rewrite ?Ht.
  - now apply task_keys_snoc.
  - apply not_exists_fresh. now rewrite Hk.
  - rewrite length_app. simpl. lia.
Qed.

(** A row that is unprocessed after [mark_processed] was already
    there, unchanged. *)
Lemma mark_processed_unprocessed (call c : CallEvent.t) (rows : list CallEvent.t) :
  In c (mark_processed call rows) -> CallEvent.is_processed c = false -> In c rows.
Proof.
  unfold mark_processed. intros Hin Hc. apply in_map_iff in Hin as (c0 & Heq & Hin).
  destruct (CallEvent.id c0 =? CallEvent.id call); subst c; [discriminate|assumption].
Qed.

Lemma callback_act_unprocessed (clinic : Clinic.t) (s : DB) (call c : CallEvent.t) :
  callback_fires clinic s call = true ->
  In c (call_events (callback_act clinic s call)) -> CallEvent.is_processed c = false ->
  In c (call_events s).
Proof.
  intros Hf. destruct (callback_act_tasks clinic s call Hf) as (p & _ & _ & _ & Hc).
  rewrite Hc. apply mark_processed_unprocessed.
Qed.

(** Whatever every action keeps, the whole run keeps. *)
Lemma callback_loop_invariant (P : DB * nat -> Prop) (now : Z) (ks : list Clinic.t) :
  (forall k s n x, callback_fires k s x = true -> P (s, n) -> P (callback_act k s x, S n)) ->
  forall st, P st -> P (fold_left (clinic_step now) ks st).
Proof.
  intros Hact. induction ks as [|k ks IH]; intros st Hst; simpl; [assumption|].
  apply IH. unfold clinic_step.
  apply (loop_invariant (callback_fires k) (callback_act k) (callback_step k)
           (callback_step_eq k)); [|assumption].
  intros s n x _. apply Hact.
Qed.

Lemma callback_run_frame (now : Z) (ks : list Clinic.t) (st : DB * nat) :
  let db' := fst (fold_left (clinic_step now) ks st) in
  clinics db' = clinics (fst st) /\ patients db' = patients (fst st)
  /\ review_requests db' = review_requests (fst st).
Proof.
  apply (callback_loop_invariant
           (fun st' => clinics (fst st') = clinics (fst st)
                       /\ patients (fst st') = patients (fst st)
                       /\ review_requests (fst st') = review_requests (fst st)));
    [|auto].
  intros k s n x _ (Hc & Hp & Hr). simpl in *.
  destruct (callback_act_patients k s x) as (Hc' & Hp' & Hr'). split; [|split]; congruence.
Qed.

Lemma callback_run_unprocessed (now : Z) (ks : list Clinic.t) (st : DB * nat)
    (c : CallEvent.t) :
  In c (call_events (fst (fold_left (clinic_step now) ks st))) ->
  CallEvent.is_processed c = false ->
  In c (call_events (fst st)).
Proof.
  intros Hin Hc. revert Hin.
  apply (callback_loop_invariant
           (fun st' => In c (call_events (fst st')) -> In c (call_events (fst st))));
    [|auto].
  intros k s n x Hf IH Hin. simpl in *. apply IH.
  now apply (callback_act_unprocessed k s x c Hf).
Qed.

Lemma callback_run_stable (now : Z) (ks : list Clinic.t) (st : DB * nat)
    (k : Clinic.t) (y : CallEvent.t) :
  callback_fires k (fst st) y = false ->
  callback_fires k (fst (fold_left (clinic_step now) ks st)) y = false.
Proof.
  apply (callback_loop_invariant (fun st' => callback_fires k (fst st') y = false)).
  intros k' s n x Hf Hy. simpl in *. now apply callback_stable.
Qed.

Lemma callback_run_grows (db : DB) (now : Z) :
  grows Callback db (fst (generate_missed_call_tasks db now))
        (snd (generate_missed_call_tasks db now)).
Proof.
  unfold generate_missed_call_tasks.
  apply (callback_loop_invariant (fun st => grows Callback db (fst st) (snd st)));
    [|apply grows_refl].
  intros k s n x Hf Hg. simpl in *. rewrite <- Nat.add_1_r.
  eapply grows_trans; [exact Hg|now apply callback_act_grows].
Qed.

(** Membership in the scan of a clinic depends on the row alone. *)
Lemma missed_calls_In (db : DB) (clinic : Clinic.t) (cutoff : Z) (c : CallEvent.t) :
  In c (missed_calls db clinic cutoff)
  <-> In c (call_events db)
      /\ CallEvent.clinic c = Clinic.id clinic
      /\ cutoff <= CallEvent.timestamp c
      /\ CallEvent.duration_seconds c < 30
      /\ CallEvent.resulted_in_appointment c = false
      /\ CallEvent.is_processed c = false.
Proof.
  unfold missed_calls. rewrite In_order_by, filter_In, !andb_true_iff, !negb_true_iff.
  rewrite Z.eqb_eq, Z.leb_le, Z.ltb_lt. tauto.
Qed.

(** After a run, no call still in the scan of a visited clinic arms
    the guard. *)
Lemma callback_run_settled (now : Z) (ks : list Clinic.t) :
  forall (st : DB * nat) (k : Clinic.t) (c : CallEvent.t),
    In k ks ->
    In c (missed_calls (fst (fold_left (clinic_step now) ks st)) k (now - hours 24)) ->
    callback_fires k (fst (fold_left (clinic_step now) ks st)) c = false.
Proof.
  induction ks as [|k0 ks IH]; intros st k c Hk Hc; [contradiction|].
  simpl in *. destruct Hk as [->|Hk]; [|now apply IH].
  apply callback_run_stable.
  apply missed_calls_In in Hc as (Hin & Hrest).
  assert (Hproc : CallEvent.is_processed c = false) by tauto.
  apply (callback_run_unprocessed now ks _ c) in Hin; [|assumption].
  assert (Hin0 : In c (call_events (fst st))).
  { apply (callback_run_unprocessed now [k] st c); assumption. }
  unfold clinic_step.
  apply (loop_settles (callback_fires k) (callback_act k) (callback_step k)
           (callback_step_eq k) (callback_settles k)
           (fun s x y => callback_stable k k s x y)).
  apply missed_calls_In. tauto.
Qed.

Lemma callback_run_idle_from (now : Z) (ks : list Clinic.t) (s : DB) (n : nat) :
  (forall k c, In k ks -> In c (missed_calls s k (now - hours 24)) ->
               callback_fires k s c = false) ->
  fold_left (clinic_step now) ks (s, n) = (s, n).
Proof.
  induction ks as [|k ks IH]; intros Hidle; simpl; [reflexivity|].
  assert (Hk : clinic_step now (s, n) k = (s, n)).
  { unfold clinic_step. simpl.
    apply (loop_idle (callback_fires k) (callback_act k) (callback_step k)
             (callback_step_eq k)).
    intros c Hc. apply Hidle; [now left|assumption]. }
  rewrite Hk. apply IH. intros k' c Hk' Hc. apply Hidle; [now right|assumption].
Qed.

Lemma callback_run_idle (db : DB) (now : Z) :
  generate_missed_call_tasks (fst (generate_missed_call_tasks db now)) now
  = (fst (generate_missed_call_tasks db now), O).
Proof.
  unfold generate_missed_call_tasks at 1.
  assert (Hks : active_clinics (fst (generate_missed_call_tasks db now)) = active_clinics db).
  { destruct (callback_run_frame now (active_clinics db) (db, O)) as (Hc & _).
    unfold active_clinics at 1, generate_missed_call_tasks. now rewrite Hc. }
  rewrite Hks. apply callback_run_idle_from.
  intros k c Hk Hc. unfold generate_missed_call_tasks in *.
  now apply callback_run_settled.
Qed.

(** ** The four generators together *)

Lemma run_grows (g : Generator) (db : DB) (now : Z) :
  grows g db (fst (run g db now)) (snd (run g db now)).
Proof.
  destruct g; simpl.
  - apply callback_run_grows.
  - apply review_run_grows.
  - apply followup_run_grows.
  - apply recall_run_grows.
Qed.

(** C1: for each of the four generators, a second run at the same
    instant returns the database of the first run and creates nothing;
    and the rows created by two runs at any two instants have pairwise
    distinct idempotency keys, none of which was in the table before. *)
Theorem generators_idempotent (g : Generator) (db : DB) (now now' : Z) :
  run g (fst (run g db now)) now = (fst (run g db now), O)
  /\ grows g db (fst (run g (fst (run g db now)) now'))
           (snd (run g db now) + snd (run g (fst (run g db now)) now')).
Proof.
  split.
  - destruct g; simpl.
    + apply callback_run_idle.
    + apply review_run_idle.
    + apply followup_run_idle.
    + apply recall_run_idle.
  - eapply grows_trans; apply run_grows.
Qed.

(** ** What the review generator creates *)

Lemma review_appointments_In (db : DB) (now : Z) (appt : Appointment.t)
    (patient : Patient.t) :
  In (appt, patient) (review_appointments db now) ->
  In appt (appointments db)
  /\ get_patient db (Appointment.patient appt) = Some patient
  /\ Appointment.status appt = "completed"
  /\ clinic_active db (Appointment.clinic appt) = true
  /\ now - hours 24 - hours 1 <= Appointment.scheduled_at appt
  /\ Appointment.scheduled_at appt <= now - hours 24 + hours 1.
Proof.
  unfold review_appointments. intros Hin.
  apply in_flat_map in Hin as (a & Ha & Hrow).
  destruct (get_patient db (Appointment.patient a)) as [p|] eqn:Hp; [|contradiction].
  destruct Hrow as [Heq|[]]. injection Heq as -> ->.
  apply In_order_by, filter_In in Ha as [Ha Hcond].
  rewrite !andb_true_iff, String.eqb_eq, !Z.leb_le in Hcond. tauto.
Qed.

(** C8: the requests a run of the review generator adds are exactly
    as many as it reports, and each of them stands for a completed
    appointment of an active clinic scheduled between 25 and 23 hours
    before the run whose patient has given sms or email consent; its
    channel is sms when the patient consented to sms and email
    otherwise.  No request is created for a patient without consent. *)
Theorem review_requests_guarded (db : DB) (now : Z) :
  exists created,
    review_requests (fst (generate_review_request_tasks db now))
    = (review_requests db ++ created)%list
    /\ List.length created = snd (generate_review_request_tasks db now)
    /\ Forall (review_justified db now) created.
Proof.
  unfold generate_review_request_tasks.
  apply (loop_invariant review_fires (review_act now) (review_step now)
           (review_step_eq now)
           (fun st => exists created,
                        review_requests (fst st) = (review_requests db ++ created)%list
                        /\ List.length created = snd st
                        /\ Forall (review_justified db now) created)).
  - intros s n [appt patient] Hin Hf (created & Hrows & Hlen & Hall). simpl in *.
    exists (created ++ [review_request appt patient now])%list.
    split; [now rewrite Hrows, app_assoc|].
    split; [rewrite length_app; simpl; lia|].
    apply Forall_app. split; [assumption|]. constructor; [|constructor].
    apply review_appointments_In in Hin as (H1 & H2 & H3 & H4 & H5 & H6).
    exists appt, patient. repeat (split; [assumption|]).
    split; [reflexivity|]. repeat (split; [assumption|]).
    split; [|reflexivity].
    unfold review_fires in Hf. simpl in Hf.
    apply andb_prop in Hf as [Hc _]. now apply orb_prop in Hc.
  - exists []. simpl. rewrite app_nil_r. auto.
Qed.

(** ** The callback scenario *)

Lemma append_inj (s a b : string) : (s ++ a = s ++ b)%string -> a = b.
Proof.
  induction s as [|ch s IH]; simpl; intros H; [assumption|].
  injection H as H. now apply IH.
Qed.

Lemma callback_key_inj (c c' : CallEvent.t) :
  callback_key c = callback_key c' -> CallEvent.call_sid c = CallEvent.call_sid c'.
Proof. apply append_inj. Qed.

Lemma NoDup_map_eq {A B : Type} (f : A -> B) (l : list A) (x y : A) :
  NoDup (map f l) -> In x l -> In y l -> f x = f y -> x = y.
Proof.
  induction l as [|a l IH]; simpl; [contradiction|].
  intros Hnd Hx Hy Hf. inversion Hnd as [|? ? Hnotin Hnd']; subst.
  destruct Hx as [->|Hx], Hy as [->|Hy]; [reflexivity| | |now apply IH].
  - exfalso. apply Hnotin. rewrite Hf. now apply in_map.
  - exfalso. apply Hnotin. rewrite <- Hf. now apply in_map.
Qed.

Lemma mark_processed_keys (call : CallEvent.t) (rows : list CallEvent.t) :
  map CallEvent.id (mark_processed call rows) = map CallEvent.id rows
  /\ map CallEvent.call_sid (mark_processed call rows) = map CallEvent.call_sid rows.
Proof.
  unfold mark_processed. rewrite !map_map.
  split; apply map_ext; intros c; destruct (CallEvent.id c =? CallEvent.id call);
    reflexivity.
Qed.

Lemma task_exists_filter (key : string) (rows : list Task.t) :
  task_exists key rows = false <-> filter (has_key key) rows = [].
Proof.
  unfold task_exists. fold (has_key key).
  induction rows as [|t rows IH]; simpl; [tauto|].
  destruct (has_key key t); simpl; [split; discriminate|exact IH].
Qed.

Lemma find_patient_clinic_id (db : DB) (k k' : Clinic.t) (phone : string) :
  Clinic.id k = Clinic.id k' -> find_patient db k phone = find_patient db k' phone.
Proof. intros H. unfold find_patient. now rewrite H. Qed.

Lemma callback_task_clinic_id (k k' : Clinic.t) (patient : Patient.t) (c : CallEvent.t) :
  Clinic.id k = Clinic.id k' -> callback_task k patient c = callback_task k' patient c.
Proof. intros H. unfold callback_task. now rewrite H. Qed.

Lemma find_patient_some (db : DB) (clinic : Clinic.t) (phone : string) (patient : Patient.t) :
  In patient (patients db) ->
  Patient.clinic patient = Clinic.id clinic ->
  Patient.phone patient = phone ->
  exists p, find_patient db clinic phone = Some p.
Proof.
  intros Hin Hc Hp. unfold find_patient.
  destruct (order_by patient_le _) as [|p l] eqn:E; [|now exists p].
  apply order_by_nil in E.
  assert (H : In patient (filter (fun p => (Patient.clinic p =? Clinic.id clinic)
                                           && (Patient.phone p =? phone)%string)
                                 (patients db))).
  { apply filter_In. split; [assumption|].
    now rewrite Hc, Hp, Z.eqb_refl, String.eqb_refl. }
  rewrite E in H. contradiction.
Qed.

Lemma call_constraints_act (k : Clinic.t) (s : DB) (x : CallEvent.t) :
  callback_fires k s x = true -> call_constraints s -> call_constraints (callback_act k s x).
Proof.
  intros Hf [Hid Hsid].
  destruct (callback_act_tasks k s x Hf) as (_ & _ & _ & _ & Hc).
  destruct (mark_processed_keys x (call_events s)) as [H1 H2].
  unfold call_constraints. rewrite Hc, H1, H2. auto.
Qed.

Section CallbackScenario.

Variables (db : DB) (now : Z) (clinic : Clinic.t) (call : CallEvent.t) (p : Patient.t).

Hypothesis call_clinic : CallEvent.clinic call = Clinic.id clinic.
Hypothesis call_recent : now - hours 24 <= CallEvent.timestamp call.
Hypothesis call_short : CallEvent.duration_seconds call < 30.
Hypothesis call_no_appointment : CallEvent.resulted_in_appointment call = false.
Hypothesis call_unprocessed : CallEvent.is_processed call = false.
Hypothesis patient_found :
  find_patient db clinic (CallEvent.caller_phone call) = Some p.

(** Once done, always done. *)
Lemma callback_done_act (k : Clinic.t) (s : DB) (n : nat) (x : CallEvent.t) :
  callback_fires k s x = true ->
  callback_done call (callback_task clinic p call) (s, n) ->
  callback_done call (callback_task clinic p call) (callback_act k s x, S n).
Proof.
  intros Hf (Htask & Hrow & Hall & _).
  destruct (callback_act_tasks k s x Hf) as (q & _ & Hfresh & Ht & Hc).
  unfold callback_done. simpl in *. rewrite Ht, Hc.
  split; [|split; [|split; [|lia]]].
  - assert (Hk : has_key (callback_key call) (callback_task k q x) = false).
    { unfold has_key, callback_task. cbn [Task.idempotency_key].
      destruct (String.eqb_spec (callback_key x) (callback_key call)) as [E|_];
        [|reflexivity].
      rewrite E in Hfresh. apply task_exists_filter in Hfresh.
      rewrite Hfresh in Htask. discriminate. }
    rewrite filter_app, Htask. cbn [filter]. now rewrite Hk.
  - unfold mark_processed. apply in_map_iff.
    exists (CallEvent.set_processed call). split; [|assumption].
    destruct (_ =? _); reflexivity.
  - intros c Hin Hid. unfold mark_processed in Hin.
    apply in_map_iff in Hin as (c0 & <- & Hin0).
    destruct (CallEvent.id c0 =? CallEvent.id x); [reflexivity|].
    now apply Hall.
Qed.

Lemma callback_done_run (ks : list Clinic.t) (st : DB * nat) :
  callback_done call (callback_task clinic p call) st ->
  callback_done call (callback_task clinic p call) (fold_left (clinic_step now) ks st).
Proof.
  apply (callback_loop_invariant (callback_done call (callback_task clinic p call))).
  intros k s n x. apply callback_done_act.
Qed.

(** One action while the call is pending: the call's own action
    completes it, any other leaves it pending. *)
Lemma callback_pending_act (k : Clinic.t) (s : DB) (n : nat) (x : CallEvent.t) :
  patients s = patients db ->
  (CallEvent.id x = CallEvent.id call -> x = call /\ Clinic.id k = Clinic.id clinic) ->
  (CallEvent.call_sid x = CallEvent.call_sid call -> x = call) ->
  callback_fires k s x = true ->
  callback_pending call s ->
  callback_pending call (callback_act k s x)
  \/ callback_done call (callback_task clinic p call) (callback_act k s x, S n).
Proof.
  intros Hpat Hid Hsid Hf [Hnone Hin].
  destruct (callback_act_tasks k s x Hf) as (q & Hq & _ & Ht & Hc).
  destruct (Z.eq_dec (CallEvent.id x) (CallEvent.id call)) as [E|Hne].
  - right. destruct (Hid E) as [-> Hk].
    assert (q = p) as ->.
    { rewrite (find_patient_frame db s k _ Hpat),
        (find_patient_clinic_id db k clinic _ Hk), patient_found in Hq. congruence. }
    rewrite (callback_task_clinic_id k clinic p call Hk) in Ht.
    unfold callback_done. simpl. rewrite Ht, Hc.
    split; [|split; [|split; [|lia]]].
    + assert (Hk' : has_key (callback_key call) (callback_task clinic p call) = true).
      { unfold has_key, callback_task. cbn [Task.idempotency_key].
        apply String.eqb_refl. }
      apply task_exists_filter in Hnone. rewrite filter_app, Hnone.
      cbn [filter app]. now rewrite Hk'.
    + unfold mark_processed. apply in_map_iff. exists call.
      now rewrite Z.eqb_refl.
    + intros c Hc' Hcid. unfold mark_processed in Hc'.
      apply in_map_iff in Hc' as (c0 & <- & Hin0).
      destruct (Z.eqb_spec (CallEvent.id c0) (CallEvent.id call)) as [_|Hn];
        [reflexivity|].
      exfalso. apply Hn. exact Hcid.
  - left. unfold callback_pending. rewrite Ht, Hc, task_exists_app, Hnone.
    cbn [orb]. split.
    + unfold task_exists, callback_task.
      cbn [existsb Task.idempotency_key].
      destruct (String.eqb_spec (callback_key x) (callback_key call)) as [Ek|_];
        [|reflexivity].
      exfalso. apply Hne. f_equal. apply Hsid. now apply callback_key_inj.
    + unfold mark_processed. apply in_map_iff. exists call. split; [|assumption].
      destruct (Z.eqb_spec (CallEvent.id call) (CallEvent.id x)) as [E|_];
        [|reflexivity].
      exfalso. apply Hne. now symmetry.
Qed.

(** The scan of one clinic: the state stays pending or done, and it
    is done when the clinic is the call's. *)
Lemma callback_clinic_step (k : Clinic.t) (s : DB) (n : nat) :
  patients s = patients db ->
  call_constraints s ->
  callback_pending call s \/ callback_done call (callback_task clinic p call) (s, n) ->
  let st' := clinic_step now (s, n) k in
  patients (fst st') = patients db
  /\ call_constraints (fst st')
  /\ (callback_pending call (fst st')
      \/ callback_done call (callback_task clinic p call) st')
  /\ (Clinic.id k = Clinic.id clinic ->
      callback_done call (callback_task clinic p call) st').
Proof.
  intros Hpat Hcon Hstate. cbv zeta.
  destruct Hstate as [Hpend|Hdone].
  2:{ pose proof (callback_done_run [k] (s, n) Hdone) as Hd. simpl in Hd.
      destruct (callback_run_frame now [k] (s, n)) as (_ & Hp' & _). simpl in Hp'.
      split; [congruence|]. split; [|auto].
      apply (callback_loop_invariant (fun st => call_constraints (fst st)) now [k]);
        [|assumption].
      intros k' s' n' x Hf. now apply call_constraints_act. }
  assert (Hsnap : forall x, In x (missed_calls s k (now - hours 24)) ->
                            (CallEvent.id x = CallEvent.id call ->
                             x = call /\ Clinic.id k = Clinic.id clinic)
                            /\ (CallEvent.call_sid x = CallEvent.call_sid call ->
                                x = call)).
  { intros x Hx. apply missed_calls_In in Hx as (Hx & Hxk & _).
    destruct Hcon as [Hids Hsids]. destruct Hpend as [_ Hin]. split.
    - intros E.
      assert (x = call) by (apply (NoDup_map_eq CallEvent.id (call_events s)); assumption).
      subst x. split; [reflexivity|congruence].
    - intros E. apply (NoDup_map_eq CallEvent.call_sid (call_events s)); assumption. }
  assert (Hinv :
    let st' := clinic_step now (s, n) k in
    patients (fst st') = patients db /\ call_constraints (fst st')
    /\ (callback_pending call (fst st')
        \/ callback_done call (callback_task clinic p call) st')).
  { unfold clinic_step. simpl fst.
    apply (loop_invariant (callback_fires k) (callback_act k) (callback_step k)
             (callback_step_eq k)
             (fun st => patients (fst st) = patients db /\ call_constraints (fst st)
                        /\ (callback_pending call (fst st)
                            \/ callback_done call (callback_task clinic p call) st)));
      [|auto].
    intros s' n' x Hx Hf (Hp' & Hc' & Hst). simpl in *.
    destruct (callback_act_patients k s' x) as (_ & Hpp & _).
    split; [congruence|]. split; [now apply call_constraints_act|].
    destruct Hst as [Hpe|Hdo]; [|right; now apply callback_done_act].
    destruct (Hsnap x Hx) as [Hid Hsid].
    now apply callback_pending_act. }
  cbv zeta in Hinv. destruct Hinv as (Hp' & Hc' & Hst').
  repeat (split; [assumption|]).
  intros Hk. destruct Hst' as [[Hnone Hin']|Hdone]; [exfalso|assumption].
  assert (Hcall : In call (missed_calls s k (now - hours 24))).
  { apply missed_calls_In. destruct Hpend as [_ Hin].
    repeat split; try assumption. congruence. }
  assert (Hsettled : callback_fires k (fst (clinic_step now (s, n) k)) call = false).
  { unfold clinic_step. cbn [fst].
    now apply (loop_settles (callback_fires k) (callback_act k) (callback_step k)
                 (callback_step_eq k) (callback_settles k)
                 (fun s x y => callback_stable k k s x y)). }
  unfold callback_fires in Hsettled.
  rewrite Hnone, (find_patient_frame db _ k _ Hp'),
    (find_patient_clinic_id db k clinic _ Hk), patient_found in Hsettled.
  discriminate.
Qed.

Lemma callback_scenario_run (ks : list Clinic.t) :
  forall st,
    patients (fst st) = patients db ->
    call_constraints (fst st) ->
    callback_pending call (fst st)
    \/ callback_done call (callback_task clinic p call) st ->
    In clinic ks ->
    callback_done call (callback_task clinic p call) (fold_left (clinic_step now) ks st).
Proof.
  induction ks as [|k ks IH]; intros [s n] Hpat Hcon Hst Hin; [contradiction|].
  simpl fold_left.
  destruct (callback_clinic_step k s n Hpat Hcon Hst) as (Hp' & Hc' & Hst' & Hk).
  destruct Hin as [->|Hin].
  - apply callback_done_run. now apply Hk.
  - now apply IH.
Qed.

End CallbackScenario.

(** C7: a call inside the 24-hour scan, 15 seconds long, without
    appointment and unprocessed, whose caller phone is that of a
    patient of its active clinic and for which no task exists yet:
    one run leaves exactly one task under [callback_call_<call_sid>],
    of type [callback] and priority 2, counts it, and marks the call
    processed; a second run creates nothing. *)
Theorem callback_scenario (db : DB) (now : Z) (clinic : Clinic.t) (call : CallEvent.t)
    (patient : Patient.t) :
  call_constraints db ->
  In clinic (clinics db) -> Clinic.is_active clinic = true ->
  In call (call_events db) ->
  CallEvent.clinic call = Clinic.id clinic ->
  now - hours 24 <= CallEvent.timestamp call ->
  CallEvent.duration_seconds call = 15 ->
  CallEvent.resulted_in_appointment call = false ->
  CallEvent.is_processed call = false ->
  In patient (patients db) ->
  Patient.clinic patient = Clinic.id clinic ->
  Patient.phone patient = CallEvent.caller_phone call ->
  task_exists (callback_key call) (tasks db) = false ->
  exists p task,
    find_patient db clinic (CallEvent.caller_phone call) = Some p
    /\ task = callback_task clinic p call
    /\ callback_done call task (generate_missed_call_tasks db now)
    /\ Task.task_type task = "callback"
    /\ Task.priority task = 2
    /\ Task.idempotency_key task = Some ("callback_call_" ++ CallEvent.call_sid call)
    /\ generate_missed_call_tasks (fst (generate_missed_call_tasks db now)) now
       = (fst (generate_missed_call_tasks db now), O).
Proof.
  intros Hcon Hclinic Hactive Hcall Hcc Hrecent Hdur Hna Hun Hpat Hpc Hpp Hnone.
  destruct (find_patient_some db clinic _ patient Hpat Hpc Hpp) as [p Hp].
  exists p, (callback_task clinic p call).
  split; [assumption|]. split; [reflexivity|].
  split; [|split; [reflexivity|split; [reflexivity|split; [reflexivity|]]]].
  - unfold generate_missed_call_tasks.
    apply (callback_scenario_run db now clinic call p); auto.
    + lia.
    + left. split; assumption.
    + unfold active_clinics. apply In_order_by, filter_In. auto.
  - apply callback_run_idle.
Qed.

Lemma callback_scenario_witness :
  exists p task,
    find_patient db_missed clinic1 (CallEvent.caller_phone call_missed) = Some p
    /\ task = callback_task clinic1 p call_missed
    /\ callback_done call_missed task (generate_missed_call_tasks db_missed t_now)
    /\ Task.task_type task = "callback"
    /\ Task.priority task = 2
    /\ Task.idempotency_key task = Some "callback_call_CA-5"
    /\ generate_missed_call_tasks (fst (generate_missed_call_tasks db_missed t_now)) t_now
       = (fst (generate_missed_call_tasks db_missed t_now), O).
Proof.
  apply (callback_scenario db_missed t_now clinic1 call_missed jane).
  - split; repeat constructor; simpl; tauto.
  - left; reflexivity.
  - reflexivity.
  - left; reflexivity.
  - reflexivity.
  - vm_compute. discriminate.
  - reflexivity.
  - reflexivity.
  - reflexivity.
  - left; reflexivity.
  - reflexivity.
  - reflexivity.
  - reflexivity.
Defined.

(** The scenario run on its own database: one task, count one. *)
Example callback_scenario_run_once :
  snd (generate_missed_call_tasks db_missed t_now) = 1%nat
  /\ tasks (fst (generate_missed_call_tasks db_missed t_now))
     = [Task.mk 1 10 "callback" "Callback - Missed call from +61400000001"
                "Missed call at 10:00. Duration: 15s" 2 "pending" "call_event" (Some 5)
                (Some "callback_call_CA-5")]
  /\ map CallEvent.is_processed
         (call_events (fst (generate_missed_call_tasks db_missed t_now))) = [true].
Proof. vm_compute. repeat split. Qed.

(** Two runs of the review generator half an hour apart see the same
    appointment in their windows: the first creates its request, by
    sms, and the second creates nothing. *)
Example review_overlapping_windows :
  let first := generate_review_request_tasks db_visit t_now in
  let second := generate_review_request_tasks (fst first) (t_now + hours 1 / 2) in
  snd first = 1%nat
  /\ snd second = 0%nat
  /\ map ReviewRequest.idempotency_key (review_requests (fst second)) = ["review_appt-3"]
  /\ map ReviewRequest.channel (review_requests (fst second)) = ["sms"].
Proof. vm_compute. repeat split. Qed.

(** * Further properties of the code *)

(** ** Sorting *)

Section Sorting.

Context {A : Type}.
Variable le : A -> A -> bool.
Hypothesis le_total : forall x y, le x y = true \/ le y x = true.
Hypothesis le_trans : forall x y z, le x y = true -> le y z = true -> le x z = true.

Lemma insert_by_sorted (x : A) (l : list A) :
  Sorted.StronglySorted (fun a b => le a b = true) l ->
  Sorted.StronglySorted (fun a b => le a b = true) (insert_by le x l).
Proof.
  induction 1 as [|y l Hs IH Hall]; simpl.
  - constructor; constructor.
  - destruct (le x y) eqn:Hxy.
    + constructor; [constructor; assumption|].
      constructor; [assumption|].
      rewrite Forall_forall in *. intros z Hz. eapply le_trans; eauto.
    + constructor; [assumption|].
      rewrite Forall_forall in *. intros z Hz.
      apply In_insert_by in Hz as [->|Hz]; [|auto].
      destruct (le_total x y); congruence.
Qed.

Lemma order_by_sorted (l : list A) :
  Sorted.StronglySorted (fun a b => le a b = true) (order_by le l).
Proof.
  unfold order_by. induction l as [|x l IH]; simpl; [constructor|].
  now apply insert_by_sorted.
Qed.

Lemma length_order_by (l : list A) : List.length (order_by le l) = List.length l.
Proof.
  unfold order_by. induction l as [|x l IH]; simpl; [reflexivity|].
  now rewrite length_insert_by, IH.
Qed.

End Sorting.

Lemma sorted_weaken {A : Type} (R R' : A -> A -> Prop) (l : list A) :
  (forall a b, R a b -> R' a b) ->
  Sorted.StronglySorted R l -> Sorted.StronglySorted R' l.
Proof.
  intros Himp. induction 1 as [|x l Hs IH Hall]; constructor; [assumption|].
  rewrite Forall_forall in *. auto.
Qed.

Lemma sorted_head {A : Type} (R : A -> A -> Prop) (x : A) (l : list A) :
  Sorted.StronglySorted R (x :: l) -> forall y, In y l -> R x y.
Proof.
  intros H. apply Sorted.StronglySorted_inv in H as [_ Hall].
  now rewrite Forall_forall in Hall.
Qed.

Lemma find_call_events_sorted (db : DB) (patient : Patient.t) (lookback paid_at : Z) :
  Sorted.StronglySorted (fun a b => CallEvent.timestamp b <= CallEvent.timestamp a)
    (find_call_events db patient lookback paid_at).
Proof.
  unfold find_call_events.
  destruct (truthy (Patient.phone patient)); [|constructor].
  apply (sorted_weaken (fun a b => newer_call a b = true)).
  - intros a b H. now apply Z.leb_le in H.
  - apply order_by_sorted.
    + intros x y. unfold newer_call. rewrite !Z.leb_le. lia.
    + intros x y z. unfold newer_call. rewrite !Z.leb_le. lia.
Qed.

Lemma find_marketing_touches_sorted (db : DB) (patient : Patient.t)
    (lookback paid_at : Z) :
  Sorted.StronglySorted
    (fun a b => MarketingTouch.timestamp b <= MarketingTouch.timestamp a)
    (find_marketing_touches db patient lookback paid_at).
Proof.
  unfold find_marketing_touches.
  destruct (truthy (Patient.email patient)); [|constructor].
  apply (sorted_weaken (fun a b => newer_touch a b = true)).
  - intros a b H. now apply Z.leb_le in H.
  - apply order_by_sorted.
    + intros x y. unfold newer_touch. rewrite !Z.leb_le. lia.
    + intros x y z. unfold newer_touch. rewrite !Z.leb_le. lia.
Qed.

(** ** The ranker, rule by rule *)

(** The five outcomes of the ranking. *)
Lemma rank_cases (calls : list CallEvent.t) (touches : list MarketingTouch.t) (ev : dict) :
  (exists call,
      find (fun c => truthy (CallEvent.campaign_id c)) calls = Some call
      /\ rank calls touches ev
         = mkRanking (Some (SrcCall call)) "call"
                     (str_or (CallEvent.campaign_name call) "") "phone" "call"
                     (dict_set "attribution_reason" (JStr "Matched paid campaign call") ev))
  \/ (find (fun c => truthy (CallEvent.campaign_id c)) calls = None
      /\ exists touch,
          find (fun m => is_paid_medium (MarketingTouch.utm_medium m)) touches = Some touch
          /\ rank calls touches ev
             = mkRanking (Some (SrcTouch touch)) "marketing_touch"
                         (str_or (MarketingTouch.utm_campaign touch) "")
                         (str_or (MarketingTouch.utm_source touch) "")
                         (str_or (MarketingTouch.utm_medium touch) "")
                         (dict_set "attribution_reason"
                                   (JStr "Matched paid marketing touch") ev))
  \/ (find (fun c => truthy (CallEvent.campaign_id c)) calls = None
      /\ find (fun m => is_paid_medium (MarketingTouch.utm_medium m)) touches = None
      /\ exists call rest,
          calls = call :: rest
          /\ rank calls touches ev
             = mkRanking (Some (SrcCall call)) "call" "" "organic" "call"
                         (dict_set "attribution_reason" (JStr "Matched organic call") ev))
  \/ (calls = []
      /\ find (fun m => is_paid_medium (MarketingTouch.utm_medium m)) touches = None
      /\ exists touch rest,
          touches = touch :: rest
          /\ rank calls touches ev
             = mkRanking (Some (SrcTouch touch)) "marketing_touch" ""
                         (str_or (MarketingTouch.utm_source touch) "organic")
                         (str_or (MarketingTouch.utm_medium touch) "web")
                         (dict_set "attribution_reason"
                                   (JStr "Matched organic marketing touch") ev))
  \/ (calls = [] /\ touches = []
      /\ rank calls touches ev = mkRanking None "unknown" "" "" "" ev).
Proof.
  unfold rank, rank_paid_call.
  destruct (find (fun c => truthy (CallEvent.campaign_id c)) calls) as [call|] eqn:Hc.
  - left. exists call. split; reflexivity.
  - right. unfold rank_paid_touch, no_source. cbn [attributed_source].
    destruct (find (fun m => is_paid_medium (MarketingTouch.utm_medium m)) touches)
      as [touch|] eqn:Ht.
    + left. split; [reflexivity|]. exists touch. split; reflexivity.
    + right. destruct calls as [|call rest].
      * right. destruct touches as [|touch rest].
        -- right. repeat split.
        -- left. split; [reflexivity|]. split; [reflexivity|].
           exists touch, rest. split; reflexivity.
      * left. split; [reflexivity|]. split; [reflexivity|].
        exists call, rest. split; reflexivity.
Qed.

(** X1 (rule c): without a campaign call in A and without a paid touch
    in B, a non-empty A wins over every touch: the attribution refers
    to the most recent call of A, with source [organic], medium [call]
    and no campaign name. *)
Theorem organic_call_precedence (db : DB) (patient : Patient.t) (invoice : Invoice.t)
    (now paid_at : Z) :
  attribution_constraints db ->
  Invoice.paid_at invoice = Some paid_at ->
  (forall c, In c (find_call_events db patient (paid_at - days 30) paid_at) ->
             CallEvent.campaign_id c = "") ->
  (forall m, In m (find_marketing_touches db patient (paid_at - days 30) paid_at) ->
             is_paid_medium (MarketingTouch.utm_medium m) = false) ->
  find_call_events db patient (paid_at - days 30) paid_at <> [] ->
  exists db' a call,
    create_attribution db patient invoice now = Ok (db', a)
    /\ In call (find_call_events db patient (paid_at - days 30) paid_at)
    /\ (forall c, In c (find_call_events db patient (paid_at - days 30) paid_at) ->
                  CallEvent.timestamp c <= CallEvent.timestamp call)
    /\ Attribution.attribution_type a = "call"
    /\ Attribution.content_type a = Some CT_CallEvent
    /\ Attribution.object_id a = Some (CallEvent.id call)
    /\ Attribution.campaign_name a = ""
    /\ Attribution.campaign_source a = "organic"
    /\ Attribution.campaign_medium a = "call".
Proof.
  intros Hc Hp Hcalls Htouches Hne.
  destruct (create_attribution_spec db patient invoice now paid_at Hc Hp)
    as (db' & a & a0 & Heq & Ha & _).
  pose proof (find_call_events_sorted db patient (paid_at - days 30) paid_at) as Hsorted.
  set (calls := find_call_events db patient (paid_at - days 30) paid_at) in *.
  set (touches := find_marketing_touches db patient (paid_at - days 30) paid_at) in *.
  set (ev := initial_evidence patient invoice paid_at (paid_at - days 30) now calls touches)
    in *.
  destruct (rank_cases calls touches ev)
    as [(call & Hf & _)|[(_ & touch & Hf & _)|[(_ & _ & call & rest & Hl & Hr)
       |[(Hnil & _)|(Hnil & _)]]]].
  - apply find_some in Hf as [Hin Ht]. rewrite (Hcalls call Hin) in Ht. discriminate.
  - apply find_some in Hf as [Hin Ht]. rewrite (Htouches touch Hin) in Ht. discriminate.
  - exists db', a, call. split; [assumption|]. rewrite Hl in *.
    split; [now left|]. split.
    + intros c [->|Hin]; [lia|]. now apply (sorted_head _ _ _ Hsorted).
    + subst a. rewrite Hr. cbn. auto 10.
  - contradiction.
  - contradiction.
Qed.

Lemma organic_call_precedence_witness :
  exists db' a call,
    create_attribution db_organic jane invoice1 (t_paid + hours 1) = Ok (db', a)
    /\ In call (find_call_events db_organic jane (t_paid - days 30) t_paid)
    /\ (forall c, In c (find_call_events db_organic jane (t_paid - days 30) t_paid) ->
                  CallEvent.timestamp c <= CallEvent.timestamp call)
    /\ Attribution.attribution_type a = "call"
    /\ Attribution.content_type a = Some CT_CallEvent
    /\ Attribution.object_id a = Some (CallEvent.id call)
    /\ Attribution.campaign_name a = ""
    /\ Attribution.campaign_source a = "organic"
    /\ Attribution.campaign_medium a = "call".
Proof.
  apply (organic_call_precedence db_organic jane invoice1 (t_paid + hours 1) t_paid).
  - split; constructor.
  - reflexivity.
  - intros c Hin. vm_compute in Hin. destruct Hin as [<-|[]]. reflexivity.
  - intros m Hin. vm_compute in Hin. destruct Hin as [<-|[]]. reflexivity.
  - vm_compute. discriminate.
Defined.

(** X2 (rule d): with A empty and no paid touch in B, a non-empty B
    gives a marketing-touch attribution to the most recent touch, whose
    source and medium are the touch's UTM values, or [organic] and
    [web] where those are empty. *)
Theorem organic_touch_precedence (db : DB) (patient : Patient.t) (invoice : Invoice.t)
    (now paid_at : Z) :
  attribution_constraints db ->
  Invoice.paid_at invoice = Some paid_at ->
  find_call_events db patient (paid_at - days 30) paid_at = [] ->
  (forall m, In m (find_marketing_touches db patient (paid_at - days 30) paid_at) ->
             is_paid_medium (MarketingTouch.utm_medium m) = false) ->
  find_marketing_touches db patient (paid_at - days 30) paid_at <> [] ->
  exists db' a touch,
    create_attribution db patient invoice now = Ok (db', a)
    /\ In touch (find_marketing_touches db patient (paid_at - days 30) paid_at)
    /\ (forall m, In m (find_marketing_touches db patient (paid_at - days 30) paid_at) ->
                  MarketingTouch.timestamp m <= MarketingTouch.timestamp touch)
    /\ Attribution.attribution_type a = "marketing_touch"
    /\ Attribution.content_type a = Some CT_MarketingTouch
    /\ Attribution.object_id a = Some (MarketingTouch.id touch)
    /\ Attribution.campaign_name a = ""
    /\ Attribution.campaign_source a
       = (if (MarketingTouch.utm_source touch =? "")%string then "organic"
          else MarketingTouch.utm_source touch)
    /\ Attribution.campaign_medium a
       = (if (MarketingTouch.utm_medium touch =? "")%string then "web"
          else MarketingTouch.utm_medium touch).
Proof.
  intros Hc Hp Hcalls Htouches Hne.
  destruct (create_attribution_spec db patient invoice now paid_at Hc Hp)
    as (db' & a & a0 & Heq & Ha & _).
  pose proof (find_marketing_touches_sorted db patient (paid_at - days 30) paid_at)
    as Hsorted.
  set (calls := find_call_events db patient (paid_at - days 30) paid_at) in *.
  set (touches := find_marketing_touches db patient (paid_at - days 30) paid_at) in *.
  set (ev := initial_evidence patient invoice paid_at (paid_at - days 30) now calls touches)
    in *.
  destruct (rank_cases calls touches ev)
    as [(call & Hf & _)|[(_ & touch & Hf & _)|[(_ & _ & call & rest & Hl & _)
       |[(_ & _ & touch & rest & Hl & Hr)|(_ & Hnil & _)]]]].
  - rewrite Hcalls in Hf. discriminate.
  - apply find_some in Hf as [Hin Ht]. rewrite (Htouches touch Hin) in Ht. discriminate.
  - rewrite Hcalls in Hl. discriminate.
  - exists db', a, touch. split; [assumption|]. rewrite Hl in *.
    split; [now left|]. split.
    + intros m [->|Hin]; [lia|]. now apply (sorted_head _ _ _ Hsorted).
    + subst a. rewrite Hr. cbn. unfold str_or, truthy.
      destruct (MarketingTouch.utm_source touch =? "")%string;
        destruct (MarketingTouch.utm_medium touch =? "")%string; cbn; auto 10.
  - contradiction.
Qed.

Lemma organic_touch_precedence_witness :
  exists db' a touch,
    create_attribution db_touch_only jane invoice1 (t_paid + hours 1) = Ok (db', a)
    /\ In touch (find_marketing_touches db_touch_only jane (t_paid - days 30) t_paid)
    /\ (forall m, In m (find_marketing_touches db_touch_only jane (t_paid - days 30) t_paid) ->
                  MarketingTouch.timestamp m <= MarketingTouch.timestamp touch)
    /\ Attribution.attribution_type a = "marketing_touch"
    /\ Attribution.content_type a = Some CT_MarketingTouch
    /\ Attribution.object_id a = Some (MarketingTouch.id touch)
    /\ Attribution.campaign_name a = ""
    /\ Attribution.campaign_source a
       = (if (MarketingTouch.utm_source touch =? "")%string then "organic"
          else MarketingTouch.utm_source touch)
    /\ Attribution.campaign_medium a
       = (if (MarketingTouch.utm_medium touch =? "")%string then "web"
          else MarketingTouch.utm_medium touch).
Proof.
  apply (organic_touch_precedence db_touch_only jane invoice1 (t_paid + hours 1) t_paid).
  - split; constructor.
  - reflexivity.
  - reflexivity.
  - intros m Hin. vm_compute in Hin. destruct Hin as [<-|[<-|[]]]; reflexivity.
  - vm_compute. discriminate.
Defined.

(** The organic touch of [db_touch_only] that wins is the bare one:
    the defaults [organic] and [web] are stored. *)
Example organic_touch_defaults :
  exists db' a,
    create_attribution db_touch_only jane invoice1 (t_paid + hours 1) = Ok (db', a)
    /\ Attribution.object_id a = Some 3
    /\ Attribution.campaign_source a = "organic"
    /\ Attribution.campaign_medium a = "web".
Proof. eexists _, _. split; [reflexivity|]. repeat split. Qed.

(** X3 (rule e): a patient without phone and without email gets an
    [unknown] attribution with no source reference and empty campaign
    fields, whatever calls and touches the database holds. *)
Theorem unknown_without_contact (db : DB) (patient : Patient.t) (invoice : Invoice.t)
    (now paid_at : Z) :
  attribution_constraints db ->
  Invoice.paid_at invoice = Some paid_at ->
  Patient.phone patient = "" ->
  Patient.email patient = "" ->
  exists db' a,
    create_attribution db patient invoice now = Ok (db', a)
    /\ Attribution.attribution_type a = "unknown"
    /\ Attribution.content_type a = None
    /\ Attribution.object_id a = None
    /\ Attribution.campaign_name a = ""
    /\ Attribution.campaign_source a = ""
    /\ Attribution.campaign_medium a = "".
Proof.
  intros Hc Hp Hphone Hemail.
  destruct (create_attribution_spec db patient invoice now paid_at Hc Hp)
    as (db' & a & a0 & Heq & Ha & _).
  exists db', a. split; [assumption|].
  unfold find_call_events, find_marketing_touches in Ha.
  rewrite Hphone, Hemail in Ha. cbn in Ha. subst a. cbn. auto 10.
Qed.

Lemma unknown_without_contact_witness :
  exists db' a,
    create_attribution db_withheld anon invoice1 (t_paid + hours 1) = Ok (db', a)
    /\ Attribution.attribution_type a = "unknown"
    /\ Attribution.content_type a = None
    /\ Attribution.object_id a = None
    /\ Attribution.campaign_name a = ""
    /\ Attribution.campaign_source a = ""
    /\ Attribution.campaign_medium a = "".
Proof.
  apply (unknown_without_contact db_withheld anon invoice1 (t_paid + hours 1) t_paid).
  - split; constructor.
  - reflexivity.
  - reflexivity.
  - reflexivity.
Defined.

Lemma find_call_events_In (db : DB) (patient : Patient.t) (lookback paid_at : Z)
    (c : CallEvent.t) :
  In c (find_call_events db patient lookback paid_at)
  <-> Patient.phone patient <> ""
      /\ In c (call_events db)
      /\ CallEvent.clinic c = Patient.clinic patient
      /\ CallEvent.caller_phone c = Patient.phone patient
      /\ lookback <= CallEvent.timestamp c <= paid_at.
Proof.
  unfold find_call_events. rewrite <- truthy_true.
  destruct (truthy (Patient.phone patient)).
  - rewrite In_order_by, filter_In, !andb_true_iff, Z.eqb_eq, String.eqb_eq, !Z.leb_le.
    tauto.
  - simpl. split; [contradiction|]. intros [H _]. discriminate.
Qed.

Lemma find_marketing_touches_In (db : DB) (patient : Patient.t) (lookback paid_at : Z)
    (m : MarketingTouch.t) :
  In m (find_marketing_touches db patient lookback paid_at)
  <-> Patient.email patient <> ""
      /\ In m (marketing_touches db)
      /\ MarketingTouch.clinic m = Patient.clinic patient
      /\ MarketingTouch.email m = Patient.email patient
      /\ lookback <= MarketingTouch.timestamp m <= paid_at.
Proof.
  unfold find_marketing_touches. rewrite <- truthy_true.
  destruct (truthy (Patient.email patient)).
  - rewrite In_order_by, filter_In, !andb_true_iff, Z.eqb_eq, String.eqb_eq, !Z.leb_le.
    tauto.
  - simpl. split; [contradiction|]. intros [H _]. discriminate.
Qed.

(** X4: the source an attribution refers to is always a candidate of
    the evaluation: a call of the patient's clinic and phone, or a
    touch of the patient's clinic and email, dated within the 30 days
    up to the payment; and there is no reference exactly when both
    candidate lists are empty, in which case the type is [unknown]. *)
Theorem attributed_source_is_candidate (db : DB) (patient : Patient.t)
    (invoice : Invoice.t) (now paid_at : Z) :
  attribution_constraints db ->
  Invoice.paid_at invoice = Some paid_at ->
  exists db' a,
    create_attribution db patient invoice now = Ok (db', a)
    /\ ((exists c,
            In c (call_events db)
            /\ Attribution.attribution_type a = "call"
            /\ Attribution.content_type a = Some CT_CallEvent
            /\ Attribution.object_id a = Some (CallEvent.id c)
            /\ Patient.phone patient <> ""
            /\ CallEvent.clinic c = Patient.clinic patient
            /\ CallEvent.caller_phone c = Patient.phone patient
            /\ paid_at - days 30 <= CallEvent.timestamp c <= paid_at)
        \/ (exists m,
               In m (marketing_touches db)
               /\ Attribution.attribution_type a = "marketing_touch"
               /\ Attribution.content_type a = Some CT_MarketingTouch
               /\ Attribution.object_id a = Some (MarketingTouch.id m)
               /\ Patient.email patient <> ""
               /\ MarketingTouch.clinic m = Patient.clinic patient
               /\ MarketingTouch.email m = Patient.email patient
               /\ paid_at - days 30 <= MarketingTouch.timestamp m <= paid_at)
        \/ (Attribution.attribution_type a = "unknown"
            /\ Attribution.content_type a = None
            /\ Attribution.object_id a = None
            /\ find_call_events db patient (paid_at - days 30) paid_at = []
            /\ find_marketing_touches db patient (paid_at - days 30) paid_at = [])).
Proof.
  intros Hc Hp.
  destruct (create_attribution_spec db patient invoice now paid_at Hc Hp)
    as (db' & a & a0 & Heq & Ha & _).
  exists db', a. split; [assumption|].
  pose proof (find_call_events_In db patient (paid_at - days 30) paid_at) as HA.
  pose proof (find_marketing_touches_In db patient (paid_at - days 30) paid_at) as HB.
  set (calls := find_call_events db patient (paid_at - days 30) paid_at) in *.
  set (touches := find_marketing_touches db patient (paid_at - days 30) paid_at) in *.
  set (ev := initial_evidence patient invoice paid_at (paid_at - days 30) now calls touches)
    in *.
  assert (Hcall : forall c, In c calls ->
            Attribution.attribution_type a = "call" ->
            Attribution.content_type a = Some CT_CallEvent ->
            Attribution.object_id a = Some (CallEvent.id c) ->
            exists c,
              In c (call_events db)
              /\ Attribution.attribution_type a = "call"
              /\ Attribution.content_type a = Some CT_CallEvent
              /\ Attribution.object_id a = Some (CallEvent.id c)
              /\ Patient.phone patient <> ""
              /\ CallEvent.clinic c = Patient.clinic patient
              /\ CallEvent.caller_phone c = Patient.phone patient
              /\ paid_at - days 30 <= CallEvent.timestamp c <= paid_at).
  { intros c Hin H1 H2 H3. exists c. apply HA in Hin. tauto. }
  assert (Htouch : forall m, In m touches ->
            Attribution.attribution_type a = "marketing_touch" ->
            Attribution.content_type a = Some CT_MarketingTouch ->
            Attribution.object_id a = Some (MarketingTouch.id m) ->
            exists m,
              In m (marketing_touches db)
              /\ Attribution.attribution_type a = "marketing_touch"
              /\ Attribution.content_type a = Some CT_MarketingTouch
              /\ Attribution.object_id a = Some (MarketingTouch.id m)
              /\ Patient.email patient <> ""
              /\ MarketingTouch.clinic m = Patient.clinic patient
              /\ MarketingTouch.email m = Patient.email patient
              /\ paid_at - days 30 <= MarketingTouch.timestamp m <= paid_at).
  { intros m Hin H1 H2 H3. exists m. apply HB in Hin. tauto. }
  destruct (rank_cases calls touches ev)
    as [(call & Hf & Hr)|[(_ & touch & Hf & Hr)|[(_ & _ & call & rest & Hl & Hr)
       |[(_ & _ & touch & rest & Hl & Hr)|(Hn1 & Hn2 & Hr)]]]];
    rewrite Hr in Ha; subst a; cbn in *.
  - left. apply find_some in Hf as [Hin _]. now apply (Hcall call).
  - right; left. apply find_some in Hf as [Hin _]. now apply (Htouch touch).
  - left. apply (Hcall call); auto. rewrite Hl. now left.
  - right; left. apply (Htouch touch); auto. rewrite Hl. now left.
  - right; right. auto.
Qed.

Lemma attributed_source_is_candidate_witness :
  exists db' a,
    create_attribution db_calls jane invoice1 (t_paid + hours 1) = Ok (db', a)
    /\ Attribution.object_id a = Some 1.
Proof.
  destruct (attributed_source_is_candidate db_calls jane invoice1 (t_paid + hours 1) t_paid)
    as (db' & a & Heq & _).
  - split; constructor.
  - reflexivity.
  - exists db', a. split; [exact Heq|].
    vm_compute in Heq. injection Heq as _ <-. reflexivity.
Defined.

Lemma filter_other_patient (pid qid : Z) (a : Attribution.t) (rows : list Attribution.t) :
  qid <> pid -> Attribution.patient a = pid ->
  filter (fun r => Attribution.patient r =? qid) (rows ++ [a])
  = filter (fun r => Attribution.patient r =? qid) rows.
Proof.
  intros Hne Ha. rewrite filter_app. simpl. rewrite Ha.
  destruct (Z.eqb_spec pid qid); [congruence|apply app_nil_r].
Qed.

(** X5: an evaluation writes the attribution table only, and there the
    row of its patient only: the rows of every other patient stay as
    they are, and the table gains one row when the patient had none
    and none otherwise. *)
Theorem create_attribution_frame (db : DB) (patient : Patient.t) (invoice : Invoice.t)
    (now paid_at : Z) :
  attribution_constraints db ->
  Invoice.paid_at invoice = Some paid_at ->
  exists db' a,
    create_attribution db patient invoice now = Ok (db', a)
    /\ db' = with_attributions db (attributions db')
    /\ (forall other, Patient.id other <> Patient.id patient ->
                      attributions_of db' other = attributions_of db other)
    /\ List.length (attributions db')
       = (List.length (attributions db)
          + match attributions_of db patient with [] => 1 | _ => 0 end)%nat.
Proof.
  intros [Hids Hpats] Hp. unfold create_attribution. rewrite Hp.
  set (r := rank _ _ _). clearbody r.
  pose proof (filter_patient_unique (Patient.id patient) _ Hpats) as Hlen.
  unfold update_or_create, attributions_of.
  destruct (filter (fun a => Attribution.patient a =? Patient.id patient) (attributions db))
    as [|a0 [|a1 rest]] eqn:Hf; simpl in Hlen; [| |lia].
  - eexists _, _. split; [reflexivity|]. split; [reflexivity|]. cbn. split.
    + intros other Hne.
      now apply (filter_other_patient (Patient.id patient) (Patient.id other)).
    + rewrite length_app. simpl. lia.
  - destruct (filter_singleton_split _ _ _ Hf) as (l1 & l2 & Hrows & Hpa & H1 & H2).
    eexists _, _. split; [reflexivity|]. split; [reflexivity|]. cbn.
    rewrite Hrows in Hids |- *. rewrite update_row_split by (simpl; auto).
    split.
    + intros other Hne. rewrite !filter_app. cbn. rewrite Hpa.
      destruct (Z.eqb_spec (Patient.id patient) (Patient.id other)); [congruence|].
      reflexivity.
    + rewrite !length_app. simpl. lia.
Qed.

Lemma create_attribution_frame_witness :
  exists db' a,
    create_attribution db_auto jane invoice1 (t_paid + hours 1) = Ok (db', a)
    /\ List.length (attributions db') = 1%nat.
Proof.
  destruct (create_attribution_frame db_auto jane invoice1 (t_paid + hours 1) t_paid)
    as (db' & a & Heq & _ & _ & Hlen).
  - split; repeat constructor; simpl; tauto.
  - reflexivity.
  - exists db', a. split; [exact Heq|exact Hlen].
Defined.

(** ** Overrides, field by field *)

Lemma override_all_last (db : DB) (a : Attribution.t)
    (init : list (Z * option Source * string * Z))
    (user : Z) (new_source : option Source) (reason : string) (now : Z) :
  let a' := snd (override_all db a (init ++ [(user, new_source, reason, now)])) in
  Attribution.status a' = "manual"
  /\ Attribution.overridden_by a' = Some user
  /\ Attribution.override_reason a' = reason
  /\ Attribution.overridden_at a' = Some now
  /\ Attribution.updated_at a' = now.
Proof. cbv zeta. rewrite override_all_snoc. cbn. auto. Qed.

(** X6: no sequence of overrides changes the attribution type, the
    campaign source and medium, the first invoice amount and date, or
    the patient, clinic and key of the attribution, also when an
    override names a source of another kind; the status and the
    override metadata are those of the last override. *)
Theorem override_keeps_decision (overrides : list (Z * option Source * string * Z)) :
  forall (db : DB) (a : Attribution.t),
    let a' := snd (override_all db a overrides) in
    Attribution.attribution_type a' = Attribution.attribution_type a
    /\ Attribution.campaign_source a' = Attribution.campaign_source a
    /\ Attribution.campaign_medium a' = Attribution.campaign_medium a
    /\ Attribution.first_invoice_amount a' = Attribution.first_invoice_amount a
    /\ Attribution.first_invoice_date a' = Attribution.first_invoice_date a
    /\ Attribution.id a' = Attribution.id a
    /\ Attribution.patient a' = Attribution.patient a
    /\ Attribution.clinic a' = Attribution.clinic a
    /\ match rev overrides with
       | [] => a' = a
       | (user, _, reason, now) :: _ =>
           Attribution.status a' = "manual"
           /\ Attribution.overridden_by a' = Some user
           /\ Attribution.override_reason a' = reason
           /\ Attribution.overridden_at a' = Some now
       end.
Proof.
  induction overrides as [|[[[user new_source] reason] now] rest IH] using rev_ind;
    intros db a.
  - cbn. auto 10.
  - cbv zeta. rewrite rev_app_distr. cbn [rev app].
    destruct (IH db a) as (H1 & H2 & H3 & H4 & H5 & H6 & H7 & H8 & _).
    destruct (override_all_last db a rest user new_source reason now)
      as (Hs & Hu & Hr & Ht & _).
    rewrite override_all_snoc in *. cbn in *.
    repeat match goal with |- _ /\ _ => split end; assumption.
Qed.

Lemma find_by_call_id (rows : list CallEvent.t) (c : CallEvent.t) :
  In c rows -> NoDup (map CallEvent.id rows) ->
  find (fun x => CallEvent.id x =? CallEvent.id c) rows = Some c.
Proof.
  intros Hin Hnd.
  destruct (find_exists (fun x => CallEvent.id x =? CallEvent.id c) rows c Hin
              (Z.eqb_refl _)) as (y & Hf & Hy & Hid).
  rewrite Hf. f_equal. apply Z.eqb_eq in Hid.
  now apply (NoDup_map_eq CallEvent.id rows).
Qed.

Lemma find_by_touch_id (rows : list MarketingTouch.t) (m : MarketingTouch.t) :
  In m rows -> NoDup (map MarketingTouch.id rows) ->
  find (fun x => MarketingTouch.id x =? MarketingTouch.id m) rows = Some m.
Proof.
  intros Hin Hnd.
  destruct (find_exists (fun x => MarketingTouch.id x =? MarketingTouch.id m) rows m Hin
              (Z.eqb_refl _)) as (y & Hf & Hy & Hid).
  rewrite Hf. f_equal. apply Z.eqb_eq in Hid.
  now apply (NoDup_map_eq MarketingTouch.id rows).
Qed.

(** X7: after an override to a stored source the attribution's
    generic reference resolves to that very source, so the next
    override records its string as the previous source; an override
    without a new source leaves the reference where it was. *)
Theorem override_source_resolves (db : DB) (a : Attribution.t) (user : Z)
    (s : Source) (reason : string) (now : Z) :
  source_stored db s ->
  let r := override_attribution db a user (Some s) reason now in
  resolve_source (fst r) (snd r) = Some s
  /\ dict_get "previous_attribution"
       (Attribution.evidence_json
          (snd (override_attribution (fst r) (snd r) user None reason now)))
     = Some (JObj [("type", JStr (Attribution.attribution_type a));
                   ("source", JStr (source_str s));
                   ("campaign", JStr (Attribution.campaign_name (snd r)))])
  /\ resolve_source (fst (override_attribution (fst r) (snd r) user None reason now))
                    (snd (override_attribution (fst r) (snd r) user None reason now))
     = Some s.
Proof.
  intros Hs. cbv zeta.
  assert (Hres : forall db', call_events db' = call_events db ->
                             marketing_touches db' = marketing_touches db ->
                             forall a', Attribution.content_type a' = Some (get_for_model s) ->
                                        Attribution.object_id a' = Some (source_pk s) ->
                                        resolve_source db' a' = Some s).
  { intros db' Hc Hm a' Hct Hid. unfold resolve_source. rewrite Hct, Hid, Hc, Hm.
    destruct s as [c|m]; destruct Hs as [Hin Hnd]; cbn.
    - now rewrite find_by_call_id.
    - now rewrite find_by_touch_id. }
  assert (Hsave : forall d x, call_events (save_attribution d x) = call_events d
                              /\ marketing_touches (save_attribution d x)
                                 = marketing_touches d).
  { intros d x. unfold save_attribution. destruct (existsb _ _); split; reflexivity. }
  assert (H1 : resolve_source (fst (override_attribution db a user (Some s) reason now))
                              (snd (override_attribution db a user (Some s) reason now))
               = Some s).
  { apply Hres; try reflexivity; apply Hsave. }
  split; [exact H1|]. split.
  - rewrite override_attribution_evidence, dict_get_set_same.
    unfold previous_attribution. rewrite H1. reflexivity.
  - apply Hres; try reflexivity.
    + cbn [fst override_attribution].
      rewrite (proj1 (Hsave _ _)). apply Hsave.
    + cbn [fst override_attribution].
      rewrite (proj2 (Hsave _ _)). apply Hsave.
Qed.

Lemma override_source_resolves_witness :
  resolve_source db_manual manual_row = Some (SrcCall call_organic).
Proof.
  apply (override_source_resolves db_auto auto_row 3 (SrcCall call_organic)
           "patient says she just walked in" (t_paid + hours 5)).
  split; [right; left; reflexivity|].
  repeat constructor; simpl; intuition discriminate.
Defined.

(** X8: [attribution.save()] in an override rewrites the row of the
    attribution in place: the rows before and after it are untouched,
    no other table changes, and the table's uniqueness constraints
    still hold. *)
Theorem override_saves_in_place (db : DB) (a : Attribution.t) (user : Z)
    (new_source : option Source) (reason : string) (now : Z) :
  attribution_constraints db ->
  In a (attributions db) ->
  let r := override_attribution db a user new_source reason now in
  exists l1 l2,
    attributions db = (l1 ++ a :: l2)%list
    /\ attributions (fst r) = (l1 ++ snd r :: l2)%list
    /\ fst r = with_attributions db (attributions (fst r))
    /\ attribution_constraints (fst r).
Proof.
  intros [Hids Hpats] Hin. cbv zeta.
  destruct (in_split _ _ Hin) as (l1 & l2 & Hrows).
  exists l1, l2. split; [assumption|].
  unfold override_attribution. cbn [fst snd].
  set (a' := Attribution.mk _ _ _ _ _ _ _ _ _ _ _ _ _ _ _ _ _ _).
  assert (Hid : Attribution.id a' = Attribution.id a) by reflexivity.
  assert (Hpa : Attribution.patient a' = Attribution.patient a) by reflexivity.
  clearbody a'.
  unfold save_attribution.
  assert (Hex : existsb (fun r => Attribution.id r =? Attribution.id a') (attributions db)
                = true).
  { apply existsb_exists. exists a. split; [assumption|]. rewrite Hid. apply Z.eqb_refl. }
  rewrite Hex. cbn.
  rewrite Hrows in Hids, Hpats |- *.
  rewrite update_row_split by assumption.
  split; [reflexivity|]. split; [reflexivity|].
  unfold attribution_constraints. cbn.
  rewrite !map_app in *. cbn in *. rewrite Hid, Hpa. auto.
Qed.

Lemma override_saves_in_place_witness :
  attributions db_manual = [manual_row] /\ attribution_constraints db_manual.
Proof.
  destruct (override_saves_in_place db_auto auto_row 3 (Some (SrcCall call_organic))
              "patient says she just walked in" (t_paid + hours 5))
    as (l1 & l2 & Hrows & Hrows' & _ & Hcon).
  - split; repeat constructor; simpl; tauto.
  - left; reflexivity.
  - split; [reflexivity|exact Hcon].
Defined.

(** ** The audit recorder, operation by operation *)

Lemma length_substring_0 (n : nat) (s : string) :
  (String.length (String.substring 0 n s) <= n)%nat.
Proof.
  revert s. induction n as [|n IH]; intros [|ch s]; simpl; try lia.
  specialize (IH s). lia.
Qed.



Lemma varchar_fits_short (n : nat) (s : string) :
  (String.length s <= n)%nat -> varchar_fits n s = true.
Proof. intros H. unfold varchar_fits. apply Nat.leb_le in H. now rewrite H. Qed.




(** An address the [inet] column refuses, sent in [X-Forwarded-For],
    makes [log_audit] raise; so does an action of 21 characters,
    unless the 21st is a space. *)
Example log_audit_refuses :
  log_audit inet_example users_example db_empty (Some 3) 1 "read" (SrcCall call_paid) None
            (Some (Request.mk (Some "unknown, 10.0.0.1") (Some "203.0.113.7") None))
            t_paid
  = Raise DataError
  /\ log_audit inet_example users_example db_empty (Some 3) 1 "read_and_export_all_x"
               (SrcCall call_paid) None None t_paid
     = Raise DataError
  /\ exists db' row,
       log_audit inet_example users_example db_empty (Some 3) 1 "read_and_export_all_ "
                 (SrcCall call_paid) None None t_paid
       = Ok (db', row)
       /\ AuditLog.action row = "read_and_export_all_".
Proof.
  split; [reflexivity|]. split; [reflexivity|].
  eexists _, _. split; reflexivity.
Qed.

Lemma audit_apply_keeps (inet : string -> option string) (user_exists : Z -> bool)
    (db : DB) (op : audit_op) (i : nat) (row : AuditLog.t) :
  nth_error (audit_logs db) i = Some row ->
  pk_truthy (AuditLog.pk row) = true ->
  nth_error (audit_logs (audit_apply inet user_exists db op)) i = Some row.
Proof.
  intros Hnth Hpk.
  assert (Hlt : (i < List.length (audit_logs db))%nat)
    by (apply nth_error_Some; congruence).
  assert (Hsave : forall self now,
             nth_error
               (audit_logs match AuditLog_save inet user_exists db self now with
                           | Ok (db', _) => db'
                           | Raise _ => db
                           end) i = Some row).
  { intros self now. unfold AuditLog_save.
    destruct (pk_truthy (AuditLog.pk self)) eqn:Hself; [assumption|].
    unfold model_save. destruct (row_error _ _ _ _); [assumption|].
    destruct (AuditLog.pk self) as [n|] eqn:Hn.
    - assert (n = 0) as ->.
      { cbn in Hself. apply negb_false_iff, Z.eqb_eq in Hself. assumption. }
      destruct (existsb _ (audit_logs db)); cbn.
      + rewrite nth_error_map, Hnth. cbn. unfold has_pk.
        destruct (AuditLog.pk row) as [m|]; [|discriminate].
        cbn in Hpk. apply negb_true_iff in Hpk. now rewrite Hpk.
      + rewrite nth_error_app1; assumption.
    - cbn. rewrite nth_error_app1; assumption. }
  destruct op as [user clinic action obj changes request now|self now|self].
  - apply Hsave.
  - apply Hsave.
  - assumption.
Qed.

(** X10: whatever sequence of [log_audit], [save] and [delete] calls
    follows, an audit row with a non-zero key stays at its place,
    unchanged. *)
Theorem audit_rows_permanent (inet : string -> option string) (user_exists : Z -> bool)
    (ops : list audit_op) :
  forall (db : DB) (i : nat) (row : AuditLog.t),
    nth_error (audit_logs db) i = Some row ->
    pk_truthy (AuditLog.pk row) = true ->
    nth_error (audit_logs (fold_left (audit_apply inet user_exists) ops db)) i = Some row.
Proof.
  induction ops as [|op ops IH]; intros db i row Hnth Hpk; simpl; [assumption|].
  apply IH; [|assumption]. now apply audit_apply_keeps.
Qed.

Lemma audit_rows_permanent_witness :
  exists row,
    nth_error (audit_logs db_audited) 0 = Some row
    /\ nth_error
         (audit_logs
            (fold_left (audit_apply inet_example users_example)
               [OpSave row t_now; OpDelete row; OpSave (audit_zero "read") t_now;
                OpLog None 1 "export" (SrcCall call_paid) None (Some request_proxied)
                      t_now]
               db_audited)) 0
       = Some row.
Proof.
  eexists. split; [reflexivity|].
  apply (audit_rows_permanent _ _ _ db_audited 0); reflexivity.
Defined.

(** ** What the callback generator creates, and what it skips *)

(** What every clinic's scan keeps, the run keeps. *)
Lemma callback_clinic_invariant (P : DB * nat -> Prop) (now : Z) (ks : list Clinic.t) :
  (forall k st, In k ks -> P st -> P (clinic_step now st k)) ->
  forall st, P st -> P (fold_left (clinic_step now) ks st).
Proof.
  induction ks as [|k ks IH]; intros Hstep st Hst; simpl; [assumption|].
  apply IH.
  - intros k' st' Hk'. apply Hstep. now right.
  - apply Hstep; [now left|assumption].
Qed.

(** X11: the tasks a run of the callback generator adds are as many
    as it reports, and each is the callback task of a missed call
    (under 30 seconds, no appointment) of the last 24 hours that was
    unprocessed, in an active clinic, for the patient with the
    caller's phone. *)
Theorem callback_tasks_justified (db : DB) (now : Z) :
  exists created,
    tasks (fst (generate_missed_call_tasks db now)) = (tasks db ++ created)%list
    /\ List.length created = snd (generate_missed_call_tasks db now)
    /\ Forall (callback_justified db now) created.
Proof.
  unfold generate_missed_call_tasks.
  set (I := fun st : DB * nat =>
              patients (fst st) = patients db
              /\ (forall c, In c (call_events (fst st)) ->
                            CallEvent.is_processed c = false -> In c (call_events db))
              /\ exists created,
                  tasks (fst st) = (tasks db ++ created)%list
                  /\ List.length created = snd st
                  /\ Forall (callback_justified db now) created).
  assert (HI : I (fold_left (clinic_step now) (active_clinics db) (db, O))).
  { apply callback_clinic_invariant.
    - intros k [s0 n0] Hk (Hp0 & Hu0 & Hcr0). unfold clinic_step. cbn [fst] in *.
      apply (loop_invariant (callback_fires k) (callback_act k) (callback_step k)
               (callback_step_eq k) I); [|unfold I; auto].
      intros s n x Hx Hf (Hp & Hu & created & Ht & Hlen & Hall). cbn [fst snd] in *.
      destruct (callback_act_tasks k s x Hf) as (q & Hq & _ & Ht' & _).
      destruct (callback_act_patients k s x) as (_ & Hp' & _).
      split; [cbn; congruence|]. split.
      + intros c Hc Hun. cbn [fst] in Hc. apply Hu; [|assumption].
        now apply (callback_act_unprocessed k s x c Hf).
      + exists (created ++ [callback_task k q x])%list. cbn [fst snd].
        split; [now rewrite Ht', Ht, app_assoc|].
        split; [rewrite length_app; simpl; lia|].
        apply Forall_app. split; [assumption|]. constructor; [|constructor].
        apply missed_calls_In in Hx as (Hx1 & Hx2 & Hx3 & Hx4 & Hx5 & Hx6).
        unfold active_clinics in Hk. apply In_order_by, filter_In in Hk as [Hk1 Hk2].
        exists k, x, q. repeat (split; [assumption|]).
        split; [now apply Hu0|]. repeat (split; [assumption|]).
        split; [|split; [assumption|]].
        * unfold CallEvent.is_missed. rewrite Hx5. cbn. rewrite andb_true_r.
          now apply Z.ltb_lt.
        * split; [|reflexivity].
          now rewrite <- (find_patient_frame db s k _ Hp).
    - unfold I. cbn. split; [reflexivity|]. split; [auto|].
      exists []. rewrite app_nil_r. auto. }
  destruct HI as (_ & _ & H). exact H.
Qed.

(** X12: a call whose caller phone belongs to no patient of its
    clinic is skipped: the run creates no task under its key and
    leaves its row as it is, unprocessed, for a later run. *)
Theorem callback_unresolved_skipped (db : DB) (now : Z) (call : CallEvent.t) :
  call_constraints db ->
  In call (call_events db) ->
  task_exists (callback_key call) (tasks db) = false ->
  (forall k, In k (clinics db) -> Clinic.id k = CallEvent.clinic call ->
             find_patient db k (CallEvent.caller_phone call) = None) ->
  task_exists (callback_key call) (tasks (fst (generate_missed_call_tasks db now))) = false
  /\ In call (call_events (fst (generate_missed_call_tasks db now))).
Proof.
  intros Hcon Hin Hnone Hnopatient.
  unfold generate_missed_call_tasks.
  set (I := fun st : DB * nat =>
              patients (fst st) = patients db
              /\ call_constraints (fst st)
              /\ task_exists (callback_key call) (tasks (fst st)) = false
              /\ In call (call_events (fst st))).
  assert (HI : I (fold_left (clinic_step now) (active_clinics db) (db, O))).
  { apply callback_clinic_invariant; [|unfold I; cbn; auto].
    intros k [s0 n0] Hk (Hp0 & Hcon0 & Hn0 & Hin0). unfold clinic_step.
    cbn [fst] in *.
    unfold active_clinics in Hk. apply In_order_by, filter_In in Hk as [Hk _].
    apply (loop_invariant (callback_fires k) (callback_act k) (callback_step k)
             (callback_step_eq k) I); [|unfold I; cbn; auto].
    destruct Hcon0 as [Hid0 Hsid0].
    intros s n x Hx Hf (Hp & Hc & Hn & Hi). cbn [fst] in *.
    apply missed_calls_In in Hx as (Hx & Hxk & _).
    destruct (callback_act_tasks k s x Hf) as (q & Hq & _ & Ht & Hcalls).
    destruct (callback_act_patients k s x) as (_ & Hp' & _).
    assert (Hsid : CallEvent.call_sid x <> CallEvent.call_sid call).
    { intros E.
      assert (x = call)
        by (apply (NoDup_map_eq CallEvent.call_sid (call_events s0)); assumption).
      subst x.
      rewrite (find_patient_frame db s k _ Hp), (Hnopatient k Hk (eq_sym Hxk)) in Hq.
      discriminate. }
    assert (Hidne : CallEvent.id x <> CallEvent.id call).
    { intros E. apply Hsid. f_equal.
      apply (NoDup_map_eq CallEvent.id (call_events s0)); assumption. }
    split; [cbn; congruence|]. split; [now apply call_constraints_act|].
    cbn [fst]. rewrite Ht, Hcalls, task_exists_app, Hn. cbn [orb]. split.
    - unfold task_exists, callback_task. cbn [existsb Task.idempotency_key].
      destruct (String.eqb_spec (callback_key x) (callback_key call)) as [E|_];
        [|reflexivity].
      exfalso. apply Hsid. now apply callback_key_inj.
    - unfold mark_processed. apply in_map_iff. exists call. split; [|assumption].
      destruct (Z.eqb_spec (CallEvent.id call) (CallEvent.id x)) as [E|_];
        [|reflexivity].
      exfalso. apply Hidne. now symmetry. }
  destruct HI as (_ & _ & H1 & H2). split; assumption.
Qed.

Lemma callback_unresolved_skipped_witness :
  task_exists (callback_key call_stranger)
              (tasks (fst (generate_missed_call_tasks db_stranger t_now))) = false
  /\ In call_stranger (call_events (fst (generate_missed_call_tasks db_stranger t_now))).
Proof.
  apply (callback_unresolved_skipped db_stranger t_now call_stranger).
  - split; repeat constructor; simpl; intuition discriminate.
  - right; left; reflexivity.
  - reflexivity.
  - intros k [<-|[]] _. reflexivity.
Defined.

(** X13: every missed call of the scan (any duration under 30
    seconds) whose caller is a known patient of its active clinic and
    that has no task yet gets exactly one task under its key, for that
    patient, and is marked processed. *)
Theorem callback_every_missed_call (db : DB) (now : Z) (clinic : Clinic.t)
    (call : CallEvent.t) (patient : Patient.t) :
  call_constraints db ->
  In clinic (clinics db) -> Clinic.is_active clinic = true ->
  In call (call_events db) ->
  CallEvent.clinic call = Clinic.id clinic ->
  now - hours 24 <= CallEvent.timestamp call ->
  CallEvent.is_missed call = true ->
  CallEvent.is_processed call = false ->
  find_patient db clinic (CallEvent.caller_phone call) = Some patient ->
  task_exists (callback_key call) (tasks db) = false ->
  callback_done call (callback_task clinic patient call)
                (generate_missed_call_tasks db now).
Proof.
  intros Hcon Hclinic Hactive Hcall Hcc Hrecent Hmissed Hun Hp Hnone.
  unfold CallEvent.is_missed in Hmissed.
  apply andb_prop in Hmissed as [Hshort Hna].
  apply Z.ltb_lt in Hshort. apply negb_true_iff in Hna.
  unfold generate_missed_call_tasks.
  apply (callback_scenario_run db now clinic call patient); auto.
  - left. split; assumption.
  - unfold active_clinics. apply In_order_by, filter_In. auto.
Qed.

Lemma callback_every_missed_call_witness :
  callback_done call_missed (callback_task clinic1 jane call_missed)
                (generate_missed_call_tasks db_stranger t_now).
Proof.
  apply (callback_every_missed_call db_stranger t_now clinic1 call_missed jane).
  - split; repeat constructor; simpl; intuition discriminate.
  - left; reflexivity.
  - reflexivity.
  - left; reflexivity.
  - reflexivity.
  - vm_compute. discriminate.
  - reflexivity.
  - reflexivity.
  - reflexivity.
  - reflexivity.
Defined.

(** ** Follow-up and recall tasks: what they stand for *)

Lemma followup_plans_In (db : DB) (now : Z) (plan : TreatmentPlan.t) (sent_at : Z) :
  In (plan, sent_at) (followup_plans db now)
  <-> In plan (treatment_plans db)
      /\ TreatmentPlan.status plan = "sent"
      /\ clinic_active db (TreatmentPlan.clinic plan) = true
      /\ get_patient db (TreatmentPlan.patient plan) <> None
      /\ TreatmentPlan.sent_at plan = Some sent_at
      /\ now - days 7 - hours 12 <= sent_at
      /\ sent_at <= now - days 7 + hours 12.
Proof.
  unfold followup_plans. rewrite in_flat_map. split.
  - intros (p & Hp & Hrow).
    apply In_order_by, filter_In in Hp as [Hp Hcond].
    rewrite !andb_true_iff, String.eqb_eq in Hcond.
    destruct (TreatmentPlan.sent_at p) as [t|] eqn:Hsent; [|contradiction].
    destruct ((now - days 7 - hours 12 <=? t) && (t <=? now - days 7 + hours 12))
      eqn:Hw; [|contradiction].
    destruct Hrow as [Heq|[]]. injection Heq as -> ->.
    apply andb_prop in Hw as [H1 H2]. apply Z.leb_le in H1, H2.
    repeat split; try tauto.
    destruct (get_patient db (TreatmentPlan.patient plan)); [discriminate|].
    destruct Hcond as [_ Hc]. discriminate.
  - intros (Hp & Hs & Hc & Hg & Hsent & H1 & H2). exists plan. split.
    + apply In_order_by, filter_In. split; [assumption|].
      rewrite Hs, Hc, String.eqb_refl. cbn.
      destruct (get_patient db (TreatmentPlan.patient plan)); [reflexivity|congruence].
    + rewrite Hsent. apply Z.leb_le in H1, H2. rewrite H1, H2. now left.
Qed.

Lemma recall_patients_In (db : DB) (now : Z) (patient : Patient.t) (last_visit : Z) :
  In (patient, last_visit) (recall_patients db now)
  <-> In patient (patients db)
      /\ clinic_active db (Patient.clinic patient) = true
      /\ Patient.last_appointment_date patient = Some last_visit
      /\ last_visit < date_of (now - days 180).
Proof.
  unfold recall_patients. rewrite in_flat_map. split.
  - intros (p & Hp & Hrow).
    apply In_order_by, filter_In in Hp as [Hp Hc].
    destruct (Patient.last_appointment_date p) as [d|] eqn:Hd; [|contradiction].
    destruct (d <? date_of (now - days 180)) eqn:Hlt; [|contradiction].
    destruct Hrow as [Heq|[]]. injection Heq as -> ->.
    apply Z.ltb_lt in Hlt. auto.
  - intros (Hp & Hc & Hd & Hlt). exists patient. split.
    + apply In_order_by, filter_In. auto.
    + rewrite Hd. apply Z.ltb_lt in Hlt. rewrite Hlt. now left.
Qed.

Lemma generate_followup_db (db : DB) (now : Z) :
  fst (generate_treatment_followup_tasks db now) = fst (fst (followup_run db now)).
Proof.
  unfold generate_treatment_followup_tasks.
  destruct (followup_run db now) as [[db' n] [e|]]; reflexivity.
Qed.

Lemma generate_followup_count (db : DB) (now : Z) (n : nat) :
  snd (generate_treatment_followup_tasks db now) = Ok n <->
  snd (followup_run db now) = None /\ snd (fst (followup_run db now)) = n.
Proof.
  unfold generate_treatment_followup_tasks.
  destruct (followup_run db now) as [[db' m] [e|]]; simpl; split.
  - discriminate.
  - intros [H _]. discriminate.
  - intros H. injection H as ->. auto.
  - intros [_ ->]. reflexivity.
Qed.

(** X14: the tasks a run of the follow-up generator adds, whether it
    returns or an exception ends it, are as many as it has counted,
    which is the number it reports when it returns; each stands for a
    plan with status [sent] of an active clinic that was sent between
    7.5 and 6.5 days before the run; it has type [treatment_followup],
    priority 3 and a title of at most 255 characters. *)
Theorem followup_tasks_justified (db : DB) (now : Z) :
  exists created,
    tasks (fst (generate_treatment_followup_tasks db now)) = (tasks db ++ created)%list
    /\ List.length created = snd (run TreatmentFollowup db now)
    /\ (forall n, snd (generate_treatment_followup_tasks db now) = Ok n ->
                  List.length created = n)
    /\ Forall (followup_justified db now) created
    /\ Forall (fun t => (String.length (Task.title t) <= 255)%nat) created.
Proof.
  rewrite generate_followup_db.
  cut (exists created,
          tasks (fst (fst (followup_run db now))) = (tasks db ++ created)%list
          /\ List.length created = snd (fst (followup_run db now))
          /\ Forall (followup_justified db now) created
          /\ Forall (fun t => (String.length (Task.title t) <= 255)%nat) created).
  { intros (created & Hrows & Hlen & Hall & Htitle). exists created.
    split; [assumption|]. split; [assumption|]. split; [|auto].
    intros n Hn. apply generate_followup_count in Hn as [_ <-]. assumption. }
  unfold followup_run.
  apply (rloop_invariant followup_fires followup_act followup_err followup_step
           followup_step_eq
           (fun st => exists created,
                        tasks (fst st) = (tasks db ++ created)%list
                        /\ List.length created = snd st
                        /\ Forall (followup_justified db now) created
                        /\ Forall (fun t => (String.length (Task.title t) <= 255)%nat)
                                  created)).
  - intros s n [plan sent_at] Hin _ _ (created & Hrows & Hlen & Hall & Htitle).
    unfold followup_act. cbn [fst snd tasks with_tasks] in *.
    exists (created ++ [task_stored (followup_task plan sent_at)])%list.
    split; [now rewrite Hrows, app_assoc|].
    split; [rewrite length_app; simpl; lia|].
    split.
    + apply Forall_app. split; [assumption|]. constructor; [|constructor].
      apply followup_plans_In in Hin as (H1 & H2 & H3 & _ & H5 & H6 & H7).
      exists plan, sent_at. repeat (split; [assumption|]). repeat split.
    + apply Forall_app. split; [assumption|]. constructor; [|constructor].
      apply length_substring_0.
  - exists []. simpl. rewrite app_nil_r. auto.
Qed.

(** X15: the tasks a run of the recall generator adds are as many as
    it reports, and each stands for a patient of an active clinic
    whose last appointment date is earlier than the date 180 days
    before the run; a patient without a last appointment is never
    recalled.  The task has type [recall] and priority 4. *)
Theorem recall_tasks_justified (db : DB) (now : Z) :
  exists created,
    tasks (fst (generate_recall_tasks db now)) = (tasks db ++ created)%list
    /\ List.length created = snd (generate_recall_tasks db now)
    /\ Forall (recall_justified db now) created.
Proof.
  unfold generate_recall_tasks.
  apply (loop_invariant (recall_fires now) (recall_act now) (recall_step now)
           (recall_step_eq now)
           (fun st => exists created,
                        tasks (fst st) = (tasks db ++ created)%list
                        /\ List.length created = snd st
                        /\ Forall (recall_justified db now) created)).
  - intros s n [patient last_visit] Hin _ (created & Hrows & Hlen & Hall). simpl in *.
    exists (created ++ [recall_task patient last_visit now])%list.
    split; [now rewrite Hrows, app_assoc|].
    split; [rewrite length_app; simpl; lia|].
    apply Forall_app. split; [assumption|]. constructor; [|constructor].
    apply recall_patients_In in Hin as (H1 & H2 & H3 & H4).
    exists patient, last_visit. repeat (split; [assumption|]). repeat split.
  - exists []. simpl. rewrite app_nil_r. auto.
Qed.

(** ** No eligible trigger is left out *)

Lemma review_appointments_In_iff (db : DB) (now : Z) (appt : Appointment.t)
    (patient : Patient.t) :
  In appt (appointments db) ->
  Appointment.status appt = "completed" ->
  clinic_active db (Appointment.clinic appt) = true ->
  now - hours 24 - hours 1 <= Appointment.scheduled_at appt ->
  Appointment.scheduled_at appt <= now - hours 24 + hours 1 ->
  get_patient db (Appointment.patient appt) = Some patient ->
  In (appt, patient) (review_appointments db now).
Proof.
  intros Hin Hs Hc H1 H2 Hg. unfold review_appointments. apply in_flat_map.
  exists appt. split.
  - apply In_order_by, filter_In. split; [assumption|].
    apply Z.leb_le in H1, H2. now rewrite Hs, Hc, H1, H2, String.eqb_refl.
  - rewrite Hg. now left.
Qed.

(** X16: after a run of the review generator every completed
    appointment of an active clinic in the window whose patient has
    given sms or email consent has a review request under its key. *)
Theorem review_complete (db : DB) (now : Z) (appt : Appointment.t) (patient : Patient.t) :
  In appt (appointments db) ->
  Appointment.status appt = "completed" ->
  clinic_active db (Appointment.clinic appt) = true ->
  now - hours 24 - hours 1 <= Appointment.scheduled_at appt ->
  Appointment.scheduled_at appt <= now - hours 24 + hours 1 ->
  get_patient db (Appointment.patient appt) = Some patient ->
  Patient.sms_consent patient = true \/ Patient.email_consent patient = true ->
  review_exists (review_key appt)
                (review_requests (fst (generate_review_request_tasks db now))) = true.
Proof.
  intros Hin Hs Hc H1 H2 Hg Hconsent.
  pose proof (review_appointments_In_iff db now appt patient Hin Hs Hc H1 H2 Hg) as Hrow.
  pose proof (loop_settles review_fires (review_act now) (review_step now)
                (review_step_eq now) (review_settles now) (review_stable now)
                (review_appointments db now) (db, O) (appt, patient) Hrow) as Hsettled.
  fold (generate_review_request_tasks db now) in Hsettled.
  unfold review_fires in Hsettled. cbn [fst snd] in Hsettled.
  assert (Hor : Patient.sms_consent patient || Patient.email_consent patient = true)
    by (apply orb_true_iff; assumption).
  rewrite Hor in Hsettled. cbn in Hsettled. now apply negb_false_iff in Hsettled.
Qed.

Lemma review_complete_witness :
  review_exists (review_key appt_done)
                (review_requests (fst (generate_review_request_tasks db_visit t_now)))
  = true.
Proof.
  apply (review_complete db_visit t_now appt_done jane).
  - left; reflexivity.
  - reflexivity.
  - reflexivity.
  - vm_compute. discriminate.
  - vm_compute. discriminate.
  - reflexivity.
  - left; reflexivity.
Defined.

Lemma length_append (s1 s2 : string) :
  String.length (s1 ++ s2) = (String.length s1 + String.length s2)%nat.
Proof. induction s1 as [|ch s1 IH]; simpl; [reflexivity|now rewrite IH]. Qed.

Lemma followup_err_short (plan : TreatmentPlan.t) (sent_at : Z) :
  (String.length (TreatmentPlan.title plan) <= 226)%nat ->
  followup_err (plan, sent_at) = None.
Proof.
  intros Hlen. unfold followup_err, task_error, followup_task.
  cbn [fst snd Task.title]. rewrite varchar_fits_short; [reflexivity|].
  rewrite length_append.
  change (String.length "Follow up on treatment plan: ") with 29%nat. lia.
Qed.

(** X17: when every plan of the scan that has no follow-up task yet
    has a title of at most 226 characters, which with the 29 of the
    prefix fits [Task.title], the run of the follow-up generator
    returns, and after it every plan with status [sent] of an active
    clinic that was sent in the window has a follow-up task under its
    key. *)
Theorem followup_complete (db : DB) (now : Z) (plan : TreatmentPlan.t) (sent_at : Z) :
  (forall p s, In (p, s) (followup_plans db now) ->
               task_exists (followup_key p) (tasks db) = true
               \/ (String.length (TreatmentPlan.title p) <= 226)%nat) ->
  In plan (treatment_plans db) ->
  TreatmentPlan.status plan = "sent" ->
  clinic_active db (TreatmentPlan.clinic plan) = true ->
  get_patient db (TreatmentPlan.patient plan) <> None ->
  TreatmentPlan.sent_at plan = Some sent_at ->
  now - days 7 - hours 12 <= sent_at ->
  sent_at <= now - days 7 + hours 12 ->
  (exists n, snd (generate_treatment_followup_tasks db now) = Ok n)
  /\ task_exists (followup_key plan)
                 (tasks (fst (generate_treatment_followup_tasks db now))) = true.
Proof.
  intros Htitles Hin Hs Hc Hg Hsent H1 H2.
  assert (Hrow : In (plan, sent_at) (followup_plans db now))
    by (apply followup_plans_In; auto 10).
  destruct (rloop_completes followup_fires followup_act followup_err followup_step
              followup_step_eq followup_settles followup_stable
              (followup_plans db now) (db, O)) as [Hnone Hall].
  { intros [p s] Hp. destruct (Htitles p s Hp) as [Hdone|Hshort].
    - left. unfold followup_fires. simpl. now rewrite Hdone.
    - right. now apply followup_err_short. }
  fold (followup_run db now) in Hnone, Hall. split.
  - exists (snd (fst (followup_run db now))). now apply generate_followup_count.
  - rewrite generate_followup_db. specialize (Hall _ Hrow).
    unfold followup_fires in Hall. now apply negb_false_iff in Hall.
Qed.

Lemma followup_complete_witness :
  (exists n, snd (generate_treatment_followup_tasks db_plan t_now) = Ok n)
  /\ task_exists (followup_key plan_sent)
                 (tasks (fst (generate_treatment_followup_tasks db_plan t_now))) = true.
Proof.
  apply (followup_complete db_plan t_now plan_sent (t_now - days 7)).
  - intros p s [H|[]]. injection H as <- _. right. cbn. lia.
  - left; reflexivity.
  - reflexivity.
  - reflexivity.
  - discriminate.
  - reflexivity.
  - vm_compute. discriminate.
  - vm_compute. discriminate.
Defined.

(** A title of 227 characters makes the task's title one of 256: the
    run ends with [DataError] at that plan, which gets no task, and
    the plan after it in the scan gets none either; a second run ends
    the same way. *)
Example followup_long_title :
  generate_treatment_followup_tasks db_long_title t_now = (db_long_title, Raise DataError)
  /\ map fst (followup_plans db_long_title t_now)
     = [plan_titled 5 (repeat_x 227); plan_titled 6 "Knee rehabilitation"]
  /\ run TreatmentFollowup db_long_title t_now = (db_long_title, O).
Proof. vm_compute. repeat split. Qed.

(** When the 227th character is a space the column drops it: the run
    returns, and the task's title is the prefix and the 226 other
    characters. *)
Example followup_padded_title :
  exists db',
    generate_treatment_followup_tasks db_padded_title t_now = (db', Ok 1%nat)
    /\ map Task.title (tasks db')
       = ["Follow up on treatment plan: " ++ repeat_x 226].
Proof. eexists. split; vm_compute; reflexivity. Qed.


(** X18: after a run of the recall generator every patient of an
    active clinic whose last appointment date is earlier than the date
    180 days before the run has a recall task for the month of the
    run. *)
Theorem recall_complete (db : DB) (now : Z) (patient : Patient.t) (last_visit : Z) :
  In patient (patients db) ->
  clinic_active db (Patient.clinic patient) = true ->
  Patient.last_appointment_date patient = Some last_visit ->
  last_visit < date_of (now - days 180) ->
  task_exists (recall_key patient now) (tasks (fst (generate_recall_tasks db now))) = true.
Proof.
  intros Hin Hc Hd Hlt.
  assert (Hrow : In (patient, last_visit) (recall_patients db now))
    by (apply recall_patients_In; auto).
  pose proof (loop_settles (recall_fires now) (recall_act now) (recall_step now)
                (recall_step_eq now) (recall_settles now) (recall_stable now)
                (recall_patients db now) (db, O) (patient, last_visit) Hrow) as Hsettled.
  fold (generate_recall_tasks db now) in Hsettled.
  unfold recall_fires in Hsettled. now apply negb_false_iff in Hsettled.
Qed.

Lemma recall_complete_witness :
  task_exists (recall_key jane t_now) (tasks (fst (generate_recall_tasks db_empty t_now)))
  = true.
Proof.
  apply (recall_complete db_empty t_now jane 19600).
  - left; reflexivity.
  - reflexivity.
  - reflexivity.
  - vm_compute. reflexivity.
Defined.

(** ** Idempotency keys *)

Lemma str_int_inj (a b : Z) : str_int a = str_int b -> a = b.
Proof.
  unfold str_int. intros H. apply DecimalZ.to_int_inj.
  assert (Hnn : forall n, Z.to_int n <> Decimal.Pos Decimal.Nil
                          /\ Z.to_int n <> Decimal.Neg Decimal.Nil).
  { intros [|p|p]; simpl; split; try discriminate; intros E; injection E;
      apply DecimalPos.Unsigned.to_uint_nonnil. }
  assert (Some (Z.to_int a) = Some (Z.to_int b)) as E; [|now injection E].
  rewrite <- (NilZero.isi (Z.to_int a)) by apply Hnn.
  rewrite <- (NilZero.isi (Z.to_int b)) by apply Hnn.
  now rewrite H.
Qed.

Lemma uint_underscore_free (d : Decimal.uint) :
  underscore_free (NilEmpty.string_of_uint d).
Proof. induction d; simpl; auto; split; auto; discriminate. Qed.

Lemma str_int_underscore_free (n : Z) : underscore_free (str_int n).
Proof.
  unfold str_int.
  assert (H : forall d, underscore_free (NilZero.string_of_uint d)).
  { intros d. destruct d; try apply uint_underscore_free.
    simpl. split; [discriminate|exact I]. }
  destruct (Z.to_int n) as [d|d]; simpl; [apply H|].
  split; [discriminate|apply H].
Qed.

Lemma split_at_underscore (a b r r' : string) :
  underscore_free a -> underscore_free b ->
  (a ++ String "_" r)%string = (b ++ String "_" r')%string ->
  a = b /\ r = r'.
Proof.
  revert b. induction a as [|ch a IH]; intros [|ch' b] Ha Hb H; simpl in *.
  - injection H as ->. auto.
  - injection H as E _. destruct Hb as [Hb _]. congruence.
  - injection H as E _. destruct Ha as [Ha _]. congruence.
  - injection H as -> H. destruct Ha as [_ Ha], Hb as [_ Hb].
    destruct (IH b Ha Hb H) as [-> ->]. auto.
Qed.

(** X19: an idempotency key determines its trigger: equal callback
    keys mean equal call sids, equal follow-up keys equal plan ids,
    equal recall keys the same patient id and the same year and month;
    and a key of one generator is never a key of another. *)
Theorem idempotency_keys_determine_trigger :
  (forall c c', callback_key c = callback_key c' ->
                CallEvent.call_sid c = CallEvent.call_sid c')
  /\ (forall a a', review_key a = review_key a' ->
                   Appointment.cliniko_id a = Appointment.cliniko_id a')
  /\ (forall p p', followup_key p = followup_key p' ->
                   TreatmentPlan.id p = TreatmentPlan.id p')
  /\ (forall q q' now now', recall_key q now = recall_key q' now' ->
                            Patient.id q = Patient.id q'
                            /\ strftime_Ym now = strftime_Ym now')
  /\ (forall c p, callback_key c <> followup_key p)
  /\ (forall c q now, callback_key c <> recall_key q now)
  /\ (forall p q now, followup_key p <> recall_key q now)
  /\ (forall a c, review_key a <> callback_key c)
  /\ (forall a p, review_key a <> followup_key p)
  /\ (forall a q now, review_key a <> recall_key q now).
Proof.
  repeat match goal with |- _ /\ _ => split end;
    try (intros; unfold callback_key, followup_key, recall_key, review_key; simpl;
         discriminate).
  - apply callback_key_inj.
  - intros a a'. unfold review_key. apply append_inj.
  - intros p p' H. unfold followup_key in H. now apply append_inj, str_int_inj in H.
  - intros q q' now now' H. unfold recall_key in H. apply append_inj in H.
    apply split_at_underscore in H as [H1 H2]; try apply str_int_underscore_free.
    split; [now apply str_int_inj|assumption].
Qed.

(** X20: a patient recalled by a run is not recalled again by any
    later run of the same calendar month: the later run adds no task
    under the patient's key. *)
Theorem recall_once_per_month (db : DB) (now now' : Z) (patient : Patient.t)
    (last_visit : Z) :
  strftime_Ym now' = strftime_Ym now ->
  In patient (patients db) ->
  clinic_active db (Patient.clinic patient) = true ->
  Patient.last_appointment_date patient = Some last_visit ->
  last_visit < date_of (now - days 180) ->
  let db1 := fst (generate_recall_tasks db now) in
  let db2 := fst (generate_recall_tasks db1 now') in
  task_exists (recall_key patient now') (tasks db1) = true
  /\ filter (has_key (recall_key patient now')) (tasks db2)
     = filter (has_key (recall_key patient now')) (tasks db1).
Proof.
  intros Hym Hin Hc Hd Hlt. cbv zeta.
  assert (Hkey : recall_key patient now' = recall_key patient now)
    by (unfold recall_key; now rewrite Hym).
  assert (Hex : task_exists (recall_key patient now')
                            (tasks (fst (generate_recall_tasks db now))) = true).
  { rewrite Hkey. now apply (recall_complete db now patient last_visit). }
  split; [exact Hex|].
  set (db1 := fst (generate_recall_tasks db now)) in *.
  unfold generate_recall_tasks at 1.
  apply (loop_invariant (recall_fires now') (recall_act now') (recall_step now')
           (recall_step_eq now')
           (fun st => filter (has_key (recall_key patient now')) (tasks (fst st))
                      = filter (has_key (recall_key patient now')) (tasks db1)));
    [|reflexivity].
  intros s n [q d] _ Hf Hinv. cbn [fst snd] in *.
  unfold recall_fires in Hf. cbn [fst] in Hf. apply negb_true_iff in Hf.
  unfold recall_act. cbn [fst snd tasks with_tasks].
  rewrite filter_app, Hinv. cbn [filter].
  assert (Hk : has_key (recall_key patient now') (recall_task q d now') = false).
  { unfold has_key, recall_task. cbn [Task.idempotency_key].
    destruct (String.eqb_spec (recall_key q now') (recall_key patient now')) as [E|_];
      [|reflexivity].
    rewrite E in Hf. apply task_exists_filter in Hf. rewrite Hf in Hinv.
    symmetry in Hinv. apply task_exists_filter in Hinv. congruence. }
  rewrite Hk. apply app_nil_r.
Qed.

Lemma recall_once_per_month_witness :
  task_exists (recall_key jane (t_now + days 7))
              (tasks (fst (generate_recall_tasks db_empty t_now))) = true
  /\ filter (has_key (recall_key jane (t_now + days 7)))
            (tasks (fst (generate_recall_tasks (fst (generate_recall_tasks db_empty t_now))
                                               (t_now + days 7))))
     = filter (has_key (recall_key jane (t_now + days 7)))
              (tasks (fst (generate_recall_tasks db_empty t_now))).
Proof.
  apply (recall_once_per_month db_empty t_now (t_now + days 7) jane 19600).
  - reflexivity.
  - left; reflexivity.
  - reflexivity.
  - reflexivity.
  - vm_compute. reflexivity.
Defined.

(** A month later the key is a new one and the patient is recalled
    again. *)
Example recall_next_month :
  let db1 := fst (generate_recall_tasks db_empty t_now) in
  let db2 := fst (generate_recall_tasks db1 (t_now + days 30)) in
  task_keys (tasks db1) = ["recall_10_2024-03"]
  /\ task_keys (tasks db2) = ["recall_10_2024-03"; "recall_10_2024-04"].
Proof. vm_compute. split; reflexivity. Qed.

(** ** Appointments that share a cliniko id *)

Lemma review_count_keys (key : string) (rows : list ReviewRequest.t) :
  List.length (filter (fun r => (ReviewRequest.idempotency_key r =? key)%string) rows)
  = count_occ string_dec (review_keys rows) key.
Proof.
  unfold review_keys. induction rows as [|r rows IH]; simpl; [reflexivity|].
  destruct (String.eqb_spec (ReviewRequest.idempotency_key r) key) as [E|Hne];
    destruct (string_dec (ReviewRequest.idempotency_key r) key); try contradiction;
    simpl; congruence.
Qed.

(** X21: the review key is built from the appointment's [cliniko_id]
    alone, so two eligible appointments with the same [cliniko_id]
    (in different clinics, say) get one review request between them:
    after the run exactly one request carries the shared key. *)
Theorem review_shared_key (db : DB) (now : Z) (a1 a2 : Appointment.t) (p1 : Patient.t) :
  In a1 (appointments db) ->
  Appointment.status a1 = "completed" ->
  clinic_active db (Appointment.clinic a1) = true ->
  now - hours 24 - hours 1 <= Appointment.scheduled_at a1 ->
  Appointment.scheduled_at a1 <= now - hours 24 + hours 1 ->
  get_patient db (Appointment.patient a1) = Some p1 ->
  Patient.sms_consent p1 = true \/ Patient.email_consent p1 = true ->
  Appointment.cliniko_id a2 = Appointment.cliniko_id a1 ->
  Appointment.id a2 <> Appointment.id a1 ->
  review_exists (review_key a1) (review_requests db) = false ->
  exists r,
    filter (fun r => (ReviewRequest.idempotency_key r =? review_key a1)%string)
           (review_requests (fst (generate_review_request_tasks db now))) = [r]
    /\ ReviewRequest.idempotency_key r = review_key a2
    /\ (ReviewRequest.appointment r <> Appointment.id a1
        \/ ReviewRequest.appointment r <> Appointment.id a2).
Proof.
  intros Hin Hs Hc H1 H2 Hg Hconsent Hcid Hids Hnone.
  pose proof (review_complete db now a1 p1 Hin Hs Hc H1 H2 Hg Hconsent) as Hex.
  destruct (review_run_grows db now) as (created & Hkeys & Hnd & Hfresh & _).
  cbn [keys_of] in *.
  set (rows := review_requests (fst (generate_review_request_tasks db now))) in *.
  assert (Hlen : List.length
                   (filter (fun r => (ReviewRequest.idempotency_key r
                                      =? review_key a1)%string) rows) = 1%nat).
  { rewrite review_count_keys, Hkeys, count_occ_app.
    assert (Hnot : ~ In (review_key a1) (review_keys (review_requests db))).
    { intros Hi. apply review_exists_keys in Hi. congruence. }
    rewrite (proj1 (count_occ_not_In string_dec _ _) Hnot).
    apply review_exists_keys in Hex. rewrite Hkeys in Hex.
    apply in_app_or in Hex as [Hex|Hex]; [contradiction|].
    pose proof (proj1 (NoDup_count_occ string_dec created) Hnd (review_key a1)) as Hle.
    apply (count_occ_In string_dec) in Hex. lia. }
  destruct (filter _ rows) as [|r [|r' l]] eqn:Hf; try discriminate.
  exists r. split; [reflexivity|].
  assert (Hr : In r (filter (fun r => (ReviewRequest.idempotency_key r
                                       =? review_key a1)%string) rows))
    by (rewrite Hf; now left).
  apply filter_In in Hr as [_ Hr]. apply String.eqb_eq in Hr.
  split; [unfold review_key in *; congruence|].
  destruct (Z.eq_dec (ReviewRequest.appointment r) (Appointment.id a1)) as [E|Hne];
    [right; congruence|left; assumption].
Qed.

Lemma review_shared_key_witness :
  exists r,
    filter (fun r => (ReviewRequest.idempotency_key r =? review_key appt_done)%string)
           (review_requests (fst (generate_review_request_tasks db_twins t_now))) = [r]
    /\ ReviewRequest.idempotency_key r = review_key appt_twin
    /\ (ReviewRequest.appointment r <> Appointment.id appt_done
        \/ ReviewRequest.appointment r <> Appointment.id appt_twin).
Proof.
  apply (review_shared_key db_twins t_now appt_done appt_twin jane).
  - left; reflexivity.
  - reflexivity.
  - reflexivity.
  - vm_compute. discriminate.
  - vm_compute. discriminate.
  - reflexivity.
  - left; reflexivity.
  - reflexivity.
  - discriminate.
  - reflexivity.
Defined.

(** In [db_twins] both appointments are eligible and one request is
    created, for the first of the scan. *)
Example review_twins_one_request :
  snd (generate_review_request_tasks db_twins t_now) = 1%nat
  /\ List.length (review_appointments db_twins t_now) = 2%nat
  /\ map ReviewRequest.appointment
         (review_requests (fst (generate_review_request_tasks db_twins t_now))) = [3].
Proof. vm_compute. repeat split. Qed.

Lemma idempotency_keys_determine_trigger_witness :
  Patient.id jane = Patient.id jane
  /\ strftime_Ym t_now = strftime_Ym (t_now + days 7).
Proof.
  destruct idempotency_keys_determine_trigger as (_ & _ & _ & Hrecall & _).
  apply (Hrecall jane jane t_now (t_now + days 7)). reflexivity.
Defined.
